(** * DLR dashboard: a shallow embedding of the dashboard loaders and the
      offline extraction scripts, with the properties stated about them.

    Source files covered:
    - [src/tab2_abnormal_events.py]   (module [Tab2])
    - [src/tab3_route_popularity.py]  (module [Tab3])
    - [utils/trend_extractor.py]      (module [TrendExtractor])
    - [utils/trend-metadata.py]       (module [TrendMetadata])
    - [utils/weekly-trend-extractor.py] (module [WeeklyTrendExtractor])
    - [utils/street-extractor.py]     (module [StreetExtractor])
    with [Py] for the Python built-ins they use, [St] for Streamlit and
    the files read, [Json] for parsed JSON documents used as Python
    values, [Click] for the popup click detection the two tabs share, and
    [DailyData] for the rows of daily_street_data.csv.
    The definitions come first, the properties after them.

    Conventions.  A Python [str] is a [string], the string of its UTF-8
    bytes; the whitespace class is that of the ASCII range.  The case
    mapping of the scripts ([str.contains(case=False)] in the trend
    extractor, [.str.lower()] in the street extractor) is a parameter
    ([Py.CaseMapping], [StreetExtractor.GeoLib]); [Py.lower] and
    [Py.upper] are the mapping on ASCII characters, used where the code
    looks for ASCII keywords and to run examples.  A pandas cell that may
    be missing (NaN, NaT, None) is an [option].  A Python [float] is an
    IEEE-754 binary64 value ([spec_float] at precision 53, emax 1024).
    A DataFrame is the list of its rows, a row being a record of the
    columns the code reads. *)

From Stdlib Require Import ZArith QArith Ascii String.
From Stdlib Require Import Floats.SpecFloat.
From stdpp Require Import base decidable option list gmap strings sorting.

Local Open Scope Z_scope.

(* ================================================================== *)
(** * Python strings                                                   *)
(* ================================================================== *)

Module Py.

(** [c.lower()] and [c.upper()] on one character. *)
Definition lower_char (c : ascii) : ascii :=
  let n := nat_of_ascii c in
  if ((65 <=? n) && (n <=? 90))%nat then ascii_of_nat (n + 32) else c.

Definition upper_char (c : ascii) : ascii :=
  let n := nat_of_ascii c in
  if ((97 <=? n) && (n <=? 122))%nat then ascii_of_nat (n - 32) else c.

Fixpoint map_chars (f : ascii → ascii) (s : string) : string :=
  match s with
  | EmptyString => EmptyString
  | String c s' => String (f c) (map_chars f s')
  end.

(** [s.lower()], [s.upper()] on a str of ASCII characters. *)
Definition lower : string → string := map_chars lower_char.
Definition upper : string → string := map_chars upper_char.

(** [s.upper()] on any str.  Python maps every cased letter of Unicode,
    a str being kept here as the string of its UTF-8 bytes; that mapping
    is a parameter, and what is proved of the code that calls it holds
    for every mapping.  [ascii_case] is the mapping of the ASCII range,
    with which Python's agrees on a str of ASCII characters: it serves to
    run the definitions on such strings. *)
Class CaseMapping := { str_upper : string → string }.

Definition ascii_case : CaseMapping := {| str_upper := upper |}.

(** [s.startswith(p)]. *)
Fixpoint startswith (p s : string) : bool :=
  match p, s with
  | EmptyString, _ => true
  | String _ _, EmptyString => false
  | String a p', String b s' => bool_decide (a = b) && startswith p' s'
  end.

(** [needle in hay]: substring test. *)
Fixpoint contains (needle hay : string) : bool :=
  startswith needle hay ||
  match hay with
  | EmptyString => false
  | String _ hay' => contains needle hay'
  end.

(** The mathematical reading of "[hay] contains [needle]". *)
Definition Substring (needle hay : string) : Prop :=
  ∃ pre suf, hay = pre +:+ needle +:+ suf.

(** [c.isspace()]. *)
Definition is_space (c : ascii) : bool :=
  let n := nat_of_ascii c in
  ((9 <=? n) && (n <=? 13) || (28 <=? n) && (n <=? 32))%nat.

(** [s.lstrip()], [s.rstrip()], [s.strip()]. *)
Fixpoint lstrip (s : string) : string :=
  match s with
  | EmptyString => EmptyString
  | String c s' => if is_space c then lstrip s' else s
  end.

Fixpoint rstrip (s : string) : string :=
  match s with
  | EmptyString => EmptyString
  | String c s' =>
      match rstrip s' with
      | EmptyString => if is_space c then EmptyString else String c EmptyString
      | r => String c r
      end
  end.

Definition strip (s : string) : string := rstrip (lstrip s).

(** [s.split(sep)] for a non-empty separator (the script only splits on
    literal, non-empty separators): [skip] counts the
    characters of a separator occurrence still to be passed over, [cur]
    is the piece being read, in reverse. *)
Fixpoint split_go (sep : string) (skip : nat) (cur : string) (s : string)
  : list string :=
  match s with
  | EmptyString => [String.rev cur]
  | String c s' =>
      match skip with
      | S k => split_go sep k cur s'
      | O =>
          if startswith sep s
          then String.rev cur :: split_go sep (String.length sep - 1) EmptyString s'
          else split_go sep O (String c cur) s'
      end
  end.

Definition split (sep s : string) : list string := split_go sep O EmptyString s.

(** [s.split()]: the maximal runs of non-whitespace characters. *)
Fixpoint split_ws_go (cur : string) (s : string) : list string :=
  match s with
  | EmptyString =>
      match cur with EmptyString => [] | _ => [String.rev cur] end
  | String c s' =>
      if is_space c
      then match cur with
           | EmptyString => split_ws_go EmptyString s'
           | _ => String.rev cur :: split_ws_go EmptyString s'
           end
      else split_ws_go (String c cur) s'
  end.

Definition split_ws (s : string) : list string := split_ws_go EmptyString s.

(** [sep.join(pieces)]. *)
Fixpoint join (sep : string) (pieces : list string) : string :=
  match pieces with
  | [] => EmptyString
  | [p] => p
  | p :: rest => p +:+ sep +:+ join sep rest
  end.

(** Truthiness of a string: [if s:]. *)
Definition truthy (s : string) : bool :=
  match s with EmptyString => false | _ => true end.

(** ** Exceptions

    A call that may raise returns a [result]; [try ... except Exception]
    is [try_except]. *)
Inductive exn :=
| ValueError | TypeError | KeyError | AttributeError
| ReError | OSError | ParserError | JSONDecodeError | GEOSException
| IndexError.

Inductive result (A : Type) :=
| Ok (a : A)
| Raise (e : exn).
Global Arguments Ok {A} a.
Global Arguments Raise {A} e.

Definition bind {A B} (r : result A) (k : A → result B) : result B :=
  match r with Ok a => k a | Raise e => Raise e end.

Definition try_except {A} (body : result A) (handler : exn → result A) : result A :=
  match body with Ok a => Ok a | Raise e => handler e end.

(** [for x in xs: body x], the loop state threaded through, stopping at
    the first exception. *)
Fixpoint for_each {A S} (xs : list A) (body : S → A → result S) (s : S) : result S :=
  match xs with
  | [] => Ok s
  | x :: xs' => bind (body s x) (for_each xs' body)
  end.

(** [[f x for x in xs]] with a fallible [f]. *)
Fixpoint map_result {A B} (f : A → result B) (xs : list A) : result (list B) :=
  match xs with
  | [] => Ok []
  | x :: xs' =>
      bind (f x) (λ y, bind (map_result f xs') (λ ys, Ok (y :: ys)))
  end.

(** ** Floats (IEEE-754 binary64, round to nearest even) *)
Definition float_of_int (z : Z) : spec_float := binary_normalize 53 1024 z 0 false.

(** [a / b] on two ints with [b ≠ 0]; both operands are below [2^53] in
    the uses here, so converting them first is exact. *)
Definition truediv (a b : Z) : spec_float :=
  SFdiv 53 1024 (float_of_int a) (float_of_int b).

Definition fmul (x y : spec_float) : spec_float := SFmul 53 1024 x y.

(** [int(x)]: truncation toward zero; infinities and NaN raise. *)
Definition int_of_float (x : spec_float) : result Z :=
  match x with
  | S754_zero _ => Ok 0
  | S754_finite s m e =>
      let a := if 0 <=? e then Z.pos m * 2 ^ e else Z.pos m / 2 ^ (- e) in
      Ok (if s then - a else a)
  | S754_infinity _ => Raise ValueError
  | S754_nan => Raise ValueError
  end.

(** [Series.unique()], [DataFrame.drop_duplicates()]: the first occurrence
    of every value, in order of appearance. *)
Fixpoint unique {A} `{EqDecision A} (l : list A) : list A :=
  match l with
  | [] => []
  | x :: l' => x :: filter (λ y, y ≠ x) (unique l')
  end.

(** [hay.find(needle)]: the index of the first occurrence, or -1. *)
Fixpoint find_from (needle hay : string) (i : Z) : Z :=
  if startswith needle hay then i
  else match hay with
       | EmptyString => -1
       | String _ hay' => find_from needle hay' (i + 1)
       end.

Definition find (needle hay : string) : Z := find_from needle hay 0.

(** [len(s)] *)
Definition len (s : string) : Z := Z.of_nat (String.length s).

(** [d.get(key)] on a dict with [str] keys, kept as the list of its
    items in insertion order. *)
Fixpoint dict_get {V} (key : string) (d : list (string * V)) : option V :=
  match d with
  | [] => None
  | (k, v) :: d' => if bool_decide (k = key) then Some v else dict_get key d'
  end.

(** [d[key] = v]: the value of an existing key is replaced in place, a
    new key goes last. *)
Fixpoint dict_set {V} (key : string) (v : V) (d : list (string * V)) : list (string * V) :=
  match d with
  | [] => [(key, v)]
  | (k, w) :: d' =>
      if bool_decide (k = key) then (k, v) :: d' else (k, w) :: dict_set key v d'
  end.

(** The characters of a string, as iterating over it yields them. *)
Fixpoint chars (s : string) : list string :=
  match s with
  | EmptyString => []
  | String c s' => String c EmptyString :: chars s'
  end.

(** [s.capitalize()]: the first character in upper case, the others in
    lower case. *)
Definition capitalize (s : string) : string :=
  match s with
  | EmptyString => EmptyString
  | String c s' => String (upper_char c) (lower s')
  end.

(** [s.replace(old, new)] for a non-empty [old]: the occurrences found
    from left to right, as [split] finds them. *)
Definition replace (old new s : string) : string := join new (split old s).

(** No position inside the piece being read starts an occurrence of the
    separator in the text still to be read. *)
Definition no_start_inside (sep cur rest : string) : Prop :=
  ∀ u t, String.rev cur = u +:+ t → t ≠ EmptyString →
    startswith sep (t +:+ rest) = false.

End Py.

Global Instance result_ret : MRet Py.result := λ A a, Py.Ok a.
Global Instance result_bind : MBind Py.result := λ A B k r, Py.bind r k.

(* ================================================================== *)
(** * Streamlit messages and the files the dashboard reads             *)
(* ================================================================== *)

Module St.

(** [st.error], [st.warning], [st.info]. *)
Inductive level := Error | Warning | Info.

(** One emitted message: its level, the literal head of its f-string and
    the exception it formats, if any. *)
Record message := {
  msg_level : level;
  msg_text : string;
  msg_exn : option Py.exn;
}.

(** A computation that may raise and that appends to the page's
    messages. *)
Definition io (A : Type) : Type := list message → Py.result A * list message.

Definition ret {A} (a : A) : io A := λ log, (Py.Ok a, log).

Definition bind {A B} (m : io A) (k : A → io B) : io B :=
  λ log, match m log with
         | (Py.Ok a, log') => k a log'
         | (Py.Raise e, log') => (Py.Raise e, log')
         end.

(** A call into a library, which may raise. *)
Definition call {A} (r : Py.result A) : io A := λ log, (r, log).

Definition emit (l : level) (text : string) (e : option Py.exn) : io unit :=
  λ log, (Py.Ok tt, log ++ [ {| msg_level := l; msg_text := text; msg_exn := e |} ]).

(** [try: body  except Exception as e: handler e] *)
Definition try_except {A} (body : io A) (handler : Py.exn → io A) : io A :=
  λ log, match body log with
         | (Py.Ok a, log') => (Py.Ok a, log')
         | (Py.Raise e, log') => handler e log'
         end.

(** [for x in xs: body x], the loop state threaded through. *)
Fixpoint for_each {A S} (xs : list A) (body : S → A → io S) (s : S) : io S :=
  match xs with
  | [] => ret s
  | x :: xs' => bind (body s x) (for_each xs' body)
  end.

(** A [pathlib.Path]: its components. *)
Definition path := list string.

(** [p / name], [p.parent], [p.name]. *)
Definition join (p : path) (names : list string) : path := p ++ names.
Definition parent (p : path) : path := removelast p.
Definition name (p : path) : string := List.last p EmptyString.

(** A parsed JSON document. *)
Local Unset Elimination Schemes.
Inductive json :=
| JNull
| JBool (b : bool)
| JNum (q : Q)
| JStr (s : string)
| JArr (items : list json)
| JObj (members : list (string * json)).
Local Set Elimination Schemes.

(** What the loaders meet outside the program: the file system, the
    parsers, and the pandas operations on the frames read, each of which
    may raise.  [frame] is a DataFrame. *)
Record world (frame : Type) := {
  script_dir : path;                         (* Path(__file__).parent *)
  cwd : Py.result path;                      (* Path.cwd() *)
  path_exists : path → Py.result bool;       (* path.exists() *)
  json_load : path → Py.result json;         (* open(path) and json.load *)
  read_csv : path → Py.result frame;         (* pd.read_csv *)
  empty_frame : frame;                       (* pd.DataFrame() *)
  (* load_abnormal_events_data, line by line *)
  strip_column_names : frame → Py.result frame;
  drop_index_column : frame → Py.result frame;
  dropna_street_name : frame → Py.result frame;
  drop_blank_street_name : frame → Py.result frame;
  replace_apostrophe : frame → Py.result frame;
  replace_a_acute : frame → Py.result frame;
  strip_street_name : frame → Py.result frame;
  (* load_abnormal_events_segments: the loop over the features and
     pd.DataFrame(data) *)
  features_frame : json → Py.result frame;
  (* load_route_popularity_data, line by line *)
  rename_columns : frame → Py.result frame;
  add_colour : frame → Py.result frame;
  add_trips_count : frame → Py.result frame;
  add_compat_fields : frame → Py.result frame;
  add_default_speed : frame → Py.result frame;
}.
Global Arguments script_dir {frame}.
Global Arguments cwd {frame}.
Global Arguments path_exists {frame}.
Global Arguments json_load {frame}.
Global Arguments read_csv {frame}.
Global Arguments empty_frame {frame}.
Global Arguments strip_column_names {frame}.
Global Arguments drop_index_column {frame}.
Global Arguments dropna_street_name {frame}.
Global Arguments drop_blank_street_name {frame}.
Global Arguments replace_apostrophe {frame}.
Global Arguments replace_a_acute {frame}.
Global Arguments strip_street_name {frame}.
Global Arguments features_frame {frame}.
Global Arguments rename_columns {frame}.
Global Arguments add_colour {frame}.
Global Arguments add_trips_count {frame}.
Global Arguments add_compat_fields {frame}.
Global Arguments add_default_speed {frame}.

(** The message is a report of the exception [e]: an error or a warning
    that formats it. *)
Definition reports (e : Py.exn) (m : message) : Prop :=
  (msg_level m = Error ∨ msg_level m = Warning) ∧ msg_exn m = Some e.

(** [loader] is [body] under a handler that catches: it never raises,
    and when [body] raises it appends a report of the exception and
    returns [sentinel]. *)
Definition catches {A} (loader body : io A) (sentinel : A) : Prop :=
  ∀ log, ∃ v log',
    loader log = (Py.Ok v, log')
    ∧ ∀ e log1, body log = (Py.Raise e, log1) →
        v = sentinel ∧ ∃ m rest, log' = log1 ++ m :: rest ∧ reports e m.

(** [loader] is [body] under a handler that says nothing: it never
    raises and never writes to the page, and when [body] raises it returns
    [sentinel]. *)
Definition silent {A} (loader body : io A) (sentinel : A) : Prop :=
  ∀ log, ∃ v,
    loader log = (Py.Ok v, log)
    ∧ ∀ e log1, body log = (Py.Raise e, log1) → v = sentinel.

(** A deployment where every file is found and none of them parses. *)
Definition unreadable_files : world (list string) :=
  {| script_dir := ["/app"; "src"];
     cwd := Py.Ok ["/app"];
     path_exists := λ _, Py.Ok true;
     json_load := λ _, Py.Raise Py.JSONDecodeError;
     read_csv := λ _, Py.Raise Py.ParserError;
     empty_frame := [];
     strip_column_names := Py.Ok;
     drop_index_column := Py.Ok;
     dropna_street_name := Py.Ok;
     drop_blank_street_name := Py.Ok;
     replace_apostrophe := Py.Ok;
     replace_a_acute := Py.Ok;
     strip_street_name := Py.Ok;
     features_frame := λ _, Py.Ok [];
     rename_columns := Py.Ok;
     add_colour := Py.Ok;
     add_trips_count := Py.Ok;
     add_compat_fields := Py.Ok;
     add_default_speed := Py.Ok |}.

End St.

Global Instance io_ret : MRet St.io := @St.ret.
Global Instance io_bind : MBind St.io := λ A B k m, St.bind m k.

(* ================================================================== *)
(** * From a clicked popup to a street (both tabs)                     *)
(* ================================================================== *)

Module Click.

(** The first loop of [render_tab2] and [render_tab3]: the first street
    name the text starts with.  A missing name (NaN) is no [str], and
    [startswith] raises on it. *)
Fixpoint direct_match (text : string) (names : list (option string))
  : Py.result (option string) :=
  match names with
  | [] => Py.Ok None
  | None :: _ => Py.Raise Py.TypeError
  | Some street_name :: rest =>
      if Py.startswith street_name text then Py.Ok (Some street_name)
      else direct_match text rest
  end.

(** [if not clicked_street] *)
Definition falsy (clicked_street : option string) : bool :=
  match clicked_street with
  | None => true
  | Some s => negb (Py.truthy s)
  end.

(** The second loop: the name found earliest in the text; the state is
    [clicked_street] and [earliest_position]. *)
Definition earliest_match (text : string) (names : list (option string))
    (clicked_street : option string) : Py.result (option string * Z) :=
  Py.for_each names
    (λ '(clicked_street, earliest_position) cell,
       match cell with
       | None => Py.Raise Py.TypeError
       | Some street_name =>
           let position := Py.find street_name text in
           if bool_decide (position ≠ -1) && (position <? earliest_position)
           then Py.Ok (Some street_name, position)
           else Py.Ok (clicked_street, earliest_position)
       end)
    (clicked_street, Py.len text).

(** Both loops: [prefix_text] is the text the first loop looks at,
    [search_text] the text the second one searches. *)
Definition clicked_street (prefix_text search_text : string)
    (names : list (option string)) : Py.result (option string) :=
  clicked ← direct_match prefix_text names;
  if falsy clicked
  then found ← earliest_match search_text names clicked; Py.Ok found.1
  else Py.Ok clicked.

End Click.
(* ================================================================== *)
(** * Parsed JSON documents as Python values                           *)
(* ================================================================== *)

Module Json.
Import St.

(** [obj.get(key, default)]: only a dict has [get]. *)
Definition get (obj : json) (key : string) (otherwise : json) : Py.result json :=
  match obj with
  | JObj members => Py.Ok (default otherwise (Py.dict_get key members))
  | _ => Py.Raise Py.AttributeError
  end.

(** [obj.items()] *)
Definition items (obj : json) : Py.result (list (string * json)) :=
  match obj with
  | JObj members => Py.Ok members
  | _ => Py.Raise Py.AttributeError
  end.

(** What [for x in obj] goes through: the items of a list, the keys of a
    dict, the characters of a string; nothing else is iterable. *)
Definition iter (obj : json) : Py.result (list json) :=
  match obj with
  | JArr items => Py.Ok items
  | JObj members => Py.Ok (JStr <$> members.*1)
  | JStr s => Py.Ok (JStr <$> Py.chars s)
  | JNull | JBool _ | JNum _ => Py.Raise Py.TypeError
  end.

(** [isinstance(obj, dict)] *)
Definition is_dict (obj : json) : bool :=
  match obj with JObj _ => true | _ => false end.

(** [obj[key]] with a [str] key *)
Definition subscript (obj : json) (key : string) : Py.result json :=
  match obj with
  | JObj members =>
      match Py.dict_get key members with
      | Some v => Py.Ok v
      | None => Py.Raise Py.KeyError
      end
  | _ => Py.Raise Py.TypeError
  end.

(** [obj[i]] with a non-negative [int] index: a dict parsed from JSON has
    only [str] keys. *)
Definition index (obj : json) (i : nat) : Py.result json :=
  match obj with
  | JArr items =>
      match items !! i with
      | Some v => Py.Ok v
      | None => Py.Raise Py.IndexError
      end
  | JStr s =>
      match Py.chars s !! i with
      | Some c => Py.Ok (JStr c)
      | None => Py.Raise Py.IndexError
      end
  | JObj _ => Py.Raise Py.KeyError
  | JNull | JBool _ | JNum _ => Py.Raise Py.TypeError
  end.

(** [len(obj)] *)
Definition len (obj : json) : Py.result Z :=
  match obj with
  | JArr items => Py.Ok (Z.of_nat (length items))
  | JObj members => Py.Ok (Z.of_nat (length members))
  | JStr s => Py.Ok (Py.len s)
  | JNull | JBool _ | JNum _ => Py.Raise Py.TypeError
  end.

(** [if obj:] *)
Definition truthy (obj : json) : bool :=
  match obj with
  | JNull => false
  | JBool b => b
  | JNum q => negb (Qeq_bool q 0)
  | JStr s => Py.truthy s
  | JArr items => bool_decide (items ≠ [])
  | JObj members => bool_decide (members ≠ [])
  end.

(** [obj == s] for a str [s] *)
Definition eq_str (obj : json) (s : string) : bool :=
  match obj with
  | JStr t => bool_decide (t = s)
  | _ => false
  end.

End Json.


(* ================================================================== *)
(** * src/tab2_abnormal_events.py                                      *)
(* ================================================================== *)

Module Tab2.

(** A row of the abnormal-events frame: the two columns the KPI cards
    read. *)
Record abnormal_row := {
  street_name : option string;
  trend : option string;
}.

Global Instance abnormal_row_eq_dec : EqDecision abnormal_row.
Proof. solve_decision. Defined.

(** A KPI card: its label and the number it shows. *)
Record kpi_card := { kpi_label : string; kpi_value : Z }.

(** [len(abnormal_df['street_name'].unique()) if not abnormal_df.empty else 0] *)
Definition total_abnormal (abnormal_df : list abnormal_row) : Z :=
  match abnormal_df with
  | [] => 0
  | _ => Z.of_nat (length (Py.unique (street_name <$> abnormal_df)))
  end.

(** [len(abnormal_df[abnormal_df['trend'] == t]) if not abnormal_df.empty else 0] *)
Definition count_trend (t : string) (abnormal_df : list abnormal_row) : Z :=
  match abnormal_df with
  | [] => 0
  | _ => Z.of_nat (length (filter (λ r, trend r = Some t) abnormal_df))
  end.

Definition high_risk_routes := count_trend "Increase".
Definition improved_routes := count_trend "Decrease".

(** [int((improved_routes / total_abnormal * 100)) if total_abnormal > 0 else 0] *)
Definition improvement_rate (abnormal_df : list abnormal_row) : Py.result Z :=
  if 0 <? total_abnormal abnormal_df
  then Py.int_of_float
         (Py.fmul (Py.truediv (improved_routes abnormal_df) (total_abnormal abnormal_df))
                  (Py.float_of_int 100))
  else Py.Ok 0.

(** The four cards, in column order. *)
Definition create_abnormal_metrics (abnormal_df : list abnormal_row)
  : Py.result (list kpi_card) :=
  rate ← improvement_rate abnormal_df;
  Py.Ok [ {| kpi_label := "Total Streets"; kpi_value := total_abnormal abnormal_df |};
          {| kpi_label := "Increased Risk"; kpi_value := high_risk_routes abnormal_df |};
          {| kpi_label := "Improved Safety"; kpi_value := improved_routes abnormal_df |};
          {| kpi_label := "Improvement Rate"; kpi_value := rate |} ].

(** The percentage the card is described as showing: the exact quotient,
    truncated. *)
Definition exact_rate (improved total : Z) : Z :=
  if 0 <? total then (improved * 100) ÷ total else 0.

(** A frame of [n] rows with pairwise distinct street names, the first
    [k] of them with trend 'Decrease' and the others with 'Increase'. *)
Definition street_no (i : nat) : string := String (ascii_of_nat (48 + i)) EmptyString.

Definition sample_frame (n k : nat) : list abnormal_row :=
  (λ i, {| street_name := Some (street_no i);
           trend := Some (if (i <? k)%nat then "Decrease" else "Increase") |})
  <$> seq 0 n.


(** ** Data loading *)

Section loaders.
Context {frame : Type} (w : St.world frame).

Definition tab2_dir : list string := ["data"; "processed"; "tab2_abnormaltrend"].

(** [get_data_directory]: the first of the candidate directories that
    exists, else the first candidate. *)
Definition get_data_directory : Py.result St.path :=
  let script_dir := St.script_dir w in
  cwd ← St.cwd w;
  let possible_paths :=
    [ St.join (St.parent script_dir) tab2_dir;
      St.join cwd tab2_dir;
      St.join (St.join ["/mount/src"] [St.name cwd]) tab2_dir;
      ["/mount/src/dlr-dashboard/data/processed/tab2_abnormaltrend"];
      ["data/processed/tab2_abnormaltrend"] ] in
  found ← Py.for_each possible_paths
             (λ found p,
                match found with
                | Some _ => Py.Ok found
                | None => ex ← St.path_exists w p; Py.Ok (if ex : bool then Some p else None)
                end) None;
  Py.Ok (default (St.join (St.parent script_dir) tab2_dir) found).

(** The [try] block of [load_abnormal_events_data]. *)
Definition load_abnormal_events_data_body : St.io frame :=
  data_dir ← St.call get_data_directory;
  let csv_path := St.join data_dir ["dlr-abnormal-events.csv"] in
  ex ← St.call (St.path_exists w csv_path);
  if negb ex then
    _ ← St.emit St.Error "CSV file not found at: " None;
    _ ← St.emit St.Info "Looked in directory: " None;
    mret (St.empty_frame w)
  else
    df ← St.call (St.read_csv w csv_path);
    df ← St.call (St.strip_column_names w df);
    df ← St.call (St.drop_index_column w df);
    df ← St.call (St.dropna_street_name w df);
    df ← St.call (St.drop_blank_street_name w df);
    df ← St.call (St.replace_apostrophe w df);
    df ← St.call (St.replace_a_acute w df);
    df ← St.call (St.strip_street_name w df);
    mret df.

Definition load_abnormal_events_data : St.io frame :=
  St.try_except load_abnormal_events_data_body
    (λ e, _ ← St.emit St.Error "Error loading abnormal events CSV data: " (Some e);
          mret (St.empty_frame w)).

(** The [try] block of [load_abnormal_events_segments]; the result is
    [None] for Python's None. *)
Definition load_abnormal_events_segments_body : St.io (option frame) :=
  data_dir ← St.call get_data_directory;
  let geojson_path := St.join data_dir ["abnormal-events.geojson"] in
  ex ← St.call (St.path_exists w geojson_path);
  if negb ex then
    _ ← St.emit St.Error "GeoJSON file not found at: " None;
    _ ← St.emit St.Info "Looked in directory: " None;
    mret None
  else
    geojson_data ← St.call (St.json_load w geojson_path);
    df ← St.call (St.features_frame w geojson_data);
    mret (Some df).

Definition load_abnormal_events_segments : St.io (option frame) :=
  St.try_except load_abnormal_events_segments_body
    (λ e, _ ← St.emit St.Error "Error loading GeoJSON data: " (Some e);
          _ ← St.emit St.Error "Traceback: " (Some e);
          mret None).

End loaders.

(** ** Map bounds *)

(** A Python float used as a coordinate or as an accumulator: a finite
    number, or one of the two infinities the accumulators start from. *)
Inductive coord :=
| NegInf
| Fin (q : Q)
| PosInf.

(** [a < b] *)
Definition coord_lt (a b : coord) : bool :=
  match a, b with
  | NegInf, NegInf => false
  | NegInf, _ => true
  | Fin _, NegInf => false
  | Fin p, Fin q => negb (Qle_bool q p)
  | Fin _, PosInf => true
  | PosInf, _ => false
  end.

(** [min(a, b)] and [max(a, b)]: the first argument unless the second is
    strictly smaller (larger). *)
Definition py_min (a b : coord) : coord := if coord_lt b a then b else a.
Definition py_max (a b : coord) : coord := if coord_lt a b then b else a.

(** A GeoJSON position: the JSON array of its numbers. *)
Definition position := list Q.

(** A GeoJSON geometry dict: [geom.get('type')] and, when the key is
    present, [geom['coordinates']] read as a list of rings.  The
    coordinates of a geometry whose type is not 'Polygon' are fetched but
    never inspected, so their nesting is immaterial. *)
Record geometry := {
  gtype : option string;
  coordinates : option (list (list position));
}.

Record bounds_acc := {
  min_lon : coord; min_lat : coord; max_lon : coord; max_lat : coord;
}.

Definition bounds_init : bounds_acc :=
  {| min_lon := PosInf; min_lat := PosInf; max_lon := NegInf; max_lat := NegInf |}.

(** [lon, lat = p] *)
Definition unpack_lon_lat (p : position) : Py.result (Q * Q) :=
  match p with
  | [lon; lat] => Py.Ok (lon, lat)
  | _ => Py.Raise Py.ValueError
  end.

(** The body of [for lon, lat in ring]. *)
Definition visit_vertex (a : bounds_acc) (p : position) : Py.result bounds_acc :=
  '(lon, lat) ← unpack_lon_lat p;
  Py.Ok {| min_lon := py_min (min_lon a) (Fin lon);
           max_lon := py_max (max_lon a) (Fin lon);
           min_lat := py_min (min_lat a) (Fin lat);
           max_lat := py_max (max_lat a) (Fin lat) |}.

(** The body of [for geom in geometries]. *)
Definition visit_geometry (a : bounds_acc) (geom : geometry) : Py.result bounds_acc :=
  let coords := default [[]] (coordinates geom) in
  if bool_decide (gtype geom = Some "Polygon")
  then Py.for_each coords (λ a ring, Py.for_each ring visit_vertex a) a
  else Py.Ok a.

Definition default_bounds : list coord :=
  [Fin (-63 # 10); Fin (532 # 10); Fin (-61 # 10); Fin (534 # 10)].

Definition calculate_bounds_from_geometries (geometries : list geometry)
  : Py.result (list coord) :=
  a ← Py.for_each geometries visit_geometry bounds_init;
  match min_lon a with
  | PosInf => Py.Ok default_bounds
  | _ => Py.Ok [min_lon a; min_lat a; max_lon a; max_lat a]
  end.

(** All ring vertices of all Polygon geometries of the list. *)
Definition polygon_vertices (geometries : list geometry) : list position :=
  geom ← geometries;
  if bool_decide (gtype geom = Some "Polygon")
  then concat (default [[]] (coordinates geom))
  else [].

(** Longitude and latitude of a two-number position. *)
Definition lon (p : position) : Q := nth 0 p 0%Q.
Definition lat (p : position) : Q := nth 1 p 0%Q.



(** ** The rows of abnormal-events.geojson ([load_abnormal_events_segments]) *)

(** [v.strip()] on a parsed value: only a str has it. *)
Definition strip_value (v : St.json) : Py.result string :=
  match v with
  | St.JStr s => Py.Ok (Py.strip s)
  | _ => Py.Raise Py.AttributeError
  end.

(** A row of the segments frame. *)
Record segment_row := {
  segment_street_name : string;
  segment_geometry : St.json;
}.

(** The loop over the features, from [geojson_data.get('features', [])]
    to the list [data] the frame is built from. *)
Definition features_rows (geojson_data : St.json) : Py.result (list segment_row) :=
  features ← Json.get geojson_data "features" (St.JArr []);
  features ← Json.iter features;
  Py.for_each features
    (λ data feature,
       properties ← Json.get feature "properties" (St.JObj []);
       geometry ← Json.get feature "geometry" (St.JObj []);
       street_name ← Json.get properties "street_name" (St.JStr EmptyString);
       street_name ← strip_value street_name;
       Py.Ok (data ++ [ {| segment_street_name := street_name;
                           segment_geometry := geometry |} ]))
    [].

(** The row a well-formed feature gives: its stripped street name, the
    empty string when it has none, and its geometry, an empty dict when it
    has none. *)
Definition feature_street_name (feature : St.json) : option string :=
  match feature with
  | St.JObj members =>
      match default (St.JObj []) (Py.dict_get "properties" members) with
      | St.JObj properties =>
          match default (St.JStr EmptyString) (Py.dict_get "street_name" properties) with
          | St.JStr s => Some (Py.strip s)
          | _ => None
          end
      | _ => None
      end
  | _ => None
  end.

Definition feature_geometry (feature : St.json) : St.json :=
  match feature with
  | St.JObj members => default (St.JObj []) (Py.dict_get "geometry" members)
  | _ => St.JObj []
  end.

(** A deployment where every file is found and the GeoJSON file parses
    to [doc]; the frame of the segments is the list of its rows. *)
Definition geojson_world (doc : St.json) : St.world (list segment_row) :=
  {| St.script_dir := ["/app"; "src"];
     St.cwd := Py.Ok ["/app"];
     St.path_exists := λ _, Py.Ok true;
     St.json_load := λ _, Py.Ok doc;
     St.read_csv := λ _, Py.Raise Py.ParserError;
     St.empty_frame := [];
     St.strip_column_names := Py.Ok;
     St.drop_index_column := Py.Ok;
     St.dropna_street_name := Py.Ok;
     St.drop_blank_street_name := Py.Ok;
     St.replace_apostrophe := Py.Ok;
     St.replace_a_acute := Py.Ok;
     St.strip_street_name := Py.Ok;
     St.features_frame := features_rows;
     St.rename_columns := Py.Ok;
     St.add_colour := Py.Ok;
     St.add_trips_count := Py.Ok;
     St.add_compat_fields := Py.Ok;
     St.add_default_speed := Py.Ok |}.

(** The candidate directories of [get_data_directory], in the order
    tried. *)
Definition data_directory_candidates (script_dir cwd : St.path) : list St.path :=
  [ St.join (St.parent script_dir) tab2_dir;
    St.join cwd tab2_dir;
    St.join (St.join ["/mount/src"] [St.name cwd]) tab2_dir;
    ["/mount/src/dlr-dashboard/data/processed/tab2_abnormaltrend"];
    ["data/processed/tab2_abnormaltrend"] ].

(** ** The cycleways layer ([load_cycleways_data])

    [GEOPANDAS_AVAILABLE] is the outcome of the guarded import,
    [read_file] is [gpd.read_file]. *)

(** The candidate paths of the cycleways file, in the order tried. *)
Definition cycleways_candidates (script_dir cwd : St.path) : list St.path :=
  [ St.join (St.parent script_dir) ["data"; "cycleways.geojson"];
    St.join cwd ["data"; "cycleways.geojson"];
    St.join (St.join ["/mount/src"] [St.name cwd]) ["data"; "cycleways.geojson"];
    ["/mount/src/dlr-dashboard/data/cycleways.geojson"];
    ["data/cycleways.geojson"] ].

Section cycleways.
Context {frame : Type} (w : St.world frame).
Context (GEOPANDAS_AVAILABLE : bool) (read_file : St.path → Py.result frame).

(** The [try] block. *)
Definition load_cycleways_data_body : St.io frame :=
  if negb GEOPANDAS_AVAILABLE then mret (St.empty_frame w)
  else
    let script_dir := St.script_dir w in
    cwd ← St.call (St.cwd w);
    let possible_paths :=
      [ St.join (St.parent script_dir) ["data"; "cycleways.geojson"];
        St.join cwd ["data"; "cycleways.geojson"];
        St.join (St.join ["/mount/src"] [St.name cwd]) ["data"; "cycleways.geojson"];
        ["/mount/src/dlr-dashboard/data/cycleways.geojson"];
        ["data/cycleways.geojson"] ] in
    found ← St.call
      (Py.for_each possible_paths
         (λ found p,
            match found with
            | Some _ => Py.Ok found
            | None =>
                ex ← St.path_exists w p;
                if ex : bool then gdf ← read_file p; Py.Ok (Some gdf) else Py.Ok None
            end) None);
    mret (default (St.empty_frame w) found).

Definition load_cycleways_data : St.io frame :=
  St.try_except load_cycleways_data_body (λ _, mret (St.empty_frame w)).

End cycleways.

(** ** The map ([create_abnormal_events_map]) *)

(** What [row.get(column, default)] meets: no such column, an empty cell
    (NaN), or a str. *)
Inductive field :=
| Absent
| NaN
| Text (s : string).

(** A row of [abnormal_df], as the map and the detail card read it.
    [event_trend] is the trend when the cell holds a str; a missing column
    and an empty cell both compare unequal to 'Increase' and to
    'Decrease'. *)
Record event_row := {
  event_street_name : option string;
  event_trend : option string;
  event_trend_strength : field;
  event_ai_summary : field;
}.

(** A row of [segments_df]. *)
Record map_segment := {
  map_street_name : string;
  map_geometry : geometry;
}.

(** A polygon put on the map: the vertices as [lat, lon], the colours,
    and of the popup the status and the trend strength. *)
Record polygon := {
  locations : list (Q * Q);
  color : string;
  fill_color : string;
  status_text : string;
  trend_strength : string;
  tooltip : string;
}.

(** [trend_strength = main_row.get('Trend Strength', 'N/A')] and its
    capitalisation; an empty cell is a float, which has no
    [capitalize]. *)
Definition capitalized_strength (cell : field) : Py.result string :=
  match cell with
  | Absent => Py.Ok "N/A"
  | NaN => Py.Raise Py.AttributeError
  | Text s => Py.Ok (if bool_decide (s ≠ "N/A") then Py.capitalize s else s)
  end.

(** [color], [fill_color] and [status_text] for a trend. *)
Definition trend_style (trend : option string) : string * string * string :=
  if bool_decide (trend = Some "Increase") then ("#ef4444", "#fee2e2", "Increased Risk")
  else if bool_decide (trend = Some "Decrease") then ("#22c55e", "#d1fae5", "Improved Safety")
  else ("#6b7280", "#f3f4f6", "No Change").

(** [coords = geometry.get('coordinates', [[]])[0]] *)
Definition outer_ring (geometry : geometry) : Py.result (list position) :=
  match default [[]] (coordinates geometry) with
  | [] => Py.Raise Py.IndexError
  | ring :: _ => Py.Ok ring
  end.

(** [[[lat, lon] for lon, lat in coords]] *)
Definition swap_lon_lat (coords : list position) : Py.result (list (Q * Q)) :=
  Py.map_result (λ p, '(lon, lat) ← unpack_lon_lat p; Py.Ok (lat, lon)) coords.

Section map.
Context {frame : Type} (w : St.world frame).
Context (GEOPANDAS_AVAILABLE : bool) (read_file : St.path → Py.result frame).
(** [cycleways_gdf.empty], and the two folium layers added to the map *)
Context (is_empty : frame → bool).
Context (add_geojson : frame → Py.result unit).
Context (add_polygon : polygon → Py.result unit).

(** The block under [if show_cycleways]. *)
Definition add_cycleways (show_cycleways : bool) : St.io unit :=
  if show_cycleways then
    cycleways_gdf ← load_cycleways_data w GEOPANDAS_AVAILABLE read_file;
    if negb (is_empty cycleways_gdf)
    then St.try_except (St.call (add_geojson cycleways_gdf)) (λ _, mret tt)
    else mret tt
  else mret tt.

(** The [try] block of the loop over the segments; the state is the
    polygons drawn and [routes_added]. *)
Definition draw_segment (p : list (Q * Q) → polygon) (geometry : geometry)
    (state : list polygon * Z) : St.io (list polygon * Z) :=
  if bool_decide (gtype geometry = Some "Polygon") then
    coords ← St.call (outer_ring geometry);
    locations ← St.call (swap_lon_lat coords);
    _ ← St.call (add_polygon (p locations));
    mret (state.1 ++ [p locations], state.2 + 1)
  else mret state.

(** The body of [for idx, row in segments_df.iterrows()]. *)
Definition add_segment (abnormal_df : list event_row) (state : list polygon * Z)
    (row : map_segment) : St.io (list polygon * Z) :=
  let street_name := map_street_name row in
  let geometry := map_geometry row in
  let street_data := filter (λ r, event_street_name r = Some street_name) abnormal_df in
  match street_data with
  | [] => mret state
  | main_row :: _ =>
      let trend := event_trend main_row in
      trend_strength ← St.call (capitalized_strength (event_trend_strength main_row));
      let '(color, fill_color, status_text) := trend_style trend in
      St.try_except
        (draw_segment
           (λ locations,
              {| locations := locations; color := color; fill_color := fill_color;
                 status_text := status_text; trend_strength := trend_strength;
                 tooltip := street_name |})
           geometry state)
        (λ e, _ ← St.emit St.Warning "Could not add geometry for " (Some e); mret state)
  end.

(** [segments_df] is [None] for Python's None; the result is the polygons
    on the map and [routes_added]. *)
Definition create_abnormal_events_map (abnormal_df : list event_row)
    (segments_df : option (list map_segment)) (show_cycleways : bool)
  : St.io (list polygon * Z) :=
  match segments_df with
  | None | Some [] =>
      _ ← St.emit St.Warning "No segment geometry available" None;
      mret ([], 0)
  | Some segments =>
      bounds ← St.call (calculate_bounds_from_geometries (map_geometry <$> segments));
      _ ← add_cycleways show_cycleways;
      St.for_each segments (add_segment abnormal_df) ([], 0)
  end.

End map.

(** ** The detail card ([create_abnormal_detail_card]) *)

(** The texts of the card: the status and its colour, the trend strength
    and the AI summary. *)
Record detail_card := {
  card_street_name : string;
  card_safety_status : string;
  card_safety_color : string;
  card_trend_strength : string;
  card_ai_summary : string;
}.

(** [safety_status] *)
Definition safety_status (trend : option string) : string :=
  if bool_decide (trend = Some "Decrease") then "Improved Safety" else "Increased Risk".

(** [ai_summary = row.get('AI Summary', ...)] with 'Probable Cause:' made
    bold; an empty cell is a float, which has no [replace]. *)
Definition bold_cause (cell : field) : Py.result string :=
  match cell with
  | Absent => Py.Ok (Py.replace "Probable Cause:" "**Probable Cause:**"
                       "No AI analysis available")
  | NaN => Py.Raise Py.AttributeError
  | Text s => Py.Ok (Py.replace "Probable Cause:" "**Probable Cause:**" s)
  end.

Definition create_abnormal_detail_card (street_name : string) (row : event_row)
  : Py.result detail_card :=
  let trend := event_trend row in
  let safety_status := safety_status trend in
  let safety_color :=
    if bool_decide (safety_status = "Improved Safety") then "#10b981" else "#f43f5e" in
  trend_strength ← capitalized_strength (event_trend_strength row);
  ai_summary ← bold_cause (event_ai_summary row);
  Py.Ok {| card_street_name := street_name;
           card_safety_status := safety_status;
           card_safety_color := safety_color;
           card_trend_strength := trend_strength;
           card_ai_summary := ai_summary |}.

(** [show_abnormal_events_details]; the result is the card shown, if
    any. *)
Definition show_abnormal_events_details (df : list event_row)
    (selected_street : option string) : St.io (option detail_card) :=
  if Click.falsy selected_street then mret None
  else
    let street_data := filter (λ r, event_street_name r = selected_street) df in
    match street_data with
    | [] => _ ← St.emit St.Error "No data found for " None; mret None
    | main_row :: _ =>
        card ← St.call (create_abnormal_detail_card (default EmptyString selected_street)
                          main_row);
        mret (Some card)
    end.

(** Two streets of the events frame, the second without a trend
    strength, and segments for three streets. *)
Definition sample_events : list event_row :=
  [ {| event_street_name := Some "Kill Lane"; event_trend := Some "Increase";
       event_trend_strength := Text "strong";
       event_ai_summary := Text "Probable Cause: a junction" |};
    {| event_street_name := Some "Nutley Lane"; event_trend := Some "Decrease";
       event_trend_strength := NaN; event_ai_summary := Absent |} ].

Definition kill_lane_segment : map_segment :=
  {| map_street_name := "Kill Lane";
     map_geometry :=
       {| gtype := Some "Polygon";
          coordinates := Some [[[-61 # 10; 532 # 10]; [-62 # 10; 533 # 10];
                                [-61 # 10; 533 # 10]]] |} |}.

Definition rock_road_segment : map_segment :=
  {| map_street_name := "Rock Road";
     map_geometry := {| gtype := Some "Polygon"; coordinates := Some [[]] |} |}.

Definition nutley_lane_segment : map_segment :=
  {| map_street_name := "Nutley Lane";
     map_geometry := {| gtype := Some "LineString"; coordinates := None |} |}.

(** ** The street of a clicked popup ([render_tab2])

    [popup_content] is stripped once; the names are
    [abnormal_df['street_name'].dropna().unique()]. *)
Definition clicked_street (popup : string) (street_column : list (option string))
  : Py.result (option string) :=
  let popup_content := Py.strip popup in
  Click.clicked_street popup_content popup_content
    (Some <$> Py.unique (omap id street_column)).

End Tab2.

(* ================================================================== *)
(** * src/tab3_route_popularity.py                                     *)
(* ================================================================== *)

Module Tab3.

(** [get_color], the helper nested in [load_route_popularity_data].  The
    argument is a cell of the 'Popularity Change' column: [None] when
    [pd.isna] holds, otherwise [str(change_text)]. *)
Definition get_color (change_text : option string) : string :=
  match change_text with
  | None => "Gray"
  | Some text =>
      let change_lower := Py.lower text in
      if Py.contains "increasing" change_lower || Py.contains "improved" change_lower
      then "Green"
      else if Py.contains "decreasing" change_lower
              || Py.contains "dropped" change_lower
              || Py.contains "decline" change_lower
      then "Red"
      else "Gray"
  end.

(** ** Data loading *)

Section loaders.
Context {frame : Type} (w : St.world frame).

(** [get_data_path] *)
Definition get_data_path : St.path :=
  let script_dir := St.script_dir w in
  if bool_decide (St.name script_dir = "src")
  then St.join (St.parent script_dir) ["data"; "processed"; "tab3_routepopularity"]
  else ["data"; "processed"; "tab3_routepopularity"].

(** The three JSON loaders differ by file, by the label of their warnings
    and by the empty value they fall back to. *)
Definition load_json_body (file missing : string) (empty : St.json) : St.io St.json :=
  let data_dir := get_data_path in
  let file_path := St.join data_dir [file] in
  ex ← St.call (St.path_exists w file_path);
  if ex : bool then
    St.call (St.json_load w file_path)
  else
    _ ← St.emit St.Warning missing None;
    mret empty.

Definition load_json (file missing failed : string) (empty : St.json) : St.io St.json :=
  St.try_except (load_json_body file missing empty)
    (λ e, _ ← St.emit St.Warning failed (Some e); mret empty).

Definition load_time_of_day_data_body : St.io St.json :=
  load_json_body "time-of-the-day.json" "Time of day data not found at: " (St.JArr []).
Definition load_time_of_day_data : St.io St.json :=
  load_json "time-of-the-day.json" "Time of day data not found at: "
    "Could not load time of day data: " (St.JArr []).

Definition load_day_of_week_data_body : St.io St.json :=
  load_json_body "day-of-the-week.json" "Day of week data not found at: " (St.JObj []).
Definition load_day_of_week_data : St.io St.json :=
  load_json "day-of-the-week.json" "Day of week data not found at: "
    "Could not load day of week data: " (St.JObj []).

Definition load_street_trends_metadata_body : St.io St.json :=
  load_json_body "weekly_street_trends.json" "Street trends metadata not found at: "
    (St.JObj []).
Definition load_street_trends_metadata : St.io St.json :=
  load_json "weekly_street_trends.json" "Street trends metadata not found at: "
    "Could not load street trends metadata: " (St.JObj []).

(** The [try] block of [load_route_popularity_data]. *)
Definition load_route_popularity_data_body : St.io frame :=
  let data_dir := get_data_path in
  let file_path := St.join data_dir ["dlr-route-popularity.csv"] in
  ex ← St.call (St.path_exists w file_path);
  if negb ex then
    _ ← St.emit St.Error "Route popularity CSV not found at: " None;
    mret (St.empty_frame w)
  else
    df ← St.call (St.read_csv w file_path);
    df ← St.call (St.strip_column_names w df);
    df ← St.call (St.rename_columns w df);
    df ← St.call (St.strip_street_name w df);
    df ← St.call (St.add_colour w df);
    df ← St.call (St.add_trips_count w df);
    df ← St.call (St.add_compat_fields w df);
    df ← St.call (St.add_default_speed w df);
    mret df.

Definition load_route_popularity_data : St.io frame :=
  St.try_except load_route_popularity_data_body
    (λ e, _ ← St.emit St.Error "Error loading route popularity data: " (Some e);
          _ ← St.emit St.Error "" (Some e);
          mret (St.empty_frame w)).

End loaders.

(** [load_daily_street_data] *)
Section daily_street_data.
Context {frame : Type} (w : St.world frame).
(** ['date' in df.columns] and [df['date'] = pd.to_datetime(df['date'])] *)
Context (has_date_column : frame → bool).
Context (dates_to_datetime : frame → Py.result frame).

Definition load_daily_street_data_body : St.io frame :=
  let data_dir := get_data_path w in
  let file_path := St.join data_dir ["daily_street_data.csv"] in
  ex ← St.call (St.path_exists w file_path);
  if ex : bool then
    df ← St.call (St.read_csv w file_path);
    df ← (if has_date_column df then St.call (dates_to_datetime df) else mret df);
    mret df
  else
    _ ← St.emit St.Warning "Daily street data not found at: " None;
    mret (St.empty_frame w).

Definition load_daily_street_data : St.io frame :=
  St.try_except load_daily_street_data_body
    (λ e, _ ← St.emit St.Warning "Could not load daily street data: " (Some e);
          mret (St.empty_frame w)).

End daily_street_data.

(** The two keyword families of [get_color], on the lowercased text. *)
Definition increase_keyword (text : string) : Prop :=
  Py.Substring "increasing" (Py.lower text) ∨ Py.Substring "improved" (Py.lower text).

Definition decline_keyword (text : string) : Prop :=
  Py.Substring "decreasing" (Py.lower text)
  ∨ Py.Substring "dropped" (Py.lower text)
  ∨ Py.Substring "decline" (Py.lower text).

(** ** The street of a clicked popup ([render_tab3])

    The first loop looks at [popup_content.strip()], the second searches
    [popup_content] as it is; the names are [df['street_name'].tolist()]. *)
Definition clicked_street (popup_content : string) (street_column : list (option string))
  : Py.result (option string) :=
  Click.clicked_street (Py.strip popup_content) popup_content street_column.

(** ** The road segments ([load_road_segments]) *)

(** A shapely geometry, as the map reads it: the vertices are (x, y).
    [Other] stands for the remaining geometry types. *)
Inductive shape :=
| MultiLineString (geoms : list (list (Q * Q)))
| Point (x y : Q)
| LineString (coords : list (Q * Q))
| Other (geom_type : string).

(** A row of the GeoDataFrame built by [GeoDataFrame.from_features]; a
    feature without geometry has None. *)
Record geo_row := {
  geo_street_name : option string;
  geo_geometry : option shape;
}.

(** A row of the fallback DataFrame: the values are kept as parsed. *)
Record fallback_row := {
  fb_street_name : St.json;
  fb_original_clean_name : St.json;
  fb_geometry : St.json;
  fb_geometry_type : St.json;
  fb_coordinates : St.json;
}.

(** What [load_road_segments] returns: a GeoDataFrame or a DataFrame. *)
Inductive road_segments :=
| GeoDataFrame (rows : list geo_row)
| DataFrame (rows : list fallback_row).

(** The loop of the fallback loader. *)
Definition fallback_features (geojson_data : St.json) : Py.result (list fallback_row) :=
  features ← Json.get geojson_data "features" (St.JArr []);
  features ← Json.iter features;
  Py.for_each features
    (λ features feature,
       props ← Json.get feature "properties" (St.JObj []);
       geom ← Json.get feature "geometry" (St.JObj []);
       street_name ← Json.get props "street_name" (St.JStr EmptyString);
       original_clean_name ← Json.get props "original_clean_name" (St.JStr EmptyString);
       geometry_type ← Json.get geom "type" (St.JStr EmptyString);
       coordinates ← Json.get geom "coordinates" (St.JArr []);
       Py.Ok (features ++ [ {| fb_street_name := street_name;
                               fb_original_clean_name := original_clean_name;
                               fb_geometry := geom;
                               fb_geometry_type := geometry_type;
                               fb_coordinates := coordinates |} ]))
    [].

Section road_segments.
Context {frame : Type} (w : St.world frame).
(** [gpd.GeoDataFrame.from_features] and the assignment to [gdf.crs] *)
Context (from_features : St.json → Py.result (list geo_row)).
Context (set_crs : list geo_row → Py.result unit).

(** The inner [try] block. *)
Definition load_geodataframe (file_path : St.path) : St.io road_segments :=
  geojson_data ← St.call (St.json_load w file_path);
  features ← St.call (Json.subscript geojson_data "features");
  gdf ← St.call (from_features features);
  _ ← St.try_except (St.call (set_crs gdf)) (λ _, mret tt);
  mret (GeoDataFrame gdf).

(** Its handler. *)
Definition load_fallback (file_path : St.path) (gdf_error : Py.exn) : St.io road_segments :=
  _ ← St.emit St.Info "Using fallback GeoJSON loader (GeoPandas issue: " (Some gdf_error);
  geojson_data ← St.call (St.json_load w file_path);
  features ← St.call (fallback_features geojson_data);
  mret (DataFrame features).

(** The outer [try] block. *)
Definition load_road_segments_body : St.io road_segments :=
  let data_dir := get_data_path w in
  let file_path := St.join data_dir ["trimmed_active_segments.geojson"] in
  ex ← St.call (St.path_exists w file_path);
  if negb ex then
    _ ← St.emit St.Warning "Road segments GeoJSON not found at: " None;
    mret (GeoDataFrame [])
  else
    St.try_except (load_geodataframe file_path) (load_fallback file_path).

Definition load_road_segments : St.io road_segments :=
  St.try_except load_road_segments_body
    (λ e, _ ← St.emit St.Error "Could not load road segments: " (Some e);
          _ ← St.emit St.Error "" (Some e);
          mret (DataFrame [])).

(** ** The cycleways of tab 3 ([load_cycleways_data]); None is Python's
    None. *)
Definition load_cycleways_data_body : St.io (option St.json) :=
  let data_dir := get_data_path w in
  let paths :=
    [ St.join data_dir ["dublin-cycleways.geojson"];
      St.join (St.parent data_dir) ["dublin-cycleways.geojson"];
      St.join (St.parent data_dir) ["tab2_abnormaltrend"; "dublin-cycleways.geojson"];
      ["/Users/abhishekkumbhar/Documents/GitHub/DLR-dashboard/data/processed/dublin-cycleways.geojson"] ] in
  St.call
    (Py.for_each paths
       (λ found p,
          match found with
          | Some _ => Py.Ok found
          | None =>
              ex ← St.path_exists w p;
              if ex : bool then data ← St.json_load w p; Py.Ok (Some data) else Py.Ok None
          end) None).

Definition load_cycleways_data : St.io (option St.json) :=
  St.try_except load_cycleways_data_body (λ _, mret None).

End road_segments.

(** ** The route map ([create_route_map]) *)

(** [get_color_for_route] *)
Definition color_map : list (string * string) :=
  [ ("Green", "#22c55e"); ("Red", "#ef4444"); ("Gray", "#9ca3af") ].

Definition get_color_for_route (color : string) : string :=
  default "#9ca3af" (Py.dict_get color color_map).

(** [status_text] of a popup *)
Definition status_text (color : string) : string :=
  if bool_decide (color = "Green") then "Highly Popular" else "Popularity Dropped".

(** A row of the route-popularity frame, as the map reads it. *)
Record route_row := {
  route_street_name : option string;
  route_colour : string;
}.

(** What is put on the map: a line or a circle marker, [lat, lon] first,
    with its colour, its tooltip and the status of its popup. *)
Inductive layer_shape :=
| PolyLine (locations : list (St.json * St.json))
| CircleMarker (location : St.json * St.json).

Record layer := {
  layer_shape_of : layer_shape;
  layer_color : string;
  layer_tooltip : option string;
  layer_status : string;
}.

(** A float coordinate read from a shapely geometry, as a value. *)
Definition num (q : Q) : St.json := St.JNum q.

(** [[[point[1], point[0]] for point in line.coords]] *)
Definition swap_coords (coords : list (Q * Q)) : list (St.json * St.json) :=
  (λ point, (num point.2, num point.1)) <$> coords.

(** The same comprehension over parsed coordinates. *)
Definition swap_points (line_coords : St.json) : Py.result (list (St.json * St.json)) :=
  points ← Json.iter line_coords;
  Py.map_result (λ point, lat ← Json.index point 1; lon ← Json.index point 0; Py.Ok (lat, lon))
                points.

(** [df.empty] *)
Definition segments_empty (road_segments_df : road_segments) : bool :=
  match road_segments_df with
  | GeoDataFrame rows => bool_decide (rows = [])
  | DataFrame rows => bool_decide (rows = [])
  end.

Section route_map.
Context {frame : Type} (w : St.world frame).
(** The folium layers: the cycleways, a line, a circle marker. *)
Context (add_geojson : St.json → Py.result unit).
Context (add_layer : layer → Py.result unit).

(** The block under [if show_cycleways]. *)
Definition add_cycleways (show_cycleways : bool) : St.io unit :=
  if show_cycleways then
    cycleways_data ← load_cycleways_data w;
    match cycleways_data with
    | Some data =>
        if Json.truthy data
        then St.try_except (St.call (add_geojson data)) (λ _, mret tt)
        else mret tt
    | None => mret tt
    end
  else mret tt.

(** One shape added to the map. *)
Definition put (mk : layer_shape → layer) (s : layer_shape) (drawn : list layer)
  : Py.result (list layer) :=
  _ ← add_layer (mk s); Py.Ok (drawn ++ [mk s]).

(** The body of [for _, segment in matching_segments.iterrows()] for a
    row of a GeoDataFrame. *)
Definition draw_geo_segment (mk : layer_shape → layer) (drawn : list layer)
    (segment : geo_row) : Py.result (list layer) :=
  match geo_geometry segment with
  | None => Py.Raise Py.AttributeError
  | Some (MultiLineString geoms) =>
      Py.for_each geoms (λ drawn line, put mk (PolyLine (swap_coords line)) drawn) drawn
  | Some (Point x y) => put mk (CircleMarker (num y, num x)) drawn
  | Some (LineString coords) => put mk (PolyLine (swap_coords coords)) drawn
  | Some (Other _) => Py.Ok drawn
  end.

(** The same for a row of the fallback DataFrame. *)
Definition draw_fallback_segment (mk : layer_shape → layer) (drawn : list layer)
    (segment : fallback_row) : Py.result (list layer) :=
  let geometry_type := fb_geometry_type segment in
  let coordinates := fb_coordinates segment in
  if Json.eq_str geometry_type "MultiLineString" && Json.truthy coordinates then
    lines ← Json.iter coordinates;
    Py.for_each lines
      (λ drawn line_coords,
         if Json.truthy line_coords
         then coords ← swap_points line_coords; put mk (PolyLine coords) drawn
         else Py.Ok drawn)
      drawn
  else if Json.eq_str geometry_type "Point" && Json.truthy coordinates then
    n ← Json.len coordinates;
    if 2 <=? n then
      lat ← Json.index coordinates 1;
      lon ← Json.index coordinates 0;
      put mk (CircleMarker (lat, lon)) drawn
    else Py.Ok drawn
  else if Json.eq_str geometry_type "LineString" && Json.truthy coordinates then
    coords ← swap_points coordinates;
    put mk (PolyLine coords) drawn
  else Py.Ok drawn.

(** One cell of [column == street_name]: an empty cell equals nothing,
    nor does a missing street name. *)
Definition cell_eq (cell street_name : option string) : bool :=
  match cell, street_name with
  | Some a, Some b => bool_decide (a = b)
  | _, _ => false
  end.

Definition value_eq (cell : St.json) (street_name : option string) : bool :=
  match street_name with
  | Some name => Json.eq_str cell name
  | None => false
  end.

(** [road_segments_df[road_segments_df['street_name'] == street_name]]
    and the loop over it; [None] when no segment matches. *)
Definition draw_matching (road_segments_df : road_segments) (street_name : option string)
    (mk : layer_shape → layer) (drawn : list layer) : option (Py.result (list layer)) :=
  match road_segments_df with
  | GeoDataFrame rows =>
      match filter (λ s, cell_eq (geo_street_name s) street_name) rows with
      | [] => None
      | matching_segments => Some (Py.for_each matching_segments (draw_geo_segment mk) drawn)
      end
  | DataFrame rows =>
      match filter (λ s, value_eq (fb_street_name s) street_name) rows with
      | [] => None
      | matching_segments =>
          Some (Py.for_each matching_segments (draw_fallback_segment mk) drawn)
      end
  end.

(** The layers [drawn'] are those of [drawn] followed by layers made
    with [mk], each accepted by folium. *)
Definition extends (mk : layer_shape → layer) (drawn drawn' : list layer) : Prop :=
  ∃ extra, drawn' = drawn ++ extra
           ∧ Forall (λ l, ∃ s, l = mk s ∧ add_layer l = Py.Ok tt) extra.

(** The body of [for idx, row_data in df.iterrows()]; the state is the
    layers on the map and [routes_added]. *)
Definition add_route (road_segments_df : road_segments) (state : list layer * Z)
    (row_data : route_row) : Py.result (list layer * Z) :=
  let street_name := route_street_name row_data in
  let color := route_colour row_data in
  let status_text := status_text color in
  let mk := λ s, {| layer_shape_of := s; layer_color := get_color_for_route color;
                    layer_tooltip := street_name; layer_status := status_text |} in
  match draw_matching road_segments_df street_name mk state.1 with
  | None => Py.Ok state
  | Some drawing => drawn ← drawing; Py.Ok (drawn, state.2 + 1)
  end.

Definition create_route_map (df : list route_row) (road_segments_df : road_segments)
    (show_cycleways : bool) : St.io (list layer * Z) :=
  if bool_decide (df = []) || segments_empty road_segments_df then mret ([], 0)
  else
    _ ← add_cycleways show_cycleways;
    St.call (Py.for_each df (add_route road_segments_df) ([], 0)).

End route_map.

(** A row of the frame has a segment of the same street name. *)
Definition has_segment (road_segments_df : road_segments) (row_data : route_row) : bool :=
  match road_segments_df with
  | GeoDataFrame rows =>
      existsb (λ s, cell_eq (geo_street_name s) (route_street_name row_data)) rows
  | DataFrame rows =>
      existsb (λ s, value_eq (fb_street_name s) (route_street_name row_data)) rows
  end.

(** Two routes, and segments for the first (a line and an area) and for
    a street that is no route. *)
Definition sample_routes : list route_row :=
  [ {| route_street_name := Some "Nutley Lane"; route_colour := "Green" |};
    {| route_street_name := Some "West Pier"; route_colour := "Gray" |} ].

Definition sample_segments : road_segments :=
  GeoDataFrame
    [ {| geo_street_name := Some "Nutley Lane";
         geo_geometry := Some (LineString [(-62 # 10, 533 # 10); (-61 # 10, 533 # 10)]) |};
      {| geo_street_name := Some "Nutley Lane"; geo_geometry := Some (Other "Polygon") |};
      {| geo_street_name := Some "Kill Lane"; geo_geometry := None |} ].

(** ** Peaks of the weekly trend ([create_route_detail_card])

    [rolling_values] is the 'smoothed' column, as float64 values. *)

(** [x > y] on two floats: false when either is NaN. *)
Definition gt (x y : spec_float) : bool := SFltb y x.

(** [rolling_values[i]], for an index inside the array. *)
Definition value_at (rolling_values : list spec_float) (i : nat) : spec_float :=
  nth i rolling_values S754_nan.

(** The loop [for i in range(1, len(rolling_values) - 1)]. *)
Definition peak_indices (rolling_values : list spec_float) : list nat :=
  foldl (λ peak_indices i,
           if gt (value_at rolling_values i) (value_at rolling_values (i - 1))
              && gt (value_at rolling_values i) (value_at rolling_values (i + 1))
           then peak_indices ++ [i]
           else peak_indices)
        [] (seq 1 (length rolling_values - 2)).

End Tab3.

(* ================================================================== *)
(** * daily_street_data.csv, as both trend scripts read it              *)
(* ================================================================== *)

Module DailyData.

(** One row.  [date] is the day of the parsed timestamp, counted from
    1970-01-01, or [None] for NaT. *)
Record daily_row := {
  road_name : option string;
  date : option Z;
  daily_popularity : spec_float;
  daily_cyclists : Z;
  daily_rides : Z;
  daily_points : Z;
  daily_speed : spec_float;
}.

Global Instance spec_float_eq_dec : EqDecision spec_float.
Proof. solve_decision. Defined.

Global Instance daily_row_eq_dec : EqDecision daily_row.
Proof. solve_decision. Defined.

Definition days_order : list string :=
  ["Monday"; "Tuesday"; "Wednesday"; "Thursday"; "Friday"; "Saturday"; "Sunday"].

(** [Timestamp.day_name()]: 1970-01-01 was a Thursday. *)
Definition day_name (d : Z) : string :=
  nth (Z.to_nat ((d + 3) mod 7)) days_order EmptyString.

(** The 'day_of_week' column both scripts add: [date.dt.day_name()]. *)
Definition day_of_week (r : daily_row) : option string := day_name <$> date r.

(** [frame['daily_cyclists'].sum()] *)
Definition sum_cyclists (frame : list daily_row) : Z :=
  foldr (λ r acc, daily_cyclists r + acc) 0 frame.

(** [frame[frame['day_of_week'] == day]] *)
Definition on_day (day : string) (frame : list daily_row) : list daily_row :=
  filter (λ r, day_of_week r = Some day) frame.

(** [sum(d.values())] for a dict of ints. *)
Definition sum_values `{Countable K} (d : gmap K Z) : Z :=
  map_fold (λ _ v acc, v + acc) 0 d.

(** [Σ f(x) for x in xs] *)
Definition sum_over {A} (f : A → Z) (xs : list A) : Z :=
  foldr (λ x acc, f x + acc) 0 xs.

(** The contribution of one row to the seven day sums: its own count,
    unless its date is missing. *)
Definition dated_cyclists (r : daily_row) : Z :=
  match date r with Some _ => daily_cyclists r | None => 0 end.

End DailyData.

(* ================================================================== *)
(** * utils/trend_extractor.py                                         *)
(* ================================================================== *)

Module TrendExtractor.
Import DailyData.

(** [get_street_variants].  The argument is a cell of the 'Street Name'
    column: [Some s] for a [str], [None] for any value that is not a
    [str] (NaN for a missing name). *)
Definition get_street_variants (street_name : option string) : list string :=
  match street_name with
  | None => []
  | Some street_name =>
      let variants :=
        if Py.contains "/" street_name
        then Py.strip <$> Py.split "/" street_name
        else if Py.contains "&" street_name
        then Py.strip <$> Py.split "&" street_name
        else [Py.strip street_name] in
      filter (λ v, Py.truthy v) variants
  end.

(** What "split on [sep]" leaves once the pieces are stripped and the
    empty ones dropped. *)
Definition stripped_pieces (sep street_name : string) : list string :=
  filter (λ v, v ≠ EmptyString) (Py.strip <$> Py.split sep street_name).

Section matching.
Context {U : Py.CaseMapping}.

(** One cell of [Series.str.contains(pat, case=False, na=False, regex=False)]:
    pandas tests [pat.upper() in x.upper()]. *)
Definition contains_nocase (pat : string) (cell : option string) : bool :=
  match cell with
  | None => false
  | Some x => Py.contains (Py.str_upper pat) (Py.str_upper x)
  end.

(** [df[df['road_name'].str.contains(variant, case=False, na=False, regex=False)]] *)
Definition variant_data (df : list daily_row) (variant : string) : list daily_row :=
  filter (λ r, contains_nocase variant (road_name r)) df.

(** The loop over [street_variants]: the state is [combined_data] and
    [found_variants]. *)
Definition collect_variants (df : list daily_row) (street_variants : list string)
  : list daily_row * list string :=
  foldl (λ '(combined_data, found_variants) variant,
           let vd := variant_data df variant in
           if (0 <? length vd)%nat
           then (combined_data ++ vd, found_variants ++ [variant])
           else (combined_data, found_variants))
        ([], []) street_variants.

(** [combined_data] after the conditional [drop_duplicates()]. *)
Definition combined_data (df : list daily_row) (street_variants : list string)
  : list daily_row :=
  let combined := (collect_variants df street_variants).1 in
  if (0 <? length combined)%nat then Py.unique combined else combined.

(** One iteration of [for day in days_order]; [cyclists_column] tells
    whether the frame has a 'daily_cyclists' column. *)
Definition day_total (cyclists_column : bool) (combined : list daily_row)
    (day : string) : Z :=
  if (0 <? length combined)%nat
  then if cyclists_column then sum_cyclists (on_day day combined) else 0
  else 0.

Record trend_entry := {
  day_totals : gmap string Z;
  total_cyclists : Z;
  variants_found : list string;
}.

(** The body of [for street in target_streets]. *)
Definition street_entry (cyclists_column : bool) (df : list daily_row)
    (street : option string) : trend_entry :=
  let street_variants := get_street_variants street in
  let combined := combined_data df street_variants in
  let totals :=
    foldl (λ d day, <[day := day_total cyclists_column combined day]> d)
          (∅ : gmap string Z) days_order in
  {| day_totals := totals;
     total_cyclists := sum_values totals;
     variants_found := (collect_variants df street_variants).2 |}.

(** The script: [street_column] is the 'Street Name' column of the
    route-popularity file, the result is the dict written to trend.json. *)
Definition simple_day_data (cyclists_column : bool) (df : list daily_row)
    (street_column : list (option string)) : gmap (option string) trend_entry :=
  let target_streets := Py.unique street_column in
  foldl (λ out street, <[street := street_entry cyclists_column df street]> out)
        ∅ target_streets.

(** [streets_not_found], as the same loop leaves it. *)
Definition streets_not_found (df : list daily_row)
    (street_column : list (option string)) : list (option string) :=
  let target_streets := Py.unique street_column in
  foldl (λ streets_not_found street,
           let combined := combined_data df (get_street_variants street) in
           if (length combined =? 0)%nat
           then streets_not_found ++ [street]
           else streets_not_found)
        [] target_streets.

End matching.

(** The rows a street's total is described as summing: the deduplicated
    rows of the daily data whose road name [holds] one of the variants. *)
Definition matched_rows (holds : string → option string → bool)
    (df : list daily_row) (street : option string) : list daily_row :=
  Py.unique (filter (λ r, existsb (λ v, holds v (road_name r)) (get_street_variants street)) df).

Definition described_day_total (holds : string → option string → bool)
    (df : list daily_row) (street : option string) (day : string) : Z :=
  sum_cyclists (on_day day (matched_rows holds df street)).

(** Containment with the letter case as it stands. *)
Definition contains_case (pat : string) (cell : option string) : bool :=
  match cell with
  | None => false
  | Some x => Py.contains pat x
  end.

End TrendExtractor.

(* ================================================================== *)
(** * utils/trend-metadata.py                                          *)
(* ================================================================== *)

Module TrendMetadata.
Import DailyData.

(** [street_data.groupby('date').agg({... 'daily_cyclists': 'sum' ...})],
    the 'daily_cyclists' column of the result, keyed by date.  Rows whose
    date is NaT belong to no group.  (The other aggregated columns do not
    enter the totals below.) *)
Definition daily_aggregated (street_data : list daily_row) : gmap Z Z :=
  foldl (λ groups r,
           match date r with
           | None => groups
           | Some d => <[d := default 0 (groups !! d) + daily_cyclists r]> groups
           end)
        ∅ street_data.

(** [int(daily_aggregated['daily_cyclists'].sum())] *)
Definition total_cyclists (street_data : list daily_row) : Z :=
  sum_values (daily_aggregated street_data).

(** The [weekly_pattern] dict, keyed by the lowercased day name. *)
Definition weekly_pattern (street_data : list daily_row) : gmap string Z :=
  foldl (λ d day, <[Py.lower day := sum_cyclists (on_day day street_data)]> d)
        ∅ days_order.

(** The manual mapping of combined street names. *)
Definition STREET_MAPPING : list (string * list string) :=
  [ ("West Pier", ["West Pier"]);
    ("Leopardstown Road", ["Leopardstown Road"]);
    ("Puck's Castle Lane", ["Puck's Castle Lane"]);
    ("Blackthorn Avenue / Burton Hall Road / Blackthorn Road / Blackthorn Drive",
     ["Blackthorn Avenue"; "Burton Hall Road"; "Blackthorn Road"; "Blackthorn Drive"]);
    ("Leopardstown Avenue", ["Leopardstown Avenue"]);
    ("Clonskeagh Road", ["Clonskeagh Road"]);
    ("Nutley Lane", ["Nutley Lane"]) ].

(** [split_street_name].  The argument is a cell of the 'Street Name'
    column; a missing name (NaN) is in no dict and has no [strip]. *)
Definition split_street_name (combined_name : option string) : Py.result (list string) :=
  match combined_name with
  | None => Py.Raise Py.AttributeError
  | Some combined_name =>
      match Py.dict_get combined_name STREET_MAPPING with
      | Some streets => Py.Ok streets
      | None => Py.Ok [Py.strip combined_name]
      end
  end.

End TrendMetadata.
(* ================================================================== *)
(** * utils/weekly-trend-extractor.py                                  *)
(* ================================================================== *)

Module WeeklyTrendExtractor.
Import St.

(** The dict appended for one entry of [weekly_data]; [entry.get(key)]
    is None for a key that is missing. *)
Definition cleaned_entry (entry : json) : Py.result json :=
  date ← Json.get entry "date" JNull;
  popularity_score ← Json.get entry "daily_popularity" JNull;
  cyclist_volume ← Json.get entry "daily_cyclists" JNull;
  Py.Ok (JObj [ ("date", date);
                ("popularity_score", popularity_score);
                ("cyclist_volume", cyclist_volume) ]).

(** The loop [for entry in weekly_data]. *)
Definition cleaned_weekly (weekly_data : json) : Py.result (list json) :=
  entries ← Json.iter weekly_data;
  Py.for_each entries
    (λ cleaned_weekly entry,
       if negb (Json.is_dict entry) then Py.Ok cleaned_weekly
       else
         cleaned ← cleaned_entry entry;
         Py.Ok (cleaned_weekly ++ [cleaned]))
    [].

(** [main], from the point where the input file has been parsed into
    [metadata]; the result is the document dumped to the output file. *)
Definition main (metadata : json) : Py.result json :=
  streets ← Json.items metadata;
  clean ← Py.for_each streets
             (λ clean '(street_name, street_data),
                weekly_data ← Json.get street_data "weekly" (JArr []);
                cleaned ← cleaned_weekly weekly_data;
                Py.Ok (Py.dict_set street_name (JObj [("weekly", JArr cleaned)]) clean))
             [];
  Py.Ok (JObj clean).

(** The entries of a list that are dicts. *)
Definition dict_entries (weekly_data : list json) : list (list (string * json)) :=
  omap (λ entry, match entry with JObj fields => Some fields | _ => None end) weekly_data.

(** The three fields kept of an entry, None for a missing one. *)
Definition kept_fields (entry : list (string * json)) : json :=
  JObj [ ("date", default JNull (Py.dict_get "date" entry));
         ("popularity_score", default JNull (Py.dict_get "daily_popularity" entry));
         ("cyclist_volume", default JNull (Py.dict_get "daily_cyclists" entry)) ].

(** The 'weekly' list of a street's data, when the data is a dict and
    the value is a list (the empty list when the key is missing). *)
Definition weekly_list (street_data : json) : option (list json) :=
  match street_data with
  | JObj fields =>
      match default (JArr []) (Py.dict_get "weekly" fields) with
      | JArr weekly => Some weekly
      | _ => None
      end
  | _ => None
  end.

End WeeklyTrendExtractor.

(* ================================================================== *)
(** * utils/street-extractor.py                                        *)
(* ================================================================== *)

Module StreetExtractor.

(** ** The libraries

    shapely, geopandas, the regular expressions behind
    [Series.str.contains] and the case mapping behind [Series.str.lower],
    as the script calls them.  The calls the
    script guards with [try] somewhere ([unary_union], [linemerge],
    compiling a pattern) may raise; the others are taken to return. *)
Class GeoLib := {
  geom : Type;
  (** [GeoDataFrame.to_crs]: one geometry from the first EPSG code to the
      second *)
  to_crs : Z → Z → geom → geom;
  (** [GeoSeries.buffer(distance)], one geometry *)
  buffer : Z → geom → geom;
  unary_union : list geom → Py.result geom;
  (** [a.intersection(b)] *)
  intersection : geom → geom → geom;
  (** [GeoSeries.explode], one geometry: its parts *)
  explode : geom → list geom;
  is_empty : geom → bool;
  is_valid : geom → bool;
  (** [g.length > 0] *)
  length_positive : geom → bool;
  linemerge : geom → Py.result geom;
  regex : Type;
  (** [re.compile(pat)] and [r.search(s) is not None] *)
  re_compile : string → Py.result regex;
  re_search : regex → string → bool;
  (** [Series.str.lower()], one cell: Python's [str.lower], which maps
      every cased letter of Unicode *)
  str_lower : string → string;
}.

(** A pattern without any of the characters that are special in a
    regular expression. *)
Definition special_chars : string := ".^$*+?{}[]\|()".

Fixpoint regex_plain (pat : string) : bool :=
  match pat with
  | EmptyString => true
  | String c pat' =>
      negb (Py.contains (String c EmptyString) special_chars) && regex_plain pat'
  end.

(** What the script relies on from regular expressions: a plain pattern
    compiles and finds exactly its occurrences as a substring. *)
Definition literal_patterns {L : GeoLib} : Prop :=
  ∀ pat, regex_plain pat = true →
    ∃ r, re_compile pat = Py.Ok r ∧ ∀ s, re_search r s = Py.contains pat s.

Section script.
Context {L : GeoLib}.

(** A row of [gdf_edges]: the flattened 'name' and 'ref' columns and the
    geometry. *)
Record edge := {
  name : option string;
  ref : option string;
  geometry : geom;
}.

(** A row of [gdf_points]: 'road_name' and the point built from
    longitude and latitude. *)
Record gps_point := {
  road_name : option string;
  point : geom;
}.

(** [Series.str.lower()], [.str.strip()] on one cell. *)
Definition cell_lower (c : option string) : option string := str_lower <$> c.
Definition cell_strip (c : option string) : option string := Py.strip <$> c.

(** The 'road_name_clean' column. *)
Definition road_name_clean (p : gps_point) : option string :=
  cell_strip (cell_lower (road_name p)).

(** [column.str.contains(pat, na=False)]: the pattern is compiled once,
    a missing cell gives False. *)
Definition str_contains (pat : string) (column : list (option string))
  : Py.result (list bool) :=
  r ← re_compile pat;
  Py.Ok ((λ cell, match cell with
                  | None => false
                  | Some s => re_search r s
                  end) <$> column).

(** [frame[mask]] *)
Fixpoint select {A} (frame : list A) (mask : list bool) : list A :=
  match frame, mask with
  | x :: frame', b :: mask' => if b then x :: select frame' mask' else select frame' mask'
  | _, _ => []
  end.

(** [frame[frame[col].str.contains(pat, na=False)]] *)
Definition rows_containing {A} (col : A → option string) (pat : string)
    (frame : list A) : Py.result (list A) :=
  mask ← str_contains pat (col <$> frame);
  Py.Ok (select frame mask).

(** ** STEP 2: [get_street_geometry] *)

(** The [try] block; [None] is Python's None. *)
Definition get_street_geometry_body (street_name : string) (all_edges : list edge)
  : Py.result (option geom) :=
  by_name ← str_contains street_name ((λ e, cell_lower (name e)) <$> all_edges);
  by_ref ← str_contains street_name ((λ e, cell_lower (ref e)) <$> all_edges);
  let matches := select all_edges (zip_with orb by_name by_ref) in
  matches ←
    match matches with
    | [] =>
        if Py.contains "kill lane" street_name
        then rows_containing (λ e, cell_lower (ref e)) "r830" all_edges
        else Py.Ok matches
    | _ => Py.Ok matches
    end;
  match matches with
  | [] =>
      (* the search for the first word, made for the log only *)
      let first_word :=
        match Py.split_ws street_name with
        | word :: _ => word
        | [] => street_name
        end in
      _ ← rows_containing (λ e, cell_lower (name e)) first_word all_edges;
      Py.Ok None
  | _ =>
      u ← unary_union (geometry <$> matches);
      merged ← linemerge u;
      Py.Ok (Some merged)
  end.

Definition get_street_geometry (street_name : string) (all_edges : list edge)
  : option geom :=
  match get_street_geometry_body street_name all_edges with
  | Py.Ok g => g
  | Py.Raise _ => None
  end.

(** ** STEP 3: [trim_geometry_to_points] *)

Definition trim_geometry_to_points (road_geom : geom) (points_gdf : list gps_point)
    (buffer_m : Z) : Py.result (option geom) :=
  let road_gdf := [to_crs 4326 3857 road_geom] in
  let points_proj := (λ p, to_crs 4326 3857 (point p)) <$> points_gdf in
  buffer_union ← unary_union (buffer buffer_m <$> points_proj);
  let clipped := (λ g, intersection g buffer_union) <$> road_gdf in
  let clipped := clipped ≫= explode in
  let clipped := filter (λ g, negb (is_empty g)) clipped in
  match clipped with
  | [] => Py.Ok None
  | _ =>
      let valid_geoms := filter (λ g, is_valid g && length_positive g) clipped in
      match valid_geoms with
      | [] => Py.Ok None
      | _ =>
          merged ← Py.try_except (u ← unary_union valid_geoms; linemerge u)
                                 (λ _, unary_union valid_geoms);
          Py.Ok (Some (to_crs 3857 4326 merged))
      end
  end.

(** The pieces the trimming is described as keeping: the parts of the
    intersection of the reprojected road with [buffer_union] that are
    non-empty, valid and of positive length. *)
Definition surviving_pieces (road_geom buffer_union : geom) : list geom :=
  filter (λ g, negb (is_empty g) && is_valid g && length_positive g)
         (explode (intersection (to_crs 4326 3857 road_geom) buffer_union)).

(** The buffers of the reprojected points. *)
Definition point_buffers (points_gdf : list gps_point) (buffer_m : Z) : list geom :=
  (λ p, buffer buffer_m (to_crs 4326 3857 (point p))) <$> points_gdf.

(** ** STEP 4: the loop over the streets *)

Definition separators : list string := ["&"; "/"; "and"; ","; ";"].

(** Splitting a clean name on the separators, one after the other. *)
Definition split_parts (street_name : string) : list string :=
  foldl (λ parts sep,
           part ← parts;
           if Py.contains sep part
           then Py.strip <$> Py.split sep part
           else [part])
        [street_name] separators.

(** The searches made for the log when no point carries the clean name
    exactly; their results are printed only. *)
Definition log_partial_matches (street_name : string) (gdf_points : list gps_point)
  : Py.result unit :=
  match filter (λ p, road_name_clean p = Some street_name) gdf_points with
  | [] =>
      Py.for_each (Py.split_ws street_name)
        (λ _ part,
           if (3 <? String.length part)%nat
           then _ ← rows_containing road_name_clean part gdf_points; Py.Ok tt
           else Py.Ok tt) tt
  | _ => Py.Ok tt
  end.

(** The points of one part: those whose clean road name matches the part,
    else those matching the first word longer than three characters that
    matches any. *)
Definition subset_points (part : string) (gdf_points : list gps_point)
  : Py.result (list gps_point) :=
  subset ← rows_containing road_name_clean part gdf_points;
  match subset with
  | [] =>
      Py.for_each (Py.split_ws part)
        (λ found word,
           match found with
           | [] =>
               if (3 <? String.length word)%nat
               then rows_containing road_name_clean word gdf_points
               else Py.Ok found
           | _ => Py.Ok found
           end) []
  | _ => Py.Ok subset
  end.

(** The body of [for part in parts]: the trimmed geometry the part adds
    to [all_parts], if any. *)
Definition trim_part (gdf_edges : list edge) (gdf_points : list gps_point)
    (part : string) : Py.result (option geom) :=
  if negb (Py.truthy part) || bool_decide (Py.strip part = EmptyString)
  then Py.Ok None
  else
    match get_street_geometry part gdf_edges with
    | None => Py.Ok None
    | Some osm_geom =>
        subset ← subset_points part gdf_points;
        match subset with
        | [] => Py.Ok None
        | _ => trim_geometry_to_points osm_geom subset 25
        end
    end.

(** [all_parts] for one clean street name. *)
Definition all_parts (gdf_edges : list edge) (gdf_points : list gps_point)
    (street_name : string) : Py.result (list geom) :=
  Py.for_each (split_parts street_name)
    (λ acc part,
       trimmed ← trim_part gdf_edges gdf_points part;
       Py.Ok (acc ++ option_list trimmed)) [].

(** A feature of the output file. *)
Record feature := {
  f_street_name : string;
  f_original_clean_name : string;
  f_geometry : geom;
}.

(** The body of [for idx, row in file_a.iterrows()]; the cell of the
    'Street Name' column is [None] when the name is missing, and a
    missing name has no [split]. *)
Definition process_street (gdf_edges : list edge) (gdf_points : list gps_point)
    (final_segments : list feature) (cell : option string)
  : Py.result (list feature) :=
  match cell with
  | None => Py.Raise Py.AttributeError
  | Some original_name =>
      let street_name := Py.strip (str_lower original_name) in
      _ ← log_partial_matches street_name gdf_points;
      parts ← all_parts gdf_edges gdf_points street_name;
      match parts with
      | [] => Py.Ok final_segments
      | _ =>
          Py.try_except
            (merged_trimmed ← unary_union parts;
             Py.Ok (final_segments ++
                      [ {| f_street_name := original_name;
                           f_original_clean_name := street_name;
                           f_geometry := merged_trimmed |} ]))
            (λ _, Py.Ok final_segments)
      end
  end.

(** ** STEP 5: the file written *)

Record geojson_file := {
  columns : list string;
  features : list feature;
}.

Definition output_columns : list string :=
  ["street_name"; "original_clean_name"; "geometry"].

(** [main], from the point where the two input files are read.
    [osm] is the outcome of the guarded preparation of the OSM edges,
    [street_names] the 'Street Name' column of the popularity file.  The
    result is the file written, or [None] when [main] returns before
    writing. *)
Definition main (osm : Py.result (list edge)) (street_names : list (option string))
    (gdf_points : list gps_point) : Py.result (option geojson_file) :=
  match osm with
  | Py.Raise _ => Py.Ok None
  | Py.Ok gdf_edges =>
      final_segments ←
        Py.for_each street_names
          (λ final_segments cell, process_street gdf_edges gdf_points final_segments cell)
          [];
      let gdf_final :=
        match final_segments with
        | [] => {| columns := output_columns; features := [] |}
        | _ => {| columns := output_columns; features := final_segments |}
        end in
      Py.Ok (Some gdf_final)
  end.

(** The selection [get_street_geometry] is described as making: the
    edges whose lowercased name or lowercased ref contains the part and,
    when there is none and the part contains 'kill lane', the edges whose
    lowercased ref contains 'r830'. *)
Definition cell_contains (pat : string) (cell : option string) : bool :=
  match cell with
  | None => false
  | Some s => Py.contains pat s
  end.

Definition final_selection (part : string) (all_edges : list edge) : list edge :=
  match filter (λ e, cell_contains part (cell_lower (name e))
                     || cell_contains part (cell_lower (ref e))) all_edges with
  | [] =>
      if Py.contains "kill lane" part
      then filter (λ e, cell_contains "r830" (cell_lower (ref e))) all_edges
      else []
  | matches => matches
  end.

(** What [trim_geometry_to_points] does with the surviving pieces:
    [linemerge] over their union and, when that raises, the union alone;
    then back to EPSG:4326. *)
Definition merge_survivors (survivors : list geom) : Py.result (option geom) :=
  merged ←
    match u ← unary_union survivors; linemerge u with
    | Py.Ok m => Py.Ok m
    | Py.Raise _ => unary_union survivors
    end;
  Py.Ok (Some (to_crs 3857 4326 merged)).

(** The outcome of a call, when it returned. *)
Definition returned {A} (r : Py.result A) : option A :=
  match r with Py.Ok a => Some a | Py.Raise _ => None end.

(** The trimmed geometry of every name part of a clean street name, [None]
    for a part that gives none. *)
Definition trimmed_parts (gdf_edges : list edge) (gdf_points : list gps_point)
    (street_name : string) : Py.result (list (option geom)) :=
  Py.map_result (trim_part gdf_edges gdf_points) (split_parts street_name).

(** The streets the output file is described as holding one feature
    for: those of which at least one name part has a trimmed geometry,
    each with its original name and its trimmed parts. *)
Definition trimmed_street (gdf_edges : list edge) (gdf_points : list gps_point)
    (cell : option string) : option (string * list geom) :=
  original_name ← cell;
  trimmed ← returned (trimmed_parts gdf_edges gdf_points (Py.strip (str_lower original_name)));
  match omap id trimmed with
  | [] => None
  | parts => Some (original_name, parts)
  end.



End script.

(** ** A small world to run the script in

    Roads along one axis: a geometry is a point, a segment [a, b], several
    segments, or nothing; projections keep the coordinate. *)
Module Axis.

Inductive shape :=
| Empty
| Pt (x : Z)
| Line (a b : Z)
| Multi (parts : list (Z * Z)).

Definition intervals (g : shape) : list (Z * Z) :=
  match g with
  | Empty => []
  | Pt x => [(x, x)]
  | Line a b => [(a, b)]
  | Multi parts => parts
  end.

Definition of_intervals (ivs : list (Z * Z)) : shape :=
  match ivs with
  | [] => Empty
  | [(a, b)] => Line a b
  | _ => Multi ivs
  end.

(** Adding a segment to a sorted list of separate segments, merging it
    with those it meets. *)
Fixpoint insert_interval (iv : Z * Z) (l : list (Z * Z)) : list (Z * Z) :=
  match l with
  | [] => [iv]
  | (c, d) :: l' =>
      if iv.2 <? c then iv :: l
      else if d <? iv.1 then (c, d) :: insert_interval iv l'
      else insert_interval (Z.min iv.1 c, Z.max iv.2 d) l'
  end.

Definition dissolve (ivs : list (Z * Z)) : list (Z * Z) :=
  foldr insert_interval [] ivs.

Definition meet (g h : shape) : shape :=
  of_intervals
    (dissolve
       ('(a, b) ← intervals g;
        '(c, d) ← intervals h;
        if Z.max a c <=? Z.min b d then [(Z.max a c, Z.min b d)] else [])).

Definition widen (r : Z) (g : shape) : shape :=
  of_intervals ((λ '(a, b), (a - r, b + r)) <$> intervals g).

Definition pieces (g : shape) : list shape :=
  match g with
  | Empty => [Empty]
  | _ => (λ '(a, b), Line a b) <$> intervals g
  end.

(** shapely's [linemerge] takes a MultiLineString or another collection
    and refuses a single LineString or Point. *)
Definition merge_lines (g : shape) : Py.result shape :=
  match g with
  | Multi parts => Py.Ok (of_intervals (dissolve parts))
  | Empty => Py.Ok Empty
  | Line _ _ | Pt _ => Py.Raise Py.ValueError
  end.

(** Only patterns without special characters are known to this world. *)
Definition compile (pat : string) : Py.result string :=
  if regex_plain pat then Py.Ok pat else Py.Raise Py.ReError.

(** The libraries of this world; [unary_union] always returns, and the
    case mapping is that of ASCII characters. *)
Definition robust : GeoLib :=
  {| geom := shape;
     to_crs := λ _ _ g, g;
     buffer := widen;
     unary_union := λ gs, Py.Ok (of_intervals (dissolve (gs ≫= intervals)));
     intersection := meet;
     explode := pieces;
     is_empty := λ g, bool_decide (intervals g = []);
     is_valid := λ _, true;
     length_positive := λ g, existsb (λ '(a, b), a <? b) (intervals g);
     linemerge := merge_lines;
     regex := string;
     re_compile := compile;
     re_search := λ r s, Py.contains r s;
     str_lower := Py.lower |}.

(** Kill Lane (R830) in two stretches, and one cyclist on the first. *)
Definition robust_edges : list (@edge robust) :=
  [ @Build_edge robust (Some "Kill Lane") (Some "R830") (Line 0 40);
    @Build_edge robust (Some "Kill Lane") (Some "R830") (Line 60 100) ].

Definition robust_cyclist : list (@gps_point robust) :=
  [ @Build_gps_point robust (Some "Kill Lane R830") (Pt 20) ].

(** Nutley Lane in one stretch, beside Kill Lane. *)
Definition nutley_edges : list (@edge robust) :=
  [ @Build_edge robust (Some "Nutley Lane") None (Line 0 100);
    @Build_edge robust (Some "Kill Lane") (Some "R830") (Line 10 90) ].

End Axis.

End StreetExtractor.
(* ================================================================== *)
(** * Properties                                                       *)
(* ================================================================== *)

Example py_split_slash :
  Py.split "/" "a / b&c/" = ["a "; " b&c"; ""].
Proof. reflexivity. Qed.

Example py_split_and :
  Py.split "and" "sandyford road and strand" = ["s"; "yford road "; " str"; ""].
Proof. reflexivity. Qed.

Example py_strip_ex : Py.strip "  kill lane " = "kill lane".
Proof. reflexivity. Qed.

Example py_split_ws_ex : Py.split_ws "  upper  kill lane " = ["upper"; "kill"; "lane"].
Proof. reflexivity. Qed.




Example variants_slash_amp :
  TrendExtractor.get_street_variants (Some "Mercer Street & Cuffe Street / York Road ")
  = ["Mercer Street & Cuffe Street"; "York Road"].
Proof. reflexivity. Qed.

Example bounds_two_triangles :
  Tab2.calculate_bounds_from_geometries
    [ {| Tab2.gtype := Some "Polygon";
         Tab2.coordinates := Some [[[1#1; 5#1]; [3#1; 2#1]; [-2#1; 4#1]]] |};
      {| Tab2.gtype := Some "Point"; Tab2.coordinates := None |} ]
  = Py.Ok [Tab2.Fin (-2#1); Tab2.Fin (2#1); Tab2.Fin (3#1); Tab2.Fin (5#1)].
Proof. reflexivity. Qed.

(** ** Substring search *)

Lemma append_cons (a : ascii) (p s : string) :
  String a p +:+ s = String a (p +:+ s).
Proof. reflexivity. Qed.

Lemma append_empty_l (s : string) : EmptyString +:+ s = s.
Proof. reflexivity. Qed.

Lemma startswith_spec (p s : string) :
  Py.startswith p s = true ↔ ∃ suf, s = p +:+ suf.
Proof.
  revert s. induction p as [|a p IH]; intros s.
  - split; [intros _; by exists s | done].
  - destruct s as [|b s]; simpl.
    + split; [done | intros [suf H]; rewrite append_cons in H; discriminate].
    + rewrite andb_true_iff, bool_decide_eq_true, IH. split.
      * intros [-> [suf ->]]. by exists suf.
      * intros [suf H]. rewrite append_cons in H. injection H as -> ->. eauto.
Qed.

Lemma contains_spec (needle hay : string) :
  Py.contains needle hay = true ↔ Py.Substring needle hay.
Proof.
  unfold Py.Substring. induction hay as [|c hay IH].
  - simpl. rewrite orb_false_r, startswith_spec. split.
    + intros [suf H]. by exists EmptyString, suf.
    + intros ([|? pre] & suf & H).
      * rewrite append_empty_l in H. eauto.
      * rewrite append_cons in H. discriminate.
  - cbn [Py.contains]. rewrite orb_true_iff, startswith_spec, IH. split.
    + intros [[suf H] | (pre & suf & H)].
      * by exists EmptyString, suf.
      * exists (String c pre), suf. by rewrite append_cons, H.
    + intros ([|a pre] & suf & H).
      * left. rewrite append_empty_l in H. eauto.
      * right. rewrite append_cons in H. injection H as -> ->. eauto.
Qed.

Lemma contains_false_spec (needle hay : string) :
  Py.contains needle hay = false ↔ ¬ Py.Substring needle hay.
Proof. rewrite <- contains_spec. by destruct (Py.contains needle hay). Qed.

(** ** Splitting on a one-character separator *)

Lemma rev_app_append (s x y : string) :
  String.rev_app s x +:+ y = String.rev_app s (x +:+ y).
Proof. revert x. induction s as [|a s IH]; intros x; simpl; [done|]. by rewrite IH. Qed.

Lemma split_go_nonempty (sep : string) (skip : nat) (cur s : string) :
  Py.split_go sep skip cur s ≠ [].
Proof.
  revert skip cur. induction s as [|a s IH]; intros skip cur; simpl; [done|].
  destruct skip; [|done]. by destruct (Py.startswith sep (String a s)).
Qed.

Lemma join_cons (sep p : string) (rest : list string) :
  rest ≠ [] → Py.join sep (p :: rest) = p +:+ sep +:+ Py.join sep rest.
Proof. by destruct rest. Qed.

Lemma append_assoc (a b c : string) : (a +:+ b) +:+ c = a +:+ (b +:+ c).
Proof. induction a as [|x a IH]; [done|]. by rewrite !append_cons, IH. Qed.

(** Joining the pieces with the separator gives the string back. *)
Lemma split_go_join_char (c : ascii) (cur s : string) :
  Py.join (String c EmptyString) (Py.split_go (String c EmptyString) 0 cur s)
  = String.rev cur +:+ s.
Proof.
  revert cur. induction s as [|a s IH]; intros cur.
  - simpl. unfold String.rev. by rewrite rev_app_append.
  - cbn [Py.split_go Py.startswith String.length Nat.sub].
    rewrite andb_true_r. case_bool_decide as Hc.
    + subst a. rewrite join_cons by apply split_go_nonempty.
      rewrite IH. reflexivity.
    + rewrite IH. unfold String.rev. simpl. by rewrite !rev_app_append.
Qed.

Lemma split_join_char (c : ascii) (s : string) :
  Py.join (String c EmptyString) (Py.split (String c EmptyString) s) = s.
Proof. unfold Py.split. by rewrite split_go_join_char. Qed.

Lemma truthy_spec (s : string) : Py.truthy s = true ↔ s ≠ EmptyString.
Proof. by destruct s. Qed.

Lemma filter_truthy (l : list string) :
  filter (λ v, Py.truthy v) l = filter (λ v, v ≠ EmptyString) l.
Proof.
  induction l as [|x l IH]; [done|].
  rewrite !filter_cons, IH. destruct x; simpl; repeat case_decide; naive_solver.
Qed.

(** ** [unique] *)

Lemma unique_elem_of {A} `{EqDecision A} (l : list A) (x : A) :
  x ∈ Py.unique l ↔ x ∈ l.
Proof.
  induction l as [|y l IH]; [done|]. cbn [Py.unique].
  rewrite !elem_of_cons, list_elem_of_filter, IH.
  destruct (decide (x = y)) as [->|Hne]; [by split; [left|left] |].
  split; [intros [? | [_ ?]]; [done | by right] | intros [? | ?]; [done | by right]].
Qed.

Lemma unique_NoDup {A} `{EqDecision A} (l : list A) : NoDup (Py.unique l).
Proof.
  induction l as [|y l IH]; cbn [Py.unique]; [constructor|].
  constructor; [|by apply NoDup_filter].
  rewrite list_elem_of_filter. by intros [Hne _].
Qed.

(** Two lists with the same elements have the same [unique], up to order. *)
Lemma unique_Permutation {A} `{EqDecision A} (l k : list A) :
  (∀ x, x ∈ l ↔ x ∈ k) → Py.unique l ≡ₚ Py.unique k.
Proof.
  intros H. apply NoDup_Permutation; [apply unique_NoDup..|].
  intros x. by rewrite !unique_elem_of.
Qed.

Lemma unique_length_distinct `{Countable A} (l : list A) :
  length (Py.unique l) = size (list_to_set l : gset A).
Proof.
  rewrite <- (size_list_to_set (C:=gset A) (Py.unique l)) by apply unique_NoDup.
  f_equal. apply set_eq. intros x. by rewrite !elem_of_list_to_set, unique_elem_of.
Qed.

(* ------------------------------------------------------------------ *)
(** ** KPI cards ([Tab2.create_abnormal_metrics])                      *)
(* ------------------------------------------------------------------ *)

(** Total Streets is the number of distinct street names. *)
Lemma total_abnormal_distinct (abnormal_df : list Tab2.abnormal_row) :
  Tab2.total_abnormal abnormal_df
  = Z.of_nat (size (list_to_set (Tab2.street_name <$> abnormal_df) : gset (option string))).
Proof.
  unfold Tab2.total_abnormal. rewrite unique_length_distinct.
  by destruct abnormal_df.
Qed.

(** Increased Risk and Improved Safety count the rows of either trend. *)
Lemma count_trend_rows (t : string) (abnormal_df : list Tab2.abnormal_row) :
  Tab2.count_trend t abnormal_df
  = Z.of_nat (length (filter (λ r, Tab2.trend r = Some t) abnormal_df)).
Proof. by destruct abnormal_df. Qed.

(** On an empty frame the four cards show 0. *)
Lemma create_abnormal_metrics_empty :
  ∃ cards, Tab2.create_abnormal_metrics [] = Py.Ok cards
           ∧ Tab2.kpi_value <$> cards = [0; 0; 0; 0].
Proof. eexists. split; reflexivity. Qed.

(** C7, the Improvement Rate card.  With 50 streets of which 29 improved
    the exact percentage is 58, and the card shows 57: the quotient
    29 / 50 and its product by 100 are rounded to binary64 before the
    truncation, and 0.58 * 100 is 57.99999999999999 there. *)
Theorem improvement_rate_29_of_50 :
  Tab2.total_abnormal (Tab2.sample_frame 50 29) = 50
  ∧ Tab2.improved_routes (Tab2.sample_frame 50 29) = 29
  ∧ Tab2.improvement_rate (Tab2.sample_frame 50 29) = Py.Ok 57
  ∧ Tab2.exact_rate 29 50 = 58.
Proof. vm_compute. done. Qed.

Example improvement_rate_1_of_3 :
  Tab2.improvement_rate (Tab2.sample_frame 3 1) = Py.Ok 33.
Proof. vm_compute. reflexivity. Qed.

Example improvement_rate_7_of_25 :
  Tab2.improvement_rate (Tab2.sample_frame 25 7) = Py.Ok 28.
Proof. vm_compute. reflexivity. Qed.

(* ------------------------------------------------------------------ *)
(** ** Map bounds ([Tab2.calculate_bounds_from_geometries])            *)
(* ------------------------------------------------------------------ *)

Lemma for_each_app {A S} (xs ys : list A) (body : S → A → Py.result S) (s : S) :
  Py.for_each (xs ++ ys) body s = Py.bind (Py.for_each xs body s) (Py.for_each ys body).
Proof.
  revert s. induction xs as [|x xs IH]; intros s; simpl; [done|].
  destruct (body s x); simpl; [apply IH | done].
Qed.

(** The nested ring loop visits the concatenation of the rings. *)
Lemma for_each_rings (rings : list (list Tab2.position)) (a : Tab2.bounds_acc) :
  Py.for_each rings (λ a ring, Py.for_each ring Tab2.visit_vertex a) a
  = Py.for_each (concat rings) Tab2.visit_vertex a.
Proof.
  revert a. induction rings as [|r rings IH]; intros a; simpl; [done|].
  rewrite for_each_app. destruct (Py.for_each r Tab2.visit_vertex a); simpl; [apply IH | done].
Qed.

(** The geometry loop visits the Polygon vertices, in order. *)
Lemma for_each_geometries (geometries : list Tab2.geometry) (a : Tab2.bounds_acc) :
  Py.for_each geometries Tab2.visit_geometry a
  = Py.for_each (Tab2.polygon_vertices geometries) Tab2.visit_vertex a.
Proof.
  revert a. induction geometries as [|g gs IH]; intros a; [done|].
  change (Tab2.polygon_vertices (g :: gs)) with
    ((if bool_decide (Tab2.gtype g = Some "Polygon")
      then concat (default [[]] (Tab2.coordinates g)) else [])
     ++ Tab2.polygon_vertices gs).
  rewrite for_each_app. cbn [Py.for_each]. unfold Tab2.visit_geometry at 1.
  cbv zeta. case_bool_decide.
  - rewrite for_each_rings.
    destruct (Py.for_each _ Tab2.visit_vertex a); simpl; [apply IH | done].
  - simpl. apply IH.
Qed.










(* ------------------------------------------------------------------ *)
(** ** Route colours ([Tab3.get_color])                                *)
(* ------------------------------------------------------------------ *)

Lemma increase_keyword_test (text : string) :
  Py.contains "increasing" (Py.lower text) || Py.contains "improved" (Py.lower text) = true
  ↔ Tab3.increase_keyword text.
Proof. unfold Tab3.increase_keyword. by rewrite orb_true_iff, !contains_spec. Qed.

Lemma decline_keyword_test (text : string) :
  Py.contains "decreasing" (Py.lower text) || Py.contains "dropped" (Py.lower text)
    || Py.contains "decline" (Py.lower text) = true
  ↔ Tab3.decline_keyword text.
Proof.
  unfold Tab3.decline_keyword. rewrite !orb_true_iff, !contains_spec. tauto.
Qed.

(** C9.  The colour of a 'Popularity Change' cell: 'Gray' for a missing
    value; otherwise 'Green' as soon as the lowercased text contains
    'increasing' or 'improved', whether or not it also contains a decline
    keyword; otherwise 'Red' when it contains 'decreasing', 'dropped' or
    'decline'; 'Gray' in every remaining case. *)
Theorem get_color_cases (change_text : option string) :
  (change_text = None → Tab3.get_color change_text = "Gray")
  ∧ (∀ text, change_text = Some text → Tab3.increase_keyword text →
       Tab3.get_color change_text = "Green")
  ∧ (∀ text, change_text = Some text → ¬ Tab3.increase_keyword text →
       Tab3.decline_keyword text → Tab3.get_color change_text = "Red")
  ∧ (∀ text, change_text = Some text → ¬ Tab3.increase_keyword text →
       ¬ Tab3.decline_keyword text → Tab3.get_color change_text = "Gray").
Proof.
  split; [by intros -> |].
  split; [| split]; intros text ->; unfold Tab3.get_color; cbv zeta.
  - intros Hi. apply increase_keyword_test in Hi. by rewrite Hi.
  - intros Hi Hd. rewrite <- increase_keyword_test in Hi.
    apply not_true_is_false in Hi. rewrite Hi.
    apply decline_keyword_test in Hd. by rewrite Hd.
  - intros Hi Hd. rewrite <- increase_keyword_test in Hi.
    rewrite <- decline_keyword_test in Hd.
    apply not_true_is_false in Hi, Hd. by rewrite Hi, Hd.
Qed.

(** The increase test wins over a decline keyword in the same text. *)
Lemma get_color_cases_witness :
  Tab3.get_color (Some "Improved after an early decline") = "Green".
Proof.
  refine (proj1 (proj2 (get_color_cases (Some "Improved after an early decline")))
            _ eq_refl _).
  apply increase_keyword_test. vm_compute. reflexivity.
Defined.

Example get_color_red : Tab3.get_color (Some "Steadily DECREASING") = "Red".
Proof. reflexivity. Qed.

Example get_color_number : Tab3.get_color (Some "12.5") = "Gray".
Proof. reflexivity. Qed.

(* ------------------------------------------------------------------ *)
(** ** Street-name variants ([TrendExtractor.get_street_variants])     *)
(* ------------------------------------------------------------------ *)

Lemma get_street_variants_str (s : string) :
  TrendExtractor.get_street_variants (Some s) =
  if Py.contains "/" s then TrendExtractor.stripped_pieces "/" s
  else if Py.contains "&" s then TrendExtractor.stripped_pieces "&" s
  else filter (λ v, v ≠ EmptyString) [Py.strip s].
Proof.
  unfold TrendExtractor.get_street_variants, TrendExtractor.stripped_pieces.
  cbv zeta. rewrite filter_truthy.
  by destruct (Py.contains "/" s), (Py.contains "&" s).
Qed.

Lemma get_street_variants_no_empty (street_name : option string) :
  EmptyString ∉ TrendExtractor.get_street_variants street_name.
Proof.
  destruct street_name as [s|]; [|apply not_elem_of_nil].
  unfold TrendExtractor.get_street_variants. cbv zeta.
  intros [H _]%list_elem_of_filter. exact H.
Qed.

(** C8, as stated, fails on a name made of blanks: it holds neither '/'
    nor '&', and the result is the empty list, not the one-element list of
    the stripped name. *)
Lemma get_street_variants_blank_name :
  ¬ (∀ s : string,
       ¬ Py.Substring "/" s → ¬ Py.Substring "&" s →
       TrendExtractor.get_street_variants (Some s) = [Py.strip s]).
Proof.
  intros H. specialize (H "  ").
  assert (TrendExtractor.get_street_variants (Some "  ") = []) as E by reflexivity.
  rewrite E in H. discriminate H; by apply contains_false_spec.
Qed.

(** C8 (amended).  A value that is not a string gives the empty list; a
    string containing '/' is split on '/' only, whatever '&' it holds; a
    string containing '&' and no '/' is split on '&'; any other string
    gives its whitespace-stripped form alone when that is not empty and
    the empty list when it is; in the split cases the pieces are stripped
    and the empty ones dropped, the '/' pieces (resp. '&' pieces) joining
    back to the input; the result never holds an empty string. *)
Theorem get_street_variants_cases (street_name : option string) :
  (street_name = None → TrendExtractor.get_street_variants street_name = [])
  ∧ (∀ s, street_name = Some s → Py.Substring "/" s →
       TrendExtractor.get_street_variants street_name
         = TrendExtractor.stripped_pieces "/" s
       ∧ Py.join "/" (Py.split "/" s) = s)
  ∧ (∀ s, street_name = Some s → ¬ Py.Substring "/" s → Py.Substring "&" s →
       TrendExtractor.get_street_variants street_name
         = TrendExtractor.stripped_pieces "&" s
       ∧ Py.join "&" (Py.split "&" s) = s)
  ∧ (∀ s, street_name = Some s → ¬ Py.Substring "/" s → ¬ Py.Substring "&" s →
       TrendExtractor.get_street_variants street_name
         = if decide (Py.strip s = EmptyString) then [] else [Py.strip s])
  ∧ EmptyString ∉ TrendExtractor.get_street_variants street_name.
Proof.
  split; [by intros -> |].
  split; [| split; [| split]].
  - intros s -> Hs%contains_spec. rewrite get_street_variants_str, Hs.
    split; [done | apply split_join_char].
  - intros s -> Hs%contains_false_spec Ha%contains_spec.
    rewrite get_street_variants_str, Hs, Ha.
    split; [done | apply split_join_char].
  - intros s -> Hs%contains_false_spec Ha%contains_false_spec.
    rewrite get_street_variants_str, Hs, Ha.
    rewrite filter_cons, filter_nil. by repeat case_decide.
  - apply get_street_variants_no_empty.
Qed.

Lemma get_street_variants_cases_witness :
  TrendExtractor.get_street_variants (Some "Mercer Street & Cuffe Street / York Road")
  = ["Mercer Street & Cuffe Street"; "York Road"].
Proof.
  refine (proj1 (proj1 (proj2 (get_street_variants_cases
            (Some "Mercer Street & Cuffe Street / York Road"))) _ eq_refl _)).
  apply contains_spec. vm_compute. reflexivity.
Defined.

(* ------------------------------------------------------------------ *)
(** ** Sums over frames and dicts                                      *)
(* ------------------------------------------------------------------ *)

Section sums.
Import DailyData.

Lemma sum_values_empty `{Countable K} : sum_values (∅ : gmap K Z) = 0.
Proof. apply map_fold_empty. Qed.

Lemma sum_values_insert_fresh `{Countable K} (d : gmap K Z) (k : K) (v : Z) :
  d !! k = None → sum_values (<[k := v]> d) = v + sum_values d.
Proof.
  intros Hk. unfold sum_values. apply map_fold_insert_L; [|done].
  intros. lia.
Qed.

Lemma sum_values_delete `{Countable K} (d : gmap K Z) (k : K) (v : Z) :
  d !! k = Some v → sum_values d = v + sum_values (delete k d).
Proof.
  intros Hk. unfold sum_values.
  apply (map_fold_delete_L (λ _ v acc, v + acc) 0 k v d); [|done].
  intros. lia.
Qed.

(** Overwriting a key replaces its share of the sum. *)
Lemma sum_values_insert `{Countable K} (d : gmap K Z) (k : K) (v : Z) :
  sum_values (<[k := v]> d) = v + sum_values d - default 0 (d !! k).
Proof.
  destruct (d !! k) as [w|] eqn:Hk; simpl.
  - rewrite <- insert_delete_eq, sum_values_insert_fresh by apply lookup_delete_eq.
    rewrite (sum_values_delete d k w Hk). lia.
  - rewrite sum_values_insert_fresh by done. lia.
Qed.

Lemma sum_over_add {A} (f g : A → Z) (xs : list A) :
  sum_over (λ x, f x + g x) xs = sum_over f xs + sum_over g xs.
Proof. induction xs as [|x xs IH]; simpl; lia. Qed.

Lemma sum_over_ext {A} (f g : A → Z) (xs : list A) :
  (∀ x, x ∈ xs → f x = g x) → sum_over f xs = sum_over g xs.
Proof.
  induction xs as [|x xs IH]; intros H; simpl; [done|].
  rewrite H by apply list_elem_of_here. rewrite IH; [done|].
  intros y Hy. apply H. by apply list_elem_of_further.
Qed.

Lemma sum_over_zero {A} (xs : list A) : sum_over (λ _, 0) xs = 0.
Proof. induction xs; simpl; lia. Qed.

(** A value counted at the one place where [x] stands in a list without
    repetition. *)
Lemma sum_over_indicator `{EqDecision A} (x : A) (c : Z) (xs : list A) :
  NoDup xs → x ∈ xs → sum_over (λ y, if decide (x = y) then c else 0) xs = c.
Proof.
  induction 1 as [|y xs Hy Hnd IH]; intros Hx; [by apply elem_of_nil in Hx|].
  simpl. apply elem_of_cons in Hx. case_decide as E.
  - subst y. rewrite (sum_over_ext _ (λ _, 0)), sum_over_zero; [lia|].
    intros z Hz. case_decide; [by subst|done].
  - destruct Hx as [->|Hx]; [done|]. rewrite IH by done. lia.
Qed.

Lemma sum_cyclists_app (xs ys : list daily_row) :
  sum_cyclists (xs ++ ys) = sum_cyclists xs + sum_cyclists ys.
Proof. induction xs as [|x xs IH]; simpl; lia. Qed.

Lemma sum_cyclists_Permutation (xs ys : list daily_row) :
  xs ≡ₚ ys → sum_cyclists xs = sum_cyclists ys.
Proof. induction 1; simpl; lia. Qed.

Lemma days_order_NoDup : NoDup days_order.
Proof. apply (bool_decide_unpack _). vm_compute. exact I. Qed.

Lemma day_name_in_days_order (d : Z) : day_name d ∈ days_order.
Proof.
  unfold day_name. apply list_elem_of_In, nth_In.
  pose proof (Z.mod_pos_bound (d + 3) 7). simpl. lia.
Qed.

Lemma on_day_cons (day : string) (r : daily_row) (rows : list daily_row) :
  sum_cyclists (on_day day (r :: rows))
  = (if decide (day_of_week r = Some day) then daily_cyclists r else 0)
    + sum_cyclists (on_day day rows).
Proof.
  unfold on_day. rewrite filter_cons. case_decide; simpl; lia.
Qed.

Lemma row_over_days (r : daily_row) :
  sum_over (λ day, if decide (day_of_week r = Some day) then daily_cyclists r else 0)
           days_order
  = dated_cyclists r.
Proof.
  unfold dated_cyclists, day_of_week. destruct (date r) as [d|]; simpl fmap.
  - rewrite (sum_over_ext _
      (λ day, if decide (day_name d = day) then daily_cyclists r else 0)).
    + apply sum_over_indicator; [apply days_order_NoDup | apply day_name_in_days_order].
    + intros day _. repeat case_decide; congruence.
  - rewrite (sum_over_ext _ (λ _, 0)); [apply sum_over_zero|].
    intros day _. by case_decide.
Qed.

(** Every dated row falls on exactly one of the seven days. *)
Lemma days_partition (rows : list daily_row) :
  sum_over (λ day, sum_cyclists (on_day day rows)) days_order
  = sum_over dated_cyclists rows.
Proof.
  induction rows as [|r rows IH].
  - apply (sum_over_zero days_order).
  - rewrite (sum_over_ext _ _ _ (λ day _, on_day_cons day r rows)).
    rewrite sum_over_add, IH, row_over_days. reflexivity.
Qed.

(** A dict filled key by key from a list of distinct keys. *)
Lemma sum_values_filled `{Countable K} {A} (key : A → K) (f : A → Z)
    (xs : list A) (d : gmap K Z) :
  NoDup (key <$> xs) → (∀ x, x ∈ xs → d !! key x = None) →
  sum_values (foldl (λ d x, <[key x := f x]> d) d xs) = sum_values d + sum_over f xs.
Proof.
  revert d. induction xs as [|x xs IH]; intros d Hnd Hd; simpl; [lia|].
  rewrite fmap_cons in Hnd. apply NoDup_cons in Hnd as [Hx Hnd].
  rewrite IH; [| done |].
  - rewrite sum_values_insert_fresh; [lia|]. apply Hd, list_elem_of_here.
  - intros y Hy. rewrite lookup_insert_ne.
    + apply Hd. by apply list_elem_of_further.
    + intros E. apply Hx. rewrite E. by apply list_elem_of_fmap_2.
Qed.

Lemma lookup_filled `{Countable K} {A} (f : K → A) (xs : list K) (d : gmap K A) (k : K) :
  foldl (λ d x, <[x := f x]> d) d xs !! k
  = if decide (k ∈ xs) then Some (f k) else d !! k.
Proof.
  revert d. induction xs as [|x xs IH]; intros d; simpl; [done|].
  rewrite IH. destruct (decide (k = x)) as [->|Hne].
  - rewrite lookup_insert_eq. rewrite (decide_True (P := x ∈ x :: xs)) by apply list_elem_of_here.
    by case_decide.
  - rewrite lookup_insert_ne by done.
    destruct (decide (k ∈ xs)) as [Hin|Hin].
    + by rewrite decide_True by by apply list_elem_of_further.
    + rewrite decide_False; [done|].
      by intros [?|?]%elem_of_cons.
Qed.

Lemma dom_filled `{Countable K} {A} (f : K → A) (xs : list K) :
  dom (foldl (λ d x, <[x := f x]> d) (∅ : gmap K A) xs) = list_to_set xs.
Proof.
  apply set_eq. intros k. rewrite elem_of_dom, lookup_filled, elem_of_list_to_set.
  case_decide; [by split; [|eexists] |].
  rewrite lookup_empty. split; [by intros [? ?] | done].
Qed.

End sums.

(* ------------------------------------------------------------------ *)
(** ** Totals of the trend metadata ([TrendMetadata])                  *)
(* ------------------------------------------------------------------ *)

Section trend_metadata.
Import DailyData.

(** Grouping by date and summing keeps the total of the dated rows. *)
Lemma daily_aggregated_sum (rows : list daily_row) (groups : gmap Z Z) :
  sum_values
    (foldl (λ groups r,
              match date r with
              | None => groups
              | Some d => <[d := default 0 (groups !! d) + daily_cyclists r]> groups
              end) groups rows)
  = sum_values groups + sum_over dated_cyclists rows.
Proof.
  revert groups. induction rows as [|r rows IH]; intros groups; simpl; [lia|].
  rewrite IH. unfold dated_cyclists at 2. destruct (date r) as [d|]; [|lia].
  rewrite sum_values_insert. lia.
Qed.

Lemma lower_days_NoDup : NoDup (Py.lower <$> days_order).
Proof. apply (bool_decide_unpack _). vm_compute. exact I. Qed.

(** C3.  For any matched rows of a street, the stats total_cyclists,
    the sum of the per-date sums of daily_cyclists, equals the sum of the
    seven weekly_pattern values, each the sum of daily_cyclists over the
    ungrouped rows falling on that weekday. *)
Theorem total_cyclists_weekly_pattern (street_data : list daily_row) :
  TrendMetadata.total_cyclists street_data
  = sum_values (TrendMetadata.weekly_pattern street_data).
Proof.
  unfold TrendMetadata.total_cyclists, TrendMetadata.daily_aggregated,
    TrendMetadata.weekly_pattern.
  rewrite (daily_aggregated_sum street_data ∅), (@sum_values_empty Z _ _).
  rewrite (sum_values_filled Py.lower (λ day, sum_cyclists (on_day day street_data)));
    [| apply lower_days_NoDup | intros; apply lookup_empty].
  rewrite days_partition. reflexivity.
Qed.

(** Each weekly_pattern value is the sum over the ungrouped rows of its
    weekday. *)
Lemma weekly_pattern_lookup (street_data : list daily_row) (day : string) :
  day ∈ days_order →
  TrendMetadata.weekly_pattern street_data !! Py.lower day
  = Some (sum_cyclists (on_day day street_data)).
Proof.
  intros Hday. unfold TrendMetadata.weekly_pattern.
  assert (∀ (xs : list string) (d : gmap string Z),
            NoDup (Py.lower <$> xs) → day ∈ xs →
            foldl (λ d day, <[Py.lower day := sum_cyclists (on_day day street_data)]> d) d xs
              !! Py.lower day = Some (sum_cyclists (on_day day street_data))) as H.
  { induction xs as [|x xs IH]; intros d Hnd Hin; [by apply elem_of_nil in Hin|].
    rewrite fmap_cons in Hnd. apply NoDup_cons in Hnd as [Hx Hnd]. simpl.
    apply elem_of_cons in Hin as [->|Hin]; [|by apply IH].
    clear IH. revert d. induction xs as [|y ys IH]; intros d; simpl.
    - apply lookup_insert_eq.
    - rewrite fmap_cons in Hx, Hnd. apply not_elem_of_cons in Hx as [Hxy Hx].
      apply NoDup_cons in Hnd as [_ Hnd].
      rewrite insert_insert_ne by done. by apply IH. }
  apply H; [apply lower_days_NoDup | done].
Qed.

Example total_cyclists_two_days :
  TrendMetadata.total_cyclists
    [ {| road_name := Some "West Pier"; date := Some 0; daily_popularity := S754_zero false;
         daily_cyclists := 4; daily_rides := 4; daily_points := 9;
         daily_speed := S754_zero false |};
      {| road_name := Some "West Pier Road"; date := Some 0;
         daily_popularity := S754_zero false;
         daily_cyclists := 3; daily_rides := 3; daily_points := 5;
         daily_speed := S754_zero false |};
      {| road_name := Some "West Pier"; date := None; daily_popularity := S754_zero false;
         daily_cyclists := 100; daily_rides := 1; daily_points := 1;
         daily_speed := S754_zero false |};
      {| road_name := Some "West Pier"; date := Some 4; daily_popularity := S754_zero false;
         daily_cyclists := 10; daily_rides := 4; daily_points := 9;
         daily_speed := S754_zero false |} ] = 17.
Proof. vm_compute. reflexivity. Qed.

End trend_metadata.

(* ------------------------------------------------------------------ *)
(** ** Day-of-week totals ([TrendExtractor.simple_day_data])           *)
(* ------------------------------------------------------------------ *)

Section trend_extractor.
Import DailyData.
Context {U : Py.CaseMapping}.

(** The variant loop gathers the matches of every variant, in order. *)
Lemma collect_variants_concat (df : list daily_row) (variants : list string) :
  (TrendExtractor.collect_variants df variants).1
  = mjoin (TrendExtractor.variant_data df <$> variants).
Proof.
  unfold TrendExtractor.collect_variants.
  enough (∀ acc,
    (foldl (λ '(combined_data, found_variants) variant,
              let vd := TrendExtractor.variant_data df variant in
              if (0 <? length vd)%nat
              then (combined_data ++ vd, found_variants ++ [variant])
              else (combined_data, found_variants)) acc variants).1
    = acc.1 ++ mjoin (TrendExtractor.variant_data df <$> variants)) as H.
  { by rewrite H. }
  induction variants as [|v vs IH]; intros [c f]; simpl; [by rewrite app_nil_r|].
  rewrite IH. destruct (TrendExtractor.variant_data df v) as [|r vd]; simpl.
  - done.
  - by rewrite <- app_assoc.
Qed.

Lemma combined_data_unique (df : list daily_row) (variants : list string) :
  TrendExtractor.combined_data df variants
  = Py.unique (mjoin (TrendExtractor.variant_data df <$> variants)).
Proof.
  unfold TrendExtractor.combined_data. cbv zeta. rewrite collect_variants_concat.
  by destruct (mjoin _).
Qed.

(** A row is gathered exactly when its road name holds some variant. *)
Lemma elem_of_gathered (df : list daily_row) (variants : list string) (r : daily_row) :
  r ∈ mjoin (TrendExtractor.variant_data df <$> variants)
  ↔ r ∈ filter (λ r, existsb (λ v, TrendExtractor.contains_nocase v (road_name r)) variants) df.
Proof.
  rewrite list_elem_of_filter, list_elem_of_join. split.
  - intros (l & Hr & (v & -> & Hv)%list_elem_of_fmap).
    apply list_elem_of_filter in Hr as [Hm Hr]. split; [|done].
    apply Is_true_true, existsb_exists. exists v.
    split; [by apply list_elem_of_In | by apply Is_true_true].
  - intros [(v & Hv & Hm)%Is_true_true%existsb_exists Hr].
    exists (TrendExtractor.variant_data df v). split.
    + apply list_elem_of_filter. split; [by apply Is_true_true | done].
    + apply list_elem_of_fmap_2. by apply list_elem_of_In.
Qed.

Lemma combined_data_matched (df : list daily_row) (street : option string) :
  TrendExtractor.combined_data df (TrendExtractor.get_street_variants street)
  ≡ₚ TrendExtractor.matched_rows TrendExtractor.contains_nocase df street.
Proof.
  rewrite combined_data_unique. apply unique_Permutation, elem_of_gathered.
Qed.

Lemma day_total_matched (df : list daily_row) (street : option string) (day : string) :
  TrendExtractor.day_total true
    (TrendExtractor.combined_data df (TrendExtractor.get_street_variants street)) day
  = TrendExtractor.described_day_total TrendExtractor.contains_nocase df street day.
Proof.
  unfold TrendExtractor.day_total, TrendExtractor.described_day_total.
  pose proof (combined_data_matched df street) as Hp.
  destruct (TrendExtractor.combined_data df _) as [|r rows] eqn:E.
  - apply Permutation_nil_l in Hp. by rewrite <- Hp.
  - simpl Nat.ltb. cbv iota. apply sum_cyclists_Permutation.
    unfold on_day. by rewrite Hp.
Qed.

Lemma street_entry_totals (df : list daily_row) (street : option string) (day : string) :
  TrendExtractor.day_totals (TrendExtractor.street_entry true df street) !! day
  = if decide (day ∈ days_order)
    then Some (TrendExtractor.described_day_total TrendExtractor.contains_nocase df street day)
    else None.
Proof.
  unfold TrendExtractor.street_entry. cbv zeta. cbn [TrendExtractor.day_totals].
  rewrite (lookup_filled (λ day, TrendExtractor.day_total true _ day)).
  case_decide; [by rewrite day_total_matched | apply lookup_empty].
Qed.

Lemma street_entry_total_cyclists (df : list daily_row) (street : option string) :
  TrendExtractor.total_cyclists (TrendExtractor.street_entry true df street)
  = sum_over (TrendExtractor.described_day_total TrendExtractor.contains_nocase df street)
             days_order.
Proof.
  unfold TrendExtractor.street_entry. cbv zeta. cbn [TrendExtractor.total_cyclists].
  rewrite (sum_values_filled id (λ day, TrendExtractor.day_total true _ day));
    [| rewrite list_fmap_id; apply days_order_NoDup | intros; apply lookup_empty].
  rewrite (sum_over_ext _ _ _ (λ day _, day_total_matched df street day)).
  reflexivity.
Qed.

Lemma simple_day_data_lookup (cyclists_column : bool) (df : list daily_row)
    (street_column : list (option string)) (street : option string) :
  street ∈ street_column →
  TrendExtractor.simple_day_data cyclists_column df street_column !! street
  = Some (TrendExtractor.street_entry cyclists_column df street).
Proof.
  intros Hin. unfold TrendExtractor.simple_day_data. cbv zeta.
  rewrite (lookup_filled (TrendExtractor.street_entry cyclists_column df)).
  by rewrite decide_True by by apply unique_elem_of.
Qed.

(** No row matches: nothing is gathered. *)
Lemma matched_rows_none (holds : string → option string → bool)
    (df : list daily_row) (street : option string) :
  (∀ r, r ∈ df →
     existsb (λ v, holds v (road_name r)) (TrendExtractor.get_street_variants street) = false) →
  TrendExtractor.matched_rows holds df street = [].
Proof.
  intros H. unfold TrendExtractor.matched_rows.
  assert (filter (λ r, existsb (λ v, holds v (road_name r))
                         (TrendExtractor.get_street_variants street)) df = []) as ->; [|done].
  apply elem_of_nil_inv. intros r [Hm Hr]%list_elem_of_filter.
  rewrite (H r Hr) in Hm. done.
Qed.

(** A road name that differs from a variant by letter case only is
    matched, whatever the alphabet. *)
Lemma contains_nocase_same_letters (variant x : string) :
  Py.str_upper variant = Py.str_upper x →
  TrendExtractor.contains_nocase variant (Some x) = true.
Proof.
  intros H. unfold TrendExtractor.contains_nocase. rewrite H.
  apply contains_spec. exists EmptyString, EmptyString.
  rewrite append_empty_l. generalize (Py.str_upper x). intros s.
  induction s as [|c s IH]; [done|]. rewrite append_cons. by f_equal.
Qed.

(** C2 (amended).  For every street of the route-popularity input the
    script writes an entry whose day_totals has exactly the seven day names
    as keys, each mapped to the sum of daily_cyclists over the deduplicated
    rows of the daily data whose road_name contains, letter case ignored
    (the variant and the road name both put in upper case, as
    [case=False] does), one of the street's name variants and whose date
    falls on that day; every day total is 0 when no row matches; and
    total_cyclists is the sum of the seven day totals. *)
Theorem simple_day_data_entry (df : list daily_row)
    (street_column : list (option string)) (street : option string) :
  street ∈ street_column →
  ∃ entry,
    TrendExtractor.simple_day_data true df street_column !! street = Some entry
    ∧ dom (TrendExtractor.day_totals entry) = list_to_set days_order
    ∧ (∀ day, day ∈ days_order →
         TrendExtractor.day_totals entry !! day
         = Some (TrendExtractor.described_day_total
                   TrendExtractor.contains_nocase df street day))
    ∧ ((∀ r, r ∈ df →
          existsb (λ v, TrendExtractor.contains_nocase v (road_name r))
                  (TrendExtractor.get_street_variants street) = false) →
       ∀ day, day ∈ days_order → TrendExtractor.day_totals entry !! day = Some 0)
    ∧ TrendExtractor.total_cyclists entry
      = sum_over (λ day, default 0 (TrendExtractor.day_totals entry !! day)) days_order.
Proof.
  intros Hin. exists (TrendExtractor.street_entry true df street).
  split; [by apply simple_day_data_lookup|].
  assert (∀ day, day ∈ days_order →
            TrendExtractor.day_totals (TrendExtractor.street_entry true df street) !! day
            = Some (TrendExtractor.described_day_total
                      TrendExtractor.contains_nocase df street day)) as Hday.
  { intros day Hd. by rewrite street_entry_totals, decide_True. }
  split; [|split; [exact Hday | split]].
  - apply set_eq. intros day.
    rewrite elem_of_dom, street_entry_totals, elem_of_list_to_set.
    case_decide; [by split; [|eexists] | by split; [intros [? ?] |]].
  - intros Hnone day Hd. rewrite (Hday day Hd). f_equal.
    unfold TrendExtractor.described_day_total.
    by rewrite matched_rows_none.
  - rewrite street_entry_total_cyclists. apply sum_over_ext.
    intros day Hd. by rewrite (Hday day Hd).
Qed.

End trend_extractor.

Section trend_examples.
Import DailyData.

(** C2, as stated, fails where the letter case differs: a row for
    'WEST PIER' does not contain the variant 'West Pier', yet its cyclists
    are counted, the script matching with [case=False].  The strings are
    ASCII, on which [str.upper] is [Py.upper]. *)
Lemma day_totals_ignore_case :
  let df := [ {| road_name := Some "WEST PIER"; date := Some 4;
                 daily_popularity := S754_zero false; daily_cyclists := 5;
                 daily_rides := 5; daily_points := 40;
                 daily_speed := S754_zero false |} ] in
  ((TrendExtractor.day_totals <$>
      TrendExtractor.simple_day_data (U := Py.ascii_case) true df [Some "West Pier"] !! Some "West Pier")
     ≫= (.!! "Monday") = Some 5
   ∧ TrendExtractor.described_day_total TrendExtractor.contains_case df
       (Some "West Pier") "Monday" = 0)
  ∧ ¬ (∀ df street_column street, street ∈ street_column →
         ∃ entry,
           TrendExtractor.simple_day_data (U := Py.ascii_case) true df street_column !! street = Some entry
           ∧ ∀ day, day ∈ days_order →
               TrendExtractor.day_totals entry !! day
               = Some (TrendExtractor.described_day_total
                         TrendExtractor.contains_case df street day)).
Proof.
  cbv zeta. split; [vm_compute; done|].
  intros H.
  destruct (H [ {| road_name := Some "WEST PIER"; date := Some 4;
                   daily_popularity := S754_zero false; daily_cyclists := 5;
                   daily_rides := 5; daily_points := 40;
                   daily_speed := S754_zero false |} ]
              [Some "West Pier"] (Some "West Pier"))
    as (entry & Hentry & Hdays); [apply list_elem_of_here|].
  vm_compute in Hentry. injection Hentry as <-.
  specialize (Hdays "Monday" (list_elem_of_here _ _)).
  vm_compute in Hdays. discriminate Hdays.
Qed.

Lemma simple_day_data_entry_witness :
  ∃ entry,
    TrendExtractor.simple_day_data (U := Py.ascii_case) true
      [ {| road_name := Some "Nutley Lane"; date := Some 4;
           daily_popularity := S754_zero false; daily_cyclists := 5;
           daily_rides := 5; daily_points := 40; daily_speed := S754_zero false |} ]
      [Some "Nutley Lane"; None] !! Some "Nutley Lane" = Some entry
    ∧ TrendExtractor.total_cyclists entry = 5.
Proof.
  destruct (simple_day_data_entry (U := Py.ascii_case)
    [ {| road_name := Some "Nutley Lane"; date := Some 4;
         daily_popularity := S754_zero false; daily_cyclists := 5;
         daily_rides := 5; daily_points := 40; daily_speed := S754_zero false |} ]
    [Some "Nutley Lane"; None] (Some "Nutley Lane"))
    as (entry & Hentry & _).
  - apply list_elem_of_here.
  - exists entry. split; [exact Hentry|].
    vm_compute in Hentry. injection Hentry as <-. reflexivity.
Defined.

End trend_examples.

(* ------------------------------------------------------------------ *)
(** ** The dashboard loaders catch what they raise                     *)
(* ------------------------------------------------------------------ *)

(** A handler that reports the exception and returns the sentinel makes
    the guarded block catch. *)
Lemma try_except_catches {A} (body : St.io A) (handler : Py.exn → St.io A)
    (sentinel : A) :
  (∀ e log, ∃ m rest,
      handler e log = (Py.Ok sentinel, log ++ m :: rest) ∧ St.reports e m) →
  St.catches (St.try_except body handler) body sentinel.
Proof.
  intros Hh log. unfold St.try_except.
  destruct (body log) as [[v|e] log1] eqn:E.
  - exists v, log1. split; [done|]. intros e' log2 [=].
  - destruct (Hh e log1) as (m & rest & -> & Hm).
    exists sentinel, (log1 ++ m :: rest). split; [done|].
    intros e' log2 [= <- <-]. eauto.
Qed.

Lemma report_then_return {A} (l : St.level) (text : string) (sentinel : A)
    (e : Py.exn) (log : list St.message) :
  l = St.Error ∨ l = St.Warning →
  ∃ m rest,
    (St.emit l text (Some e) ≫= λ _, mret sentinel) log
      = (Py.Ok sentinel, log ++ m :: rest)
    ∧ St.reports e m.
Proof.
  intros Hl. exists {| St.msg_level := l; St.msg_text := text; St.msg_exn := Some e |}, [].
  split; [reflexivity | by split].
Qed.

(** A handler that only returns the sentinel, around a block that writes
    nothing, makes the guarded block silent. *)
Lemma try_except_silent {A} (body : St.io A) (sentinel : A) :
  (∀ log, ∃ r, body log = (r, log)) →
  St.silent (St.try_except body (λ _, mret sentinel)) body sentinel.
Proof.
  intros Hb log. destruct (Hb log) as [r Hr]. unfold St.try_except. rewrite Hr.
  destruct r as [v|e].
  - exists v. split; [done|]. intros e log1 [=].
  - exists sentinel. by split.
Qed.

Section loaders.
Context {frame : Type} (w : St.world frame).
Context (GEOPANDAS_AVAILABLE : bool) (read_file : St.path → Py.result frame).
Context (has_date_column : frame → bool).
Context (dates_to_datetime : frame → Py.result frame).
Context (from_features : St.json → Py.result (list Tab3.geo_row)).
Context (set_crs : list Tab3.geo_row → Py.result unit).

(** The blocks of the two cycleways loaders write nothing. *)
Lemma tab2_cycleways_body_writes_nothing (log : list St.message) :
  ∃ r, Tab2.load_cycleways_data_body w GEOPANDAS_AVAILABLE read_file log = (r, log).
Proof.
  unfold Tab2.load_cycleways_data_body.
  destruct GEOPANDAS_AVAILABLE; cbn [negb]; [|by eexists].
  unfold mbind, io_bind, St.bind, St.call.
  destruct (St.cwd w) as [cwd|e]; [|by eexists].
  cbv zeta. destruct (Py.for_each _ _ None) as [found|]; by eexists.
Qed.

Lemma tab3_cycleways_body_writes_nothing (log : list St.message) :
  ∃ r, Tab3.load_cycleways_data_body w log = (r, log).
Proof. unfold Tab3.load_cycleways_data_body, St.call. by eexists. Qed.

(** The GeoPandas block of [load_road_segments] is answered by the
    fallback loader. *)
Lemma load_road_segments_fallback (log log1 : list St.message) (e : Py.exn)
    (geojson_data : St.json) (rows : list Tab3.fallback_row) :
  let file_path := St.join (Tab3.get_data_path w) ["trimmed_active_segments.geojson"] in
  St.path_exists w file_path = Py.Ok true →
  Tab3.load_geodataframe w from_features set_crs file_path log = (Py.Raise e, log1) →
  St.json_load w file_path = Py.Ok geojson_data →
  Tab3.fallback_features geojson_data = Py.Ok rows →
  Tab3.load_road_segments w from_features set_crs log
  = (Py.Ok (Tab3.DataFrame rows),
     log1 ++ [ {| St.msg_level := St.Info;
                  St.msg_text := "Using fallback GeoJSON loader (GeoPandas issue: ";
                  St.msg_exn := Some e |} ]).
Proof.
  intros file_path Hex Hgdf Hload Hrows.
  unfold Tab3.load_road_segments, Tab3.load_road_segments_body. cbv zeta.
  fold file_path. unfold St.try_except at 1.
  unfold mbind at 1, io_bind at 1, St.bind at 1, St.call at 1. rewrite Hex. cbn [negb].
  unfold St.try_except. rewrite Hgdf.
  unfold Tab3.load_fallback, mbind, io_bind, St.bind, St.call, St.emit.
  by rewrite Hload, Hrows.
Qed.

(** C4 (amended).  No dashboard loader lets an exception of its guarded
    block reach the caller, whatever the file system, the parsers, pandas
    and GeoPandas do.  When the block raises: the abnormal-events CSV and
    GeoJSON loaders, the route-popularity CSV loader, the loaders of
    time-of-the-day.json, day-of-the-week.json, weekly_street_trends.json
    and daily_street_data.csv, and [load_road_segments] for its outer
    block, emit a Streamlit error or warning formatting the exception and
    return their empty value (empty DataFrame, None, empty list or empty
    dict); the two [load_cycleways_data] emit nothing, ever, and return the
    empty DataFrame (tab 2) or None (tab 3); and an exception of the
    GeoPandas block of [load_road_segments] is answered by one [st.info]
    and the DataFrame that the fallback loader builds from the features of
    the file. *)
Theorem loaders_catch :
  (St.catches (Tab2.load_abnormal_events_data w)
              (Tab2.load_abnormal_events_data_body w) (St.empty_frame w)
   ∧ St.catches (Tab2.load_abnormal_events_segments w)
                (Tab2.load_abnormal_events_segments_body w) None
   ∧ St.catches (Tab3.load_route_popularity_data w)
                (Tab3.load_route_popularity_data_body w) (St.empty_frame w)
   ∧ St.catches (Tab3.load_time_of_day_data w)
                (Tab3.load_time_of_day_data_body w) (St.JArr [])
   ∧ St.catches (Tab3.load_day_of_week_data w)
                (Tab3.load_day_of_week_data_body w) (St.JObj [])
   ∧ St.catches (Tab3.load_street_trends_metadata w)
                (Tab3.load_street_trends_metadata_body w) (St.JObj [])
   ∧ St.catches (Tab3.load_daily_street_data w has_date_column dates_to_datetime)
                (Tab3.load_daily_street_data_body w has_date_column dates_to_datetime)
                (St.empty_frame w)
   ∧ St.catches (Tab3.load_road_segments w from_features set_crs)
                (Tab3.load_road_segments_body w from_features set_crs)
                (Tab3.DataFrame []))
  ∧ (St.silent (Tab2.load_cycleways_data w GEOPANDAS_AVAILABLE read_file)
               (Tab2.load_cycleways_data_body w GEOPANDAS_AVAILABLE read_file)
               (St.empty_frame w)
     ∧ St.silent (Tab3.load_cycleways_data w) (Tab3.load_cycleways_data_body w) None)
  ∧ (∀ log log1 e geojson_data rows,
       let file_path :=
         St.join (Tab3.get_data_path w) ["trimmed_active_segments.geojson"] in
       St.path_exists w file_path = Py.Ok true →
       Tab3.load_geodataframe w from_features set_crs file_path log = (Py.Raise e, log1) →
       St.json_load w file_path = Py.Ok geojson_data →
       Tab3.fallback_features geojson_data = Py.Ok rows →
       Tab3.load_road_segments w from_features set_crs log
       = (Py.Ok (Tab3.DataFrame rows),
          log1 ++ [ {| St.msg_level := St.Info;
                       St.msg_text := "Using fallback GeoJSON loader (GeoPandas issue: ";
                       St.msg_exn := Some e |} ])).
Proof.
  split; [|split].
  - repeat split; apply try_except_catches; intros e log.
    + apply report_then_return. by left.
    + eexists _, [_]. split.
      * cbv [mbind mret io_bind io_ret St.bind St.ret St.emit].
        by rewrite <- app_assoc.
      * by split; [left|].
    + eexists _, [_]. split.
      * cbv [mbind mret io_bind io_ret St.bind St.ret St.emit].
        by rewrite <- app_assoc.
      * by split; [left|].
    + apply report_then_return. by right.
    + apply report_then_return. by right.
    + apply report_then_return. by right.
    + apply report_then_return. by right.
    + eexists _, [_]. split.
      * cbv [mbind mret io_bind io_ret St.bind St.ret St.emit].
        by rewrite <- app_assoc.
      * by split; [left|].
  - split; apply try_except_silent.
    + apply tab2_cycleways_body_writes_nothing.
    + apply tab3_cycleways_body_writes_nothing.
  - intros log log1 e geojson_data rows. apply load_road_segments_fallback.
Qed.

End loaders.

(** C4, as stated, fails for the loaders that answer a failure without a
    warning or an error.  Where the cycleways file of tab 3 is found and
    does not parse, [json.load] raises and the loader returns None with
    nothing on the page; and where the segments file holds a dict without
    'features', the subscript raises KeyError and the page gets an
    [st.info]. *)
Lemma cycleways_loader_reports_nothing :
  (Tab3.load_cycleways_data_body St.unreadable_files [] = (Py.Raise Py.JSONDecodeError, [])
   ∧ Tab3.load_cycleways_data St.unreadable_files [] = (Py.Ok None, [])
   ∧ ¬ St.catches (Tab3.load_cycleways_data St.unreadable_files)
         (Tab3.load_cycleways_data_body St.unreadable_files) None)
  ∧ Tab3.load_road_segments (Tab2.geojson_world (St.JObj []))
      (λ _, Py.Ok []) (λ _, Py.Ok tt) []
    = (Py.Ok (Tab3.DataFrame []),
       [ {| St.msg_level := St.Info;
            St.msg_text := "Using fallback GeoJSON loader (GeoPandas issue: ";
            St.msg_exn := Some Py.KeyError |} ]).
Proof.
  split; [|reflexivity]. split; [reflexivity|]. split; [reflexivity|].
  intros H. destruct (H []) as (v & log' & Hrun & Hcaught).
  destruct (Hcaught Py.JSONDecodeError [] eq_refl) as (_ & m & rest & -> & _).
  vm_compute in Hrun. injection Hrun as _ Hlog. by destruct rest.
Qed.

(** With files that do not parse, the CSV loader hands back the empty
    frame after one error message. *)
Lemma loaders_catch_witness :
  ∃ m, Tab2.load_abnormal_events_data St.unreadable_files []
         = (Py.Ok (St.empty_frame St.unreadable_files), [m])
       ∧ St.msg_level m = St.Error.
Proof.
  destruct (proj1 (proj1 (loaders_catch St.unreadable_files true (λ _, Py.Ok [])
                            (λ _, false) Py.Ok (λ _, Py.Ok []) (λ _, Py.Ok tt))) [])
    as (v & log' & Hrun & Hcaught).
  destruct (Hcaught Py.ParserError [] eq_refl) as (-> & m & rest & -> & _).
  vm_compute in Hrun. injection Hrun as <- <-.
  eexists. split; reflexivity.
Defined.

Example day_of_week_unreadable :
  Tab3.load_day_of_week_data St.unreadable_files []
  = (Py.Ok (St.JObj []),
     [ {| St.msg_level := St.Warning;
          St.msg_text := "Could not load day of week data: ";
          St.msg_exn := Some Py.JSONDecodeError |} ]).
Proof. reflexivity. Qed.

(* ------------------------------------------------------------------ *)
(** ** The street extractor ([StreetExtractor])                        *)
(* ------------------------------------------------------------------ *)

Section street_extractor.
Import StreetExtractor.
Context {L : GeoLib}.

(** *** Trimming *)

Lemma filter_filter_bool {A} (p q : A → bool) (l : list A) :
  filter (λ x, q x) (filter (λ x, p x) l) = filter (λ x, p x && q x) l.
Proof.
  induction l as [|x l IH]; [done|].
  rewrite !(filter_cons _ x). destruct (p x) eqn:Ep, (q x) eqn:Eq; simpl.
  all: repeat case_decide; try done.
  all: rewrite ?filter_cons, ?Eq; repeat case_decide; try done; by rewrite IH.
Qed.

Lemma filter_nil_of_filter {A} (p q : A → bool) (l : list A) :
  filter (λ x, p x) l = [] → filter (λ x, p x && q x) l = [].
Proof. intros H. by rewrite <- filter_filter_bool, H. Qed.

(** The function, once the buffers are merged: nothing when no piece
    survives, else the merge of the survivors. *)
Lemma trim_geometry_to_points_unfold (road_geom : geom) (points_gdf : list gps_point)
    (buffer_m : Z) (buffer_union : geom) :
  unary_union (point_buffers points_gdf buffer_m) = Py.Ok buffer_union →
  trim_geometry_to_points road_geom points_gdf buffer_m
  = match surviving_pieces road_geom buffer_union with
    | [] => Py.Ok None
    | survivors => merge_survivors survivors
    end.
Proof.
  intros Hbu. unfold trim_geometry_to_points, surviving_pieces, point_buffers in *.
  rewrite <- list_fmap_compose. unfold compose. rewrite Hbu. cbv zeta.
  change (Py.Ok buffer_union ≫= ?k) with (k buffer_union). cbv beta.
  replace (((λ g, intersection g buffer_union) <$> [to_crs 4326 3857 road_geom])
             ≫= explode)
    with (explode (intersection (to_crs 4326 3857 road_geom) buffer_union))
    by (simpl; by rewrite app_nil_r).
  set (pieces := explode _).
  rewrite <- (filter_filter_bool (λ g, negb (is_empty g) && is_valid g) length_positive).
  rewrite <- (filter_filter_bool (λ g, negb (is_empty g)) is_valid).
  rewrite (filter_filter_bool is_valid length_positive).
  destruct (filter (λ g, negb (is_empty g)) pieces) as [|g gs]; [done|].
  destruct (filter _ (g :: gs)) as [|v vs]; [done|].
  unfold merge_survivors, Py.try_except.
  by destruct (unary_union (v :: vs) ≫= _).
Qed.

Lemma merge_survivors_not_none (survivors : list geom) :
  merge_survivors survivors ≠ Py.Ok None.
Proof.
  unfold merge_survivors.
  destruct (match _ with Py.Ok m => Py.Ok m | Py.Raise _ => _ end); discriminate.
Qed.

(** C1 (amended).  For every road geometry and every set of cyclist
    points whose 25-metre buffers (taken in EPSG:3857) merge into
    [buffer_union]: the function keeps the pieces of the intersection of
    the reprojected road with [buffer_union] that are non-empty, valid and
    of positive length; it returns None exactly when no piece survives;
    otherwise it returns, reprojected to EPSG:4326, the linemerge of the
    unary union of the survivors or, when linemerge raises, that unary
    union itself. *)
Theorem trim_geometry_to_points_survivors (road_geom : geom)
    (points_gdf : list gps_point) (buffer_union : geom) :
  unary_union (point_buffers points_gdf 25) = Py.Ok buffer_union →
  (trim_geometry_to_points road_geom points_gdf 25 = Py.Ok None
     ↔ surviving_pieces road_geom buffer_union = [])
  ∧ (surviving_pieces road_geom buffer_union ≠ [] →
       trim_geometry_to_points road_geom points_gdf 25
       = merge_survivors (surviving_pieces road_geom buffer_union)).
Proof.
  intros Hbu. rewrite (trim_geometry_to_points_unfold _ _ _ _ Hbu).
  destruct (surviving_pieces road_geom buffer_union) as [|v vs].
  - split; [done | by intros []].
  - split; [|done]. split; [|done].
    intros H. by apply merge_survivors_not_none in H.
Qed.

End street_extractor.

(** C1, as stated, fails where one piece survives: its union is a single
    LineString, which linemerge refuses, and what comes back is the union
    itself, not a linemerge. *)
Lemma trim_single_piece_not_merged :
  let L := StreetExtractor.Axis.robust in
  let road : StreetExtractor.geom := StreetExtractor.Axis.Line 0 100 in
  let buffer_union : StreetExtractor.geom := StreetExtractor.Axis.Line (-5) 45 in
  let survivors : list StreetExtractor.geom := [StreetExtractor.Axis.Line 0 45] in
  (StreetExtractor.unary_union
     (StreetExtractor.point_buffers StreetExtractor.Axis.robust_cyclist 25)
     = Py.Ok buffer_union
   ∧ StreetExtractor.surviving_pieces road buffer_union = survivors
   ∧ (StreetExtractor.unary_union survivors ≫= StreetExtractor.linemerge)
       = Py.Raise Py.ValueError
   ∧ StreetExtractor.trim_geometry_to_points road StreetExtractor.Axis.robust_cyclist 25
       = Py.Ok (Some (StreetExtractor.Axis.Line 0 45)))
  ∧ ¬ (∀ (road_geom : StreetExtractor.geom) points_gdf buffer_union,
         StreetExtractor.unary_union (StreetExtractor.point_buffers points_gdf 25)
           = Py.Ok buffer_union →
         StreetExtractor.surviving_pieces road_geom buffer_union ≠ [] →
         ∃ u merged,
           StreetExtractor.unary_union
             (StreetExtractor.surviving_pieces road_geom buffer_union) = Py.Ok u
           ∧ StreetExtractor.linemerge u = Py.Ok merged
           ∧ StreetExtractor.trim_geometry_to_points road_geom points_gdf 25
             = Py.Ok (Some (StreetExtractor.to_crs 3857 4326 merged))).
Proof.
  cbv zeta. split; [vm_compute; done|].
  intros H.
  specialize (H (StreetExtractor.Axis.Line 0 100) StreetExtractor.Axis.robust_cyclist
                (StreetExtractor.Axis.Line (-5) 45) eq_refl).
  destruct H as (u & merged & Hu & Hm & _); [vm_compute; discriminate|].
  vm_compute in Hu. injection Hu as <-. discriminate Hm.
Qed.

Lemma trim_geometry_to_points_survivors_witness :
  StreetExtractor.trim_geometry_to_points (L := StreetExtractor.Axis.robust)
    (StreetExtractor.Axis.Multi [(0, 40); (42, 100)])
    StreetExtractor.Axis.robust_cyclist 25
  = Py.Ok (Some (StreetExtractor.Axis.Multi [(0, 40); (42, 45)])).
Proof.
  refine (proj2 (trim_geometry_to_points_survivors (L := StreetExtractor.Axis.robust)
            (StreetExtractor.Axis.Multi [(0, 40); (42, 100)])
            StreetExtractor.Axis.robust_cyclist
            (StreetExtractor.Axis.Line (-5) 45) _) _).
  - vm_compute. reflexivity.
  - vm_compute. discriminate.
Defined.

(** *** Matching the OSM edges *)

Section street_geometry.
Import StreetExtractor.
Context {L : GeoLib}.

Lemma select_fmap {A} (f : A → bool) (frame : list A) :
  select frame (f <$> frame) = filter (λ x, f x) frame.
Proof.
  induction frame as [|x frame IH]; [done|].
  rewrite fmap_cons, filter_cons. simpl. rewrite IH.
  destruct (f x); simpl; by repeat case_decide.
Qed.

Lemma zip_with_orb_fmap {A} (f g : A → bool) (l : list A) :
  zip_with orb (f <$> l) (g <$> l) = (λ x, f x || g x) <$> l.
Proof. induction l as [|x l IH]; [done|]. rewrite !fmap_cons. cbn [zip_with]. by rewrite IH. Qed.

(** With a plain pattern, [str.contains] is the substring test on every
    cell that is not missing. *)
Lemma str_contains_plain (pat : string) (column : list (option string)) :
  literal_patterns → regex_plain pat = true →
  str_contains pat column = Py.Ok (cell_contains pat <$> column).
Proof.
  intros Hlit Hpat. destruct (Hlit pat Hpat) as (r & Hr & Hs).
  unfold str_contains. rewrite Hr. simpl. f_equal.
  apply list_fmap_ext. intros _ [s|] _; [apply Hs | done].
Qed.

Lemma rows_containing_plain {A} (col : A → option string) (pat : string)
    (frame : list A) :
  literal_patterns → regex_plain pat = true →
  rows_containing col pat frame
  = Py.Ok (filter (λ x, cell_contains pat (col x)) frame).
Proof.
  intros Hlit Hpat. unfold rows_containing.
  rewrite str_contains_plain by done. simpl.
  by rewrite <- list_fmap_compose, select_fmap.
Qed.

Local Ltac merge_cases :=
  simpl; destruct (unary_union _) as [u|]; simpl; [destruct (linemerge u)|]; done.

(** The matches the function merges, or None when there are none. *)
Lemma get_street_geometry_selection (part : string) (all_edges : list edge) :
  literal_patterns → regex_plain part = true →
  get_street_geometry part all_edges
  = match final_selection part all_edges with
    | [] => None
    | matches =>
        match u ← unary_union (geometry <$> matches); linemerge u with
        | Py.Ok merged => Some merged
        | Py.Raise _ => None
        end
    end.
Proof.
  intros Hlit Hpart. unfold get_street_geometry, get_street_geometry_body, final_selection.
  rewrite !str_contains_plain by done. simpl.
  rewrite <- !list_fmap_compose, zip_with_orb_fmap, select_fmap. unfold compose.
  set (by_name_or_ref := filter _ all_edges).
  destruct by_name_or_ref as [|e es] eqn:E.
  - destruct (Py.contains "kill lane" part).
    + rewrite (rows_containing_plain _ "r830"); [|done|reflexivity].
      destruct (filter (λ x, cell_contains "r830" _) all_edges) as [|m ms].
      * simpl. by destruct (rows_containing _ _ all_edges).
      * merge_cases.
    + simpl. by destruct (rows_containing _ _ all_edges).
  - merge_cases.
Qed.

(** A part that is not a valid pattern gives None. *)
Lemma get_street_geometry_bad_pattern (part : string) (all_edges : list edge) (e : Py.exn) :
  re_compile part = Py.Raise e → get_street_geometry part all_edges = None.
Proof.
  intros He. unfold get_street_geometry, get_street_geometry_body, str_contains.
  by rewrite He.
Qed.

(** What the function returns for a part without regular-expression
    special characters (the part is used as a pattern): None when the
    final selection is empty or merging it raises, and otherwise the
    linemerge of the unary union of the selected geometries. *)
Theorem get_street_geometry_plain_part (part : string) (all_edges : list edge) :
  literal_patterns → regex_plain part = true →
  let merged := u ← unary_union (geometry <$> final_selection part all_edges);
                linemerge u in
  (get_street_geometry part all_edges = None
     ↔ final_selection part all_edges = [] ∨ ∃ e, merged = Py.Raise e)
  ∧ (∀ g, final_selection part all_edges ≠ [] → merged = Py.Ok g →
       get_street_geometry part all_edges = Some g).
Proof.
  intros Hlit Hpart merged. subst merged.
  rewrite get_street_geometry_selection by done.
  destruct (final_selection part all_edges) as [|m ms].
  - split; [by split; [left|] | by intros g []].
  - destruct (_ ≫= _) as [g|e].
    + split; [|by intros ? _ [= ->]].
      split; [done | by intros [? | [? ?]]].
    + split; [|done]. split; [|done]. intros _. right. by exists e.
Qed.

End street_geometry.

Lemma axis_literal_patterns (L := StreetExtractor.Axis.robust) :
  StreetExtractor.literal_patterns.
Proof.
  intros pat Hpat. exists pat. split; [|done].
  unfold StreetExtractor.re_compile. simpl. unfold StreetExtractor.Axis.compile.
  by rewrite Hpat.
Qed.

(** C5.  Where a single edge matches, the street is lost: the union of
    one LineString is that LineString, [linemerge] raises on it, and the
    handler around the whole body returns None although the selection is
    not empty, where a merged geometry is expected.
    [trim_geometry_to_points] guards the same call and keeps the line. *)
Theorem get_street_geometry_single_edge :
  (StreetExtractor.final_selection (L := StreetExtractor.Axis.robust)
     "nutley lane" StreetExtractor.Axis.nutley_edges
     = [ @StreetExtractor.Build_edge StreetExtractor.Axis.robust
           (Some "Nutley Lane") None (StreetExtractor.Axis.Line 0 100) ]
   ∧ StreetExtractor.get_street_geometry (L := StreetExtractor.Axis.robust)
       "nutley lane" StreetExtractor.Axis.nutley_edges = None
   ∧ StreetExtractor.merge_survivors (L := StreetExtractor.Axis.robust)
       [StreetExtractor.Axis.Line 0 100]
     = Py.Ok (Some (StreetExtractor.Axis.Line 0 100)))
  ∧ ¬ (∀ part (all_edges : list (@StreetExtractor.edge StreetExtractor.Axis.robust)),
         StreetExtractor.get_street_geometry part all_edges = None
         ↔ StreetExtractor.final_selection part all_edges = []).
Proof.
  split; [vm_compute; done|].
  intros H. specialize (H "nutley lane" StreetExtractor.Axis.nutley_edges).
  apply proj1 in H. specialize (H eq_refl). vm_compute in H. discriminate H.
Qed.

Lemma get_street_geometry_plain_part_witness :
  StreetExtractor.get_street_geometry (L := StreetExtractor.Axis.robust) "kill lane"
    StreetExtractor.Axis.robust_edges
  = Some (StreetExtractor.Axis.Multi [(0, 40); (60, 100)]).
Proof.
  refine (proj2 (get_street_geometry_plain_part (L := StreetExtractor.Axis.robust)
            "kill lane"
            StreetExtractor.Axis.robust_edges
            axis_literal_patterns _) _ _ _).
  - vm_compute. reflexivity.
  - vm_compute. discriminate.
  - vm_compute. reflexivity.
Defined.

Example axis_r830_fallback :
  StreetExtractor.final_selection (L := StreetExtractor.Axis.robust) "upper kill lane"
    StreetExtractor.Axis.robust_edges
  = StreetExtractor.Axis.robust_edges.
Proof. vm_compute. reflexivity. Qed.

(** *** The loop over the streets and the file written *)

Section street_main.
Import StreetExtractor.
Context {L : GeoLib}.








(** When the OSM edges cannot be prepared, [main] returns before the
    loop and writes nothing. *)
Lemma main_without_osm (e : Py.exn) (street_names : list (option string))
    (gdf_points : list gps_point) :
  main (Py.Raise e) street_names gdf_points = Py.Ok None.
Proof. reflexivity. Qed.


End street_main.



(** The two trimmed parts of 'Kill Lane / R830' are the same stretch, and
    their union is that stretch. *)
Example axis_trimmed_street :
  StreetExtractor.trimmed_street (L := StreetExtractor.Axis.robust)
    StreetExtractor.Axis.robust_edges StreetExtractor.Axis.robust_cyclist
    (Some "Kill Lane / R830")
  = Some ("Kill Lane / R830",
          [StreetExtractor.Axis.Line 0 40; StreetExtractor.Axis.Line 0 40]).
Proof. vm_compute. reflexivity. Qed.

Example axis_main :
  StreetExtractor.main (L := StreetExtractor.Axis.robust)
    (Py.Ok StreetExtractor.Axis.robust_edges)
    [Some "Kill Lane / R830"; Some "Nutley Lane"]
    StreetExtractor.Axis.robust_cyclist
  = Py.Ok (Some
      {| StreetExtractor.columns := StreetExtractor.output_columns;
         StreetExtractor.features :=
           [ @StreetExtractor.Build_feature StreetExtractor.Axis.robust
               "Kill Lane / R830" "kill lane / r830" (StreetExtractor.Axis.Line 0 40) ] |}).
Proof. vm_compute. reflexivity. Qed.

Example axis_main_no_edges :
  StreetExtractor.main (L := StreetExtractor.Axis.robust)
    (Py.Ok []) [Some "Kill Lane / R830"] StreetExtractor.Axis.robust_cyclist
  = Py.Ok (Some {| StreetExtractor.columns := StreetExtractor.output_columns;
                   StreetExtractor.features := [] |}).
Proof. vm_compute. reflexivity. Qed.

Example split_parts_sandyford :
  StreetExtractor.split_parts "sandyford road & kill lane"
  = ["s"; "yford road"; "kill lane"].
Proof. vm_compute. reflexivity. Qed.

(* ================================================================== *)
(** * Further properties                                               *)
(* ================================================================== *)

(* ------------------------------------------------------------------ *)
(** ** Pieces of a split                                               *)
(* ------------------------------------------------------------------ *)

Lemma append_empty_r (s : string) : s +:+ EmptyString = s.
Proof. induction s as [|a s IH]; [done|]. by rewrite append_cons, IH. Qed.

Lemma Substring_refl (s : string) : Py.Substring s s.
Proof. exists EmptyString, EmptyString. by rewrite append_empty_l, append_empty_r. Qed.

Lemma Substring_trans (a b c : string) :
  Py.Substring a b → Py.Substring b c → Py.Substring a c.
Proof.
  intros (p1 & s1 & ->) (p2 & s2 & ->).
  exists (p2 +:+ p1), (s1 +:+ s2). by rewrite !append_assoc.
Qed.

Lemma Substring_cons (a : string) (c : ascii) (s : string) :
  Py.Substring a s → Py.Substring a (String c s).
Proof. intros (p & q & ->). by exists (String c p), q. Qed.

Lemma Substring_append_r (a p s : string) :
  Py.Substring a s → Py.Substring a (p +:+ s).
Proof.
  intros H. induction p as [|c p IH]; [done|].
  rewrite append_cons. by apply Substring_cons.
Qed.

Lemma Substring_append_l (a s q : string) :
  Py.Substring a s → Py.Substring a (s +:+ q).
Proof.
  intros (p & r & ->). exists p, (r +:+ q). by rewrite !append_assoc.
Qed.

Lemma rev_cons (c : ascii) (cur : string) :
  String.rev (String c cur) = String.rev cur +:+ String c EmptyString.
Proof. unfold String.rev. simpl. by rewrite rev_app_append. Qed.

(** The last character of [u ++ t], for a [t] that is not empty, is the
    last character of [t]. *)
Lemma append_snoc_inv (u t x : string) (c : ascii) :
  u +:+ t = x +:+ String c EmptyString → t ≠ EmptyString →
  ∃ t0, t = t0 +:+ String c EmptyString ∧ x = u +:+ t0.
Proof.
  revert x. induction u as [|a u IH]; intros x E Ht.
  - rewrite append_empty_l in E. by exists x.
  - destruct x as [|a' x]; rewrite !append_cons in E.
    + rewrite append_empty_l in E. injection E as _ E.
      destruct u, t; done.
    + injection E as -> E.
      destruct (IH x E Ht) as (t0 & -> & ->). by exists t0.
Qed.

Lemma no_start_inside_piece (sep cur rest : string) :
  sep ≠ EmptyString → Py.no_start_inside sep cur rest →
  ¬ Py.Substring sep (String.rev cur).
Proof.
  intros Hsep Hin (pre & suf & E).
  assert (Py.startswith sep ((sep +:+ suf) +:+ rest) = true) as Ht.
  { apply startswith_spec. exists (suf +:+ rest). by rewrite append_assoc. }
  rewrite (Hin pre (sep +:+ suf) E) in Ht; [done|].
  by destruct sep.
Qed.

(** No piece of a split holds the separator. *)
Lemma split_go_no_separator (sep : string) (s : string) (skip : nat) (cur : string) :
  sep ≠ EmptyString →
  (skip ≠ O → cur = EmptyString) →
  Py.no_start_inside sep cur s →
  Forall (λ piece, ¬ Py.Substring sep piece) (Py.split_go sep skip cur s).
Proof.
  intros Hsep. revert skip cur.
  induction s as [|c s IH]; intros skip cur Hskip Hin.
  - constructor; [|constructor]. by eapply no_start_inside_piece.
  - cbn [Py.split_go]. destruct skip as [|k].
    + destruct (Py.startswith sep (String c s)) eqn:E.
      * constructor; [by eapply no_start_inside_piece|].
        apply IH; [done|]. intros u t Hu Ht. by destruct u, t.
      * apply IH; [done|].
        intros u t Hu Ht. rewrite rev_cons in Hu. symmetry in Hu.
        destruct (append_snoc_inv _ _ _ _ Hu Ht) as (t0 & -> & Hcur).
        rewrite append_assoc, append_cons, append_empty_l.
        destruct t0 as [|a t0]; [by rewrite append_empty_l|].
        by apply (Hin u (String a t0)).
    + rewrite (Hskip ltac:(done)). apply IH.
      * done.
      * intros u t Hu Ht. by destruct u, t.
Qed.

(** Every piece is a stretch of the text split. *)
Lemma split_go_substring (sep : string) (s : string) (skip : nat) (cur : string) :
  (skip ≠ O → cur = EmptyString) →
  Forall (λ piece, Py.Substring piece (String.rev cur +:+ s)) (Py.split_go sep skip cur s).
Proof.
  revert skip cur. induction s as [|c s IH]; intros skip cur Hskip.
  - constructor; [|constructor]. rewrite append_empty_r. apply Substring_refl.
  - cbn [Py.split_go]. destruct skip as [|k].
    + destruct (Py.startswith sep (String c s)).
      * constructor; [apply Substring_append_l, Substring_refl|].
        eapply Forall_impl; [apply (IH _ EmptyString); done|].
        intros piece Hp. simpl in Hp. by apply Substring_append_r, Substring_cons.
      * eapply Forall_impl; [apply (IH O (String c cur)); done|].
        intros piece Hp. simpl in Hp. rewrite rev_cons, append_assoc in Hp.
        by rewrite append_cons, append_empty_l in Hp.
    + rewrite (Hskip ltac:(done)).
      eapply Forall_impl; [apply (IH k EmptyString); done|].
      intros piece Hp. simpl in *. by apply Substring_cons.
Qed.

Lemma split_no_separator (sep s piece : string) :
  sep ≠ EmptyString → piece ∈ Py.split sep s → ¬ Py.Substring sep piece.
Proof.
  intros Hsep Hin.
  assert (Forall (λ piece, ¬ Py.Substring sep piece) (Py.split sep s)) as HF.
  { apply split_go_no_separator; [done..|]. intros u t Hu Ht. by destruct u, t. }
  rewrite Forall_forall in HF. by apply HF.
Qed.

Lemma split_substring (sep s piece : string) :
  piece ∈ Py.split sep s → Py.Substring piece s.
Proof.
  intros Hin.
  pose proof (split_go_substring sep s O EmptyString ltac:(done)) as HF.
  rewrite Forall_forall in HF. by apply HF.
Qed.

(** *** Stripping *)

Lemma lstrip_substring (s : string) : Py.Substring (Py.lstrip s) s.
Proof.
  induction s as [|c s IH]; [apply Substring_refl|].
  simpl. destruct (Py.is_space c); [by apply Substring_cons | apply Substring_refl].
Qed.

Lemma rstrip_prefix (s : string) : ∃ q, s = Py.rstrip s +:+ q.
Proof.
  induction s as [|c s [q IH]]; [by exists EmptyString|].
  simpl. destruct (Py.rstrip s) as [|a r] eqn:E.
  - destruct (Py.is_space c).
    + by exists (String c s).
    + exists q. rewrite append_empty_l in IH. by rewrite append_cons, append_empty_l, <- IH.
  - exists q. by rewrite append_cons, <- IH.
Qed.

Lemma strip_substring (s : string) : Py.Substring (Py.strip s) s.
Proof.
  unfold Py.strip. eapply Substring_trans; [|apply lstrip_substring].
  destruct (rstrip_prefix (Py.lstrip s)) as [q Hq].
  exists EmptyString, q. by rewrite append_empty_l.
Qed.

(* ------------------------------------------------------------------ *)
(** ** Name parts of the street extractor                              *)
(* ------------------------------------------------------------------ *)

(** One round of splitting: each new part is a stretch of an old one and
    no longer holds the separator. *)
Lemma split_round (sep part p : string) :
  sep ≠ EmptyString →
  p ∈ (if Py.contains sep part then Py.strip <$> Py.split sep part else [part]) →
  Py.Substring p part ∧ ¬ Py.Substring sep p.
Proof.
  intros Hsep. destruct (Py.contains sep part) eqn:E.
  - intros (piece & -> & Hpiece)%list_elem_of_fmap. split.
    + eapply Substring_trans; [apply strip_substring | by eapply split_substring].
    + intros H. apply (split_no_separator sep part piece Hsep Hpiece).
      eapply Substring_trans; [exact H | apply strip_substring].
  - intros ->%list_elem_of_singleton. split; [apply Substring_refl|].
    by apply contains_false_spec.
Qed.

Lemma split_rounds (seps : list string) (parts : list string) (p : string) :
  Forall (λ sep, sep ≠ EmptyString) seps →
  p ∈ foldl (λ parts sep,
               part ← parts;
               if Py.contains sep part then Py.strip <$> Py.split sep part else [part])
            parts seps →
  ∃ p0, p0 ∈ parts ∧ Py.Substring p p0 ∧ ∀ sep, sep ∈ seps → ¬ Py.Substring sep p.
Proof.
  intros Hseps. revert parts.
  induction Hseps as [|sep seps Hsep Hseps IH]; intros parts Hp; simpl in Hp.
  - exists p. split; [done|]. split; [apply Substring_refl|]. by intros ? ?%elem_of_nil.
  - destruct (IH _ Hp) as (p1 & Hp1 & Hsub & Hfree).
    apply list_elem_of_bind in Hp1 as (p0 & Hp1 & Hp0).
    destruct (split_round sep p0 p1 Hsep Hp1) as [Hsub1 Hfree1].
    exists p0. split; [done|]. split; [by eapply Substring_trans|].
    intros sep' [->|Hin]%elem_of_cons; [|by apply Hfree].
    intros H. apply Hfree1. by eapply Substring_trans.
Qed.

(** Every part the street loop works on is a stretch of the clean street
    name and holds none of the separators '&', '/', 'and', ',' and ';'. *)
Theorem split_parts_separator_free (street_name part : string) :
  part ∈ StreetExtractor.split_parts street_name →
  Py.Substring part street_name
  ∧ ∀ sep, sep ∈ StreetExtractor.separators → ¬ Py.Substring sep part.
Proof.
  intros Hp. unfold StreetExtractor.split_parts in Hp.
  apply split_rounds in Hp as (p0 & ->%list_elem_of_singleton & Hsub & Hfree); [done|].
  unfold StreetExtractor.separators. by repeat constructor.
Qed.

Lemma split_parts_separator_free_witness :
  Py.Substring "yford road" "sandyford road & kill lane"
  ∧ ∀ sep, sep ∈ StreetExtractor.separators → ¬ Py.Substring sep "yford road".
Proof.
  apply (split_parts_separator_free "sandyford road & kill lane" "yford road").
  vm_compute. apply list_elem_of_further, list_elem_of_here.
Defined.

(* ------------------------------------------------------------------ *)
(** ** Variants of a street name                                       *)
(* ------------------------------------------------------------------ *)

Lemma stripped_pieces_spec (sep s v : string) :
  sep ≠ EmptyString → v ∈ TrendExtractor.stripped_pieces sep s →
  v ≠ EmptyString ∧ Py.Substring v s ∧ ¬ Py.Substring sep v.
Proof.
  intros Hsep [Hne (piece & -> & Hpiece)%list_elem_of_fmap]%list_elem_of_filter.
  split; [done|]. split.
  - eapply Substring_trans; [apply strip_substring | by eapply split_substring].
  - intros H. apply (split_no_separator sep s piece Hsep Hpiece).
    eapply Substring_trans; [exact H | apply strip_substring].
Qed.

(** Every variant searched for is a non-empty stretch of the street name;
    it never holds a '/', and it holds an '&' only when the name was
    split on '/'. *)
Theorem get_street_variants_stretches (s v : string) :
  v ∈ TrendExtractor.get_street_variants (Some s) →
  v ≠ EmptyString ∧ Py.Substring v s ∧ ¬ Py.Substring "/" v
  ∧ (Py.Substring "&" v → Py.Substring "/" s).
Proof.
  rewrite get_street_variants_str.
  destruct (Py.contains "/" s) eqn:Es.
  - intros (Hne & Hsub & Hfree)%stripped_pieces_spec; [|done].
    repeat split; try done. intros _. by apply contains_spec.
  - apply contains_false_spec in Es.
    destruct (Py.contains "&" s) eqn:Ea.
    + intros (Hne & Hsub & Hfree)%stripped_pieces_spec; [|done].
      repeat split; try done.
      intros H. apply Es. by eapply Substring_trans.
    + apply contains_false_spec in Ea.
      intros [Hne ->%list_elem_of_singleton]%list_elem_of_filter.
      pose proof (strip_substring s) as Hsub.
      repeat split; try done.
      * intros H. apply Es. by eapply Substring_trans.
      * intros H. exfalso. apply Ea. by eapply Substring_trans.
Qed.

Lemma get_street_variants_stretches_witness :
  "Mercer Street & Cuffe Street" ≠ EmptyString
  ∧ Py.Substring "Mercer Street & Cuffe Street" "Mercer Street & Cuffe Street / York Road"
  ∧ ¬ Py.Substring "/" "Mercer Street & Cuffe Street"
  ∧ (Py.Substring "&" "Mercer Street & Cuffe Street"
     → Py.Substring "/" "Mercer Street & Cuffe Street / York Road").
Proof.
  apply (get_street_variants_stretches "Mercer Street & Cuffe Street / York Road").
  vm_compute. apply list_elem_of_here.
Defined.

(* ------------------------------------------------------------------ *)
(** ** The street of a clicked popup                                   *)
(* ------------------------------------------------------------------ *)

Lemma startswith_length (p s : string) :
  Py.startswith p s = true → (String.length p ≤ String.length s)%nat.
Proof.
  revert s. induction p as [|a p IH]; intros [|b s]; simpl; try done; [lia|].
  intros [_ H]%andb_true_iff. apply IH in H. lia.
Qed.

Lemma contains_cons (needle : string) (c : ascii) (hay : string) :
  Py.contains needle (String c hay)
  = Py.startswith needle (String c hay) || Py.contains needle hay.
Proof. reflexivity. Qed.

(** [find] gives -1 exactly when there is no occurrence, and otherwise a
    position from which the needle still fits. *)
Lemma find_from_spec (needle hay : string) (i : Z) :
  0 ≤ i →
  if Py.contains needle hay
  then i ≤ Py.find_from needle hay i
       ∧ Py.find_from needle hay i + Py.len needle ≤ i + Py.len hay
  else Py.find_from needle hay i = -1.
Proof.
  revert i. induction hay as [|c hay IH]; intros i Hi.
  - simpl. rewrite orb_false_r. destruct (Py.startswith needle "") eqn:E; [|done].
    apply startswith_length in E. unfold Py.len. simpl in *. lia.
  - rewrite contains_cons. cbn [Py.find_from].
    destruct (Py.startswith needle (String c hay)) eqn:E; simpl.
    + apply startswith_length in E. unfold Py.len. lia.
    + specialize (IH (i + 1) ltac:(lia)).
      destruct (Py.contains needle hay); [|done].
      unfold Py.len in *. simpl String.length. lia.
Qed.

Lemma find_none (needle hay : string) :
  Py.find needle hay = -1 ↔ Py.contains needle hay = false.
Proof.
  pose proof (find_from_spec needle hay 0 ltac:(done)) as H. unfold Py.find.
  destruct (Py.contains needle hay); [|done]. split; [lia | done].
Qed.

Lemma find_bound (needle hay : string) :
  Py.contains needle hay = true → needle ≠ EmptyString →
  0 ≤ Py.find needle hay < Py.len hay.
Proof.
  intros Hc Hne. pose proof (find_from_spec needle hay 0 ltac:(done)) as H.
  rewrite Hc in H. unfold Py.find. destruct needle; [done|].
  unfold Py.len in *. simpl String.length in *. lia.
Qed.

Lemma direct_match_spec (text : string) (names : list (option string))
    (clicked : option string) :
  Click.direct_match text names = Py.Ok clicked →
  match clicked with
  | Some s => Some s ∈ names ∧ Py.startswith s text = true
  | None => ∀ s, Some s ∈ names → Py.startswith s text = false
  end.
Proof.
  induction names as [|[n|] names IH]; simpl.
  - intros [= <-]. by intros s ?%elem_of_nil.
  - destruct (Py.startswith n text) eqn:E.
    + intros [= <-]. split; [apply list_elem_of_here | done].
    + intros H. specialize (IH H). destruct clicked as [s|].
      * destruct IH. split; [by apply list_elem_of_further | done].
      * intros s [[= ->]|Hs]%elem_of_cons; [done | by apply IH].
  - done.
Qed.

(** What the second loop leaves: either nothing was found and the state
    is the initial one, or the name kept is the one found earliest. *)
Lemma earliest_match_spec (text : string) (names : list (option string))
    (init : option string) (limit : Z) (clicked : option string) (earliest : Z) :
  Py.for_each names
    (λ '(clicked_street, earliest_position) cell,
       match cell with
       | None => Py.Raise Py.TypeError
       | Some street_name =>
           let position := Py.find street_name text in
           if bool_decide (position ≠ -1) && (position <? earliest_position)
           then Py.Ok (Some street_name, position)
           else Py.Ok (clicked_street, earliest_position)
       end)
    (init, limit) = Py.Ok (clicked, earliest) →
  earliest ≤ limit
  ∧ (∀ s, Some s ∈ names → Py.find s text = -1 ∨ earliest ≤ Py.find s text)
  ∧ ((clicked = init ∧ earliest = limit)
     ∨ (∃ s, clicked = Some s ∧ Some s ∈ names ∧ Py.find s text = earliest
             ∧ earliest ≠ -1 ∧ earliest < limit)).
Proof.
  revert init limit. induction names as [|[n|] names IH]; intros init limit; simpl.
  - intros [= <- <-]. split; [lia|]. split; [|by left]. by intros s ?%elem_of_nil.
  - destruct (bool_decide (Py.find n text ≠ -1) && (Py.find n text <? limit)) eqn:E.
    + apply andb_true_iff in E as [E1%bool_decide_eq_true E2%Z.ltb_lt].
      intros H. destruct (IH _ _ H) as (Hle & Hmin & Hst).
      split; [lia|]. split.
      * intros s [[= ->]|Hs]%elem_of_cons; [right; lia | by apply Hmin].
      * right. destruct Hst as [[-> ->] | (s & -> & Hs & Hf & Hne & Hlt)].
        -- exists n. split; [done|]. split; [apply list_elem_of_here|]. done.
        -- exists s. split; [done|]. split; [by apply list_elem_of_further|].
           repeat split; try done. lia.
    + intros H. destruct (IH _ _ H) as (Hle & Hmin & Hst).
      split; [done|]. split.
      * intros s [[= ->]|Hs]%elem_of_cons; [|by apply Hmin].
        apply andb_false_iff in E as [E%bool_decide_eq_false | E%Z.ltb_ge].
        -- left. by destruct (decide (Py.find n text = -1)).
        -- right. lia.
      * destruct Hst as [? | (s & -> & Hs & Hf & Hne & Hlt)]; [by left|].
        right. exists s. split; [done|]. split; [by apply list_elem_of_further | done].
  - done.
Qed.

Lemma falsy_spec (clicked : option string) :
  Click.falsy clicked = true ↔ clicked = None ∨ clicked = Some EmptyString.
Proof.
  destruct clicked as [[|c s]|]; simpl; split; intros H; auto; try done;
    by destruct H.
Qed.

(** What both tabs' detection returns, when it returns a street. *)
Lemma clicked_street_sound (prefix_text search_text : string)
    (names : list (option string)) (s : string) :
  Click.clicked_street prefix_text search_text names = Py.Ok (Some s) →
  Some s ∈ names
  ∧ (Py.startswith s prefix_text = true ∨ Py.contains s search_text = true).
Proof.
  unfold Click.clicked_street.
  destruct (Click.direct_match prefix_text names) as [clicked|] eqn:Ed; [|done].
  apply direct_match_spec in Ed. simpl.
  destruct (Click.falsy clicked) eqn:Ef.
  - unfold Click.earliest_match.
    destruct (Py.for_each names _ _) as [[found earliest]|] eqn:Ee; [|done].
    apply earliest_match_spec in Ee as (_ & _ & [[-> _] | (s' & -> & Hs & Hf & Hne & _)]).
    + simpl. intros [= ->]. destruct Ed. auto.
    + simpl. intros [= ->]. split; [done|]. right.
      destruct (Py.contains s search_text) eqn:Ec; [done|].
      apply find_none in Ec. congruence.
  - intros [= ->]. destruct Ed. auto.
Qed.

(** When some listed name occurs in the searched text, a street is
    returned, unless a missing name stops the loops. *)
Lemma clicked_street_complete (prefix_text search_text : string)
    (names : list (option string)) (name : string) (r : option string) :
  Click.clicked_street prefix_text search_text names = Py.Ok r →
  Some name ∈ names → name ≠ EmptyString →
  Py.contains name search_text = true →
  ∃ s, r = Some s.
Proof.
  unfold Click.clicked_street.
  destruct (Click.direct_match prefix_text names) as [clicked|] eqn:Ed; [|done].
  simpl. destruct (Click.falsy clicked) eqn:Ef.
  - unfold Click.earliest_match.
    destruct (Py.for_each names _ _) as [[found earliest]|] eqn:Ee; [|done].
    apply earliest_match_spec in Ee as (_ & Hmin & Hst).
    simpl. intros [= <-] Hin Hne Hc.
    destruct Hst as [[-> ->] | (s & -> & _)]; [|by exists s].
    destruct (Hmin name Hin) as [H | H].
    + apply find_none in H. congruence.
    + pose proof (find_bound name search_text Hc Hne). lia.
  - intros [= <-] _ _ _. destruct clicked; [by eexists | done].
Qed.

(** When no listed name starts the text, the street returned is the one
    that occurs earliest in the searched text. *)
Lemma clicked_street_earliest (prefix_text search_text : string)
    (names : list (option string)) (s name : string) :
  Click.clicked_street prefix_text search_text names = Py.Ok (Some s) →
  (∀ n, Some n ∈ names → Py.startswith n prefix_text = false) →
  Some name ∈ names → Py.contains name search_text = true →
  0 ≤ Py.find s search_text ≤ Py.find name search_text.
Proof.
  unfold Click.clicked_street. intros Hrun Hdirect Hin Hc.
  destruct (Click.direct_match prefix_text names) as [clicked|] eqn:Ed; [|done].
  apply direct_match_spec in Ed. simpl in Hrun.
  destruct clicked as [c|].
  { destruct Ed as [Hc1 Hc2]. rewrite (Hdirect c Hc1) in Hc2. done. }
  simpl in Hrun. unfold Click.earliest_match in Hrun.
  destruct (Py.for_each names _ _) as [[found earliest]|] eqn:Ee; [|done].
  apply earliest_match_spec in Ee as (_ & Hmin & Hst).
  simpl in Hrun. injection Hrun as ->.
  destruct Hst as [[[=] _] | (s' & [= <-] & Hs & Hf & Hne & _)].
  destruct (Hmin name Hin) as [H | H].
  - apply find_none in H. congruence.
  - assert (Py.contains s search_text = true) as Hcs.
    { destruct (Py.contains s search_text) eqn:E; [done|].
      apply find_none in E. congruence. }
    pose proof (find_from_spec s search_text 0 ltac:(done)) as Hb.
    rewrite Hcs in Hb. unfold Py.find in *. lia.
Qed.

Lemma direct_match_strings (text : string) (names : list string) :
  ∃ clicked, Click.direct_match text (Some <$> names) = Py.Ok clicked.
Proof.
  induction names as [|n names [c IH]]; simpl; [by eexists|].
  destruct (Py.startswith n text); [by eexists | by exists c].
Qed.

Lemma earliest_match_strings (text : string) (names : list string)
    (clicked : option string) :
  ∃ found, Click.earliest_match text (Some <$> names) clicked = Py.Ok found.
Proof.
  unfold Click.earliest_match. generalize (clicked, Py.len text).
  induction names as [|n names IH]; intros [c e]; simpl; [by eexists|].
  destruct (bool_decide _ && _); simpl; apply IH.
Qed.

(** With no missing name in the list, the detection returns. *)
Lemma clicked_street_strings (prefix_text search_text : string)
    (names : list string) :
  ∃ r, Click.clicked_street prefix_text search_text (Some <$> names) = Py.Ok r.
Proof.
  unfold Click.clicked_street.
  destruct (direct_match_strings prefix_text names) as [c ->].
  destruct (earliest_match_strings search_text names c) as [found Hf].
  simpl. destruct (Click.falsy c); [|by eexists].
  rewrite Hf. by eexists.
Qed.

Lemma elem_of_dropna_unique (street_column : list (option string)) (s : string) :
  Some s ∈ (Some <$> Py.unique (omap id street_column)) ↔ Some s ∈ street_column.
Proof.
  rewrite list_elem_of_fmap. split.
  - intros (n & [= ->] & Hn%unique_elem_of%list_elem_of_omap).
    destruct Hn as (c & Hc & Hid). simpl in Hid. by subst c.
  - intros H. exists s. split; [done|]. apply unique_elem_of, list_elem_of_omap.
    by exists (Some s).
Qed.

(** Tab 2: the click detection always returns; a street it returns is a
    street name of the frame that occurs in the (stripped) popup text;
    and whenever some non-empty street name of the frame occurs in that
    text, a street is returned. *)
Theorem tab2_clicked_street_found (popup : string)
    (street_column : list (option string)) :
  ∃ r, Tab2.clicked_street popup street_column = Py.Ok r
    ∧ (∀ s, r = Some s →
         Some s ∈ street_column ∧ Py.Substring s (Py.strip popup))
    ∧ (∀ name, Some name ∈ street_column → name ≠ EmptyString →
         Py.Substring name (Py.strip popup) → ∃ s, r = Some s).
Proof.
  unfold Tab2.clicked_street. cbv zeta.
  set (text := Py.strip popup). set (names := Some <$> _).
  destruct (clicked_street_strings text text (Py.unique (omap id street_column)))
    as [r Hr]. fold names in Hr.
  exists r. split; [done|]. split.
  - intros s ->. apply clicked_street_sound in Hr as [Hin Hocc].
    split; [by apply elem_of_dropna_unique|].
    destruct Hocc as [Hp | Hc]; [|by apply contains_spec].
    apply startswith_spec in Hp as [suf Hp]. exists EmptyString, suf.
    by rewrite append_empty_l.
  - intros name Hin Hne Hsub.
    eapply (clicked_street_complete _ _ _ name); [exact Hr | | done |].
    + by apply elem_of_dropna_unique.
    + by apply contains_spec.
Qed.

(** Tab 3: a street the detection returns is a street name of the frame
    that occurs in the popup text; and when no street name starts the
    stripped text, it is the one occurring earliest. *)
Theorem tab3_clicked_street_earliest (popup_content : string)
    (street_column : list (option string)) (s : string) :
  Tab3.clicked_street popup_content street_column = Py.Ok (Some s) →
  Some s ∈ street_column
  ∧ Py.Substring s popup_content
  ∧ ((∀ n, Some n ∈ street_column → Py.startswith n (Py.strip popup_content) = false) →
     ∀ name, Some name ∈ street_column → Py.Substring name popup_content →
       0 ≤ Py.find s popup_content ≤ Py.find name popup_content).
Proof.
  unfold Tab3.clicked_street. intros Hrun.
  pose proof (clicked_street_sound _ _ _ _ Hrun) as [Hin Hocc].
  split; [done|]. split.
  - destruct Hocc as [Hp | Hc]; [|by apply contains_spec].
    apply startswith_spec in Hp as [suf Hp].
    eapply Substring_trans; [|apply strip_substring].
    exists EmptyString, suf. by rewrite append_empty_l.
  - intros Hdirect name Hname Hsub.
    eapply clicked_street_earliest; [exact Hrun | done | done |].
    by apply contains_spec.
Qed.

(** Tab 3: a missing street name stops the detection with a TypeError
    unless a name listed before it starts the popup text. *)
Theorem tab3_clicked_street_missing_name (popup_content : string)
    (before after : list (option string)) :
  (∀ n, Some n ∈ before → Py.startswith n (Py.strip popup_content) = false) →
  Forall is_Some before →
  Tab3.clicked_street popup_content (before ++ None :: after) = Py.Raise Py.TypeError.
Proof.
  intros Hdirect Hsome. unfold Tab3.clicked_street, Click.clicked_street.
  assert (Click.direct_match (Py.strip popup_content) (before ++ None :: after)
          = Py.Raise Py.TypeError) as ->; [|done].
  induction before as [|[n|] before IH]; simpl; [done| |].
  - rewrite Hdirect by apply list_elem_of_here. apply IH.
    + intros m Hm. apply Hdirect. by apply list_elem_of_further.
    + by apply Forall_cons in Hsome as [_ ?].
  - apply Forall_cons in Hsome as [[? [=]] _].
Qed.

Lemma tab3_clicked_street_earliest_witness :
  Some "Nutley Lane" ∈ [Some "Kill Lane"; Some "Nutley Lane"]
  ∧ Py.Substring "Nutley Lane" "  Route: Nutley Lane, near Kill Lane"
  ∧ ((∀ n, Some n ∈ [Some "Kill Lane"; Some "Nutley Lane"] →
        Py.startswith n (Py.strip "  Route: Nutley Lane, near Kill Lane") = false) →
     ∀ name, Some name ∈ [Some "Kill Lane"; Some "Nutley Lane"] →
       Py.Substring name "  Route: Nutley Lane, near Kill Lane" →
       0 ≤ Py.find "Nutley Lane" "  Route: Nutley Lane, near Kill Lane"
         ≤ Py.find name "  Route: Nutley Lane, near Kill Lane").
Proof.
  apply (tab3_clicked_street_earliest "  Route: Nutley Lane, near Kill Lane"
           [Some "Kill Lane"; Some "Nutley Lane"] "Nutley Lane").
  vm_compute. reflexivity.
Defined.

Lemma tab3_clicked_street_missing_name_witness :
  Tab3.clicked_street "Nutley Lane" ([Some "Kill Lane"] ++ None :: [Some "Nutley Lane"])
  = Py.Raise Py.TypeError.
Proof.
  apply (tab3_clicked_street_missing_name "Nutley Lane" [Some "Kill Lane"]
           [Some "Nutley Lane"]).
  - intros n ->%list_elem_of_singleton%(inj Some). vm_compute. reflexivity.
  - repeat constructor. by eexists.
Defined.

(** The first loop returns the first listed name that starts the text. *)
Lemma direct_match_first (text : string) (before after : list (option string))
    (a : string) :
  Forall is_Some before → Some a ∈ before → Py.startswith a text = true →
  ∃ s, Click.direct_match text (before ++ after) = Py.Ok (Some s)
       ∧ Some s ∈ before ∧ Py.startswith s text = true.
Proof.
  intros Hsome Hin Ha. induction before as [|[n|] before IH]; simpl.
  - by apply elem_of_nil in Hin.
  - destruct (Py.startswith n text) eqn:En.
    + exists n. split; [done|]. split; [apply list_elem_of_here | done].
    + apply Forall_cons in Hsome as [_ Hsome].
      apply elem_of_cons in Hin as [[= ->]|Hin]; [congruence|].
      destruct (IH Hsome Hin) as (s & Hs & Hsin & Hst).
      exists s. split; [done|]. split; [by apply list_elem_of_further | done].
  - apply Forall_cons in Hsome as [[? [=]] _].
Qed.

(** Tab 3: a street name that starts the stripped popup text hides every
    street listed after it.  The detection returns a name listed no later
    than it that starts the text; a street whose name continues the name
    of a street listed before it is therefore never returned for a popup
    that starts with its own name. *)
Theorem tab3_clicked_street_shadowed (popup_content : string)
    (before after : list (option string)) (a : string) :
  Forall is_Some before → Some EmptyString ∉ before →
  Some a ∈ before → Py.startswith a (Py.strip popup_content) = true →
  ∃ s, Tab3.clicked_street popup_content (before ++ after) = Py.Ok (Some s)
       ∧ Some s ∈ before
       ∧ Py.startswith s (Py.strip popup_content) = true.
Proof.
  intros Hsome Hne Hin Ha. unfold Tab3.clicked_street, Click.clicked_street.
  destruct (direct_match_first (Py.strip popup_content) before after a Hsome Hin Ha)
    as (s & -> & Hs & Hst).
  exists s. cbn [mbind result_bind Py.bind].
  assert (Click.falsy (Some s) = false) as ->; [|done].
  destruct s; [done | reflexivity].
Qed.

Lemma tab3_clicked_street_shadowed_witness :
  ∃ s, Tab3.clicked_street "Kill Lane Upper: Highly Popular"
         ([Some "Nutley Lane"; Some "Kill Lane"] ++ [Some "Kill Lane Upper"])
       = Py.Ok (Some s)
       ∧ Some s ∈ [Some "Nutley Lane"; Some "Kill Lane"]
       ∧ Py.startswith s (Py.strip "Kill Lane Upper: Highly Popular") = true.
Proof.
  apply (tab3_clicked_street_shadowed "Kill Lane Upper: Highly Popular"
           [Some "Nutley Lane"; Some "Kill Lane"] [Some "Kill Lane Upper"] "Kill Lane").
  - repeat constructor; by eexists.
  - intros [[=]|[[=]|[]%elem_of_nil]%elem_of_cons]%elem_of_cons.
  - apply list_elem_of_further, list_elem_of_here.
  - reflexivity.
Defined.
(* ------------------------------------------------------------------ *)
(** ** The two name splitters of the trend scripts                     *)
(* ------------------------------------------------------------------ *)

Lemma contains_char_cons (c a : ascii) (s : string) :
  Py.contains (String c EmptyString) (String a s)
  = bool_decide (c = a) || Py.contains (String c EmptyString) s.
Proof. cbn [Py.contains Py.startswith]. by rewrite andb_true_r. Qed.

Lemma contains_char_empty (c : ascii) :
  Py.contains (String c EmptyString) EmptyString = false.
Proof. reflexivity. Qed.

(** Stripping removes whitespace only. *)
Lemma lstrip_keeps_char (c : ascii) (s : string) :
  Py.is_space c = false →
  Py.contains (String c EmptyString) (Py.lstrip s) = Py.contains (String c EmptyString) s.
Proof.
  intros Hc. induction s as [|a s IH]; [done|].
  cbn [Py.lstrip]. destruct (Py.is_space a) eqn:Ea; [|done].
  rewrite IH, contains_char_cons. case_bool_decide; [congruence | done].
Qed.

Lemma rstrip_keeps_char (c : ascii) (s : string) :
  Py.is_space c = false →
  Py.contains (String c EmptyString) (Py.rstrip s) = Py.contains (String c EmptyString) s.
Proof.
  intros Hc. induction s as [|a s IH]; [done|].
  cbn [Py.rstrip]. rewrite contains_char_cons, <- IH.
  destruct (Py.rstrip s) as [|b r].
  - destruct (Py.is_space a) eqn:Ea.
    + rewrite contains_char_empty. case_bool_decide; [congruence | done].
    + by rewrite contains_char_cons.
  - by rewrite (contains_char_cons c a).
Qed.

Lemma strip_keeps_char (c : ascii) (s : string) :
  Py.is_space c = false →
  Py.contains (String c EmptyString) (Py.strip s) = Py.contains (String c EmptyString) s.
Proof.
  intros Hc. unfold Py.strip. by rewrite rstrip_keeps_char, lstrip_keeps_char.
Qed.

Lemma dict_get_Some {V} (key : string) (d : list (string * V)) (v : V) :
  Py.dict_get key d = Some v → (key, v) ∈ d.
Proof.
  induction d as [|[k w] d IH]; simpl; [done|].
  case_bool_decide as E.
  - intros [= ->]. subst k. apply list_elem_of_here.
  - intros H. by apply list_elem_of_further, IH.
Qed.

Lemma dict_get_None {V} (key : string) (d : list (string * V)) :
  Py.dict_get key d = None → key ∉ d.*1.
Proof.
  induction d as [|[k w] d IH]; simpl; [by intros _ ?%elem_of_nil|].
  case_bool_decide as E; [done|].
  intros H [?|?]%elem_of_cons; [done | by apply IH].
Qed.

(** The metadata script and the day-of-week script split a street name
    into the same search names exactly in two cases: the name is a key of
    the manual mapping, or it holds neither '/' nor '&' and is not
    blank. *)
Theorem split_street_name_agrees (name : string) :
  TrendMetadata.split_street_name (Some name)
  = Py.Ok (TrendExtractor.get_street_variants (Some name))
  ↔ name ∈ TrendMetadata.STREET_MAPPING.*1
    ∨ (¬ Py.Substring "/" name ∧ ¬ Py.Substring "&" name
       ∧ Py.strip name ≠ EmptyString).
Proof.
  assert (name ∈ TrendMetadata.STREET_MAPPING.*1 →
          TrendMetadata.split_street_name (Some name)
          = Py.Ok (TrendExtractor.get_street_variants (Some name))) as Hkeys.
  { unfold TrendMetadata.STREET_MAPPING. cbn [fmap list_fmap fst].
    rewrite !elem_of_cons, elem_of_nil.
    intros [->|[->|[->|[->|[->|[->|[->|[]]]]]]]]; reflexivity. }
  split.
  - intros H. destruct (decide (name ∈ TrendMetadata.STREET_MAPPING.*1)) as [Hk|Hk];
      [by left | right].
    rewrite get_street_variants_str in H.
    unfold TrendMetadata.split_street_name in H.
    destruct (Py.dict_get name TrendMetadata.STREET_MAPPING) as [streets|] eqn:Eg.
    { exfalso. apply Hk. apply dict_get_Some in Eg.
      apply list_elem_of_fmap. by exists (name, streets). }
    injection H as H.
    assert (Py.strip name ∈ [Py.strip name]) as Hin by apply list_elem_of_here.
    rewrite H in Hin. clear H.
    destruct (Py.contains "/" name) eqn:Es.
    { exfalso. apply stripped_pieces_spec in Hin as (_ & _ & Hfree); [|done].
      apply Hfree, contains_spec. by rewrite strip_keeps_char. }
    destruct (Py.contains "&" name) eqn:Ea.
    { exfalso. apply stripped_pieces_spec in Hin as (_ & _ & Hfree); [|done].
      apply Hfree, contains_spec. by rewrite strip_keeps_char. }
    apply list_elem_of_filter in Hin as [Hne _].
    split; [by apply contains_false_spec|]. split; [by apply contains_false_spec | done].
  - intros [Hk | (Hs & Ha & Hne)]; [by apply Hkeys|].
    destruct (decide (name ∈ TrendMetadata.STREET_MAPPING.*1)) as [Hk|Hk];
      [by apply Hkeys|].
    unfold TrendMetadata.split_street_name.
    destruct (Py.dict_get name TrendMetadata.STREET_MAPPING) as [streets|] eqn:Eg.
    { exfalso. apply Hk. apply dict_get_Some in Eg.
      apply list_elem_of_fmap. by exists (name, streets). }
    rewrite get_street_variants_str.
    apply contains_false_spec in Hs, Ha. rewrite Hs, Ha.
    rewrite filter_cons, decide_True by done. reflexivity.
Qed.
(* ------------------------------------------------------------------ *)
(** ** Streets without data ([TrendExtractor.streets_not_found])       *)
(* ------------------------------------------------------------------ *)

Section streets_not_found.
Import DailyData.
Context {U : Py.CaseMapping}.

(** [found_variants]: the variants that select at least one row, in the
    order searched. *)
Lemma collect_variants_found (df : list daily_row) (variants : list string) :
  (TrendExtractor.collect_variants df variants).2
  = filter (λ v, TrendExtractor.variant_data df v ≠ []) variants.
Proof.
  unfold TrendExtractor.collect_variants.
  enough (∀ acc,
    (foldl (λ '(combined_data, found_variants) variant,
              let vd := TrendExtractor.variant_data df variant in
              if (0 <? length vd)%nat
              then (combined_data ++ vd, found_variants ++ [variant])
              else (combined_data, found_variants)) acc variants).2
    = acc.2 ++ filter (λ v, TrendExtractor.variant_data df v ≠ []) variants) as H.
  { by rewrite H. }
  induction variants as [|v vs IH]; intros [c f]; simpl; [by rewrite app_nil_r|].
  rewrite IH, filter_cons.
  destruct (TrendExtractor.variant_data df v) as [|r vd]; simpl; [done|].
  by rewrite <- app_assoc.
Qed.

Lemma unique_nil {A} `{EqDecision A} (l : list A) : Py.unique l = [] ↔ l = [].
Proof. by destruct l. Qed.

Lemma mjoin_nil {A} (ls : list (list A)) : mjoin ls = [] ↔ ∀ l, l ∈ ls → l = [].
Proof.
  induction ls as [|l ls IH]; simpl.
  - split; [by intros _ ? ?%elem_of_nil | done].
  - rewrite app_nil, IH. split.
    + intros [-> H] k [->|Hk]%elem_of_cons; [done | by apply H].
    + intros H. split; [apply H, list_elem_of_here|].
      intros k Hk. by apply H, list_elem_of_further.
Qed.

Lemma variant_data_nil (df : list daily_row) (v : string) :
  TrendExtractor.variant_data df v = []
  ↔ ∀ r, r ∈ df → TrendExtractor.contains_nocase v (road_name r) = false.
Proof.
  unfold TrendExtractor.variant_data. split.
  - intros H r Hr.
    destruct (TrendExtractor.contains_nocase v (road_name r)) eqn:E; [|done].
    assert (r ∈ filter (λ r, TrendExtractor.contains_nocase v (road_name r)) df) as Hin.
    { apply list_elem_of_filter. split; [by apply Is_true_true | done]. }
    rewrite H in Hin. by apply elem_of_nil in Hin.
  - intros H. apply elem_of_nil_inv. intros r [Hm Hr]%list_elem_of_filter.
    rewrite (H r Hr) in Hm. done.
Qed.

(** Nothing is gathered exactly when no variant selects a row. *)
Lemma combined_data_nil (df : list daily_row) (variants : list string) :
  TrendExtractor.combined_data df variants = []
  ↔ ∀ v, v ∈ variants → TrendExtractor.variant_data df v = [].
Proof.
  rewrite combined_data_unique, unique_nil, mjoin_nil. split.
  - intros H v Hv. apply H. by apply list_elem_of_fmap_2.
  - intros H l (v & -> & Hv)%list_elem_of_fmap. by apply H.
Qed.

Lemma streets_not_found_filter (df : list daily_row)
    (street_column : list (option string)) :
  TrendExtractor.streets_not_found df street_column
  = filter (λ street,
              TrendExtractor.combined_data df (TrendExtractor.get_street_variants street) = [])
           (Py.unique street_column).
Proof.
  unfold TrendExtractor.streets_not_found. cbv zeta.
  generalize (Py.unique street_column). intros streets.
  enough (∀ acc,
    foldl (λ streets_not_found street,
             if (length (TrendExtractor.combined_data df
                           (TrendExtractor.get_street_variants street)) =? 0)%nat
             then streets_not_found ++ [street] else streets_not_found) acc streets
    = acc ++ filter (λ street,
                       TrendExtractor.combined_data df
                         (TrendExtractor.get_street_variants street) = []) streets) as H.
  { by rewrite H. }
  induction streets as [|x xs IH]; intros acc; simpl; [by rewrite app_nil_r|].
  rewrite IH, filter_cons.
  destruct (TrendExtractor.combined_data df _) as [|r rows]; simpl; [|done].
  by rewrite <- app_assoc.
Qed.

Lemma elem_of_streets_not_found (df : list daily_row)
    (street_column : list (option string)) (street : option string) :
  street ∈ TrendExtractor.streets_not_found df street_column
  ↔ street ∈ street_column
    ∧ TrendExtractor.combined_data df (TrendExtractor.get_street_variants street) = [].
Proof.
  rewrite streets_not_found_filter, list_elem_of_filter, unique_elem_of. tauto.
Qed.

Lemma filter_nil_iff {A} (P : A → Prop) `{∀ x, Decision (P x)} (l : list A) :
  filter P l = [] ↔ ∀ x, x ∈ l → ¬ P x.
Proof.
  split.
  - intros E x Hx HP. assert (x ∈ filter P l) as Hin by by apply list_elem_of_filter.
    rewrite E in Hin. by apply elem_of_nil in Hin.
  - intros Hn. apply elem_of_nil_inv. intros x [HP Hx]%list_elem_of_filter.
    by apply (Hn x).
Qed.

(** A street is reported as having no data exactly when it is one of the
    target streets and the entry written for it lists no variant as
    found; this is the case exactly when no row of the daily data has a
    road name that holds, both put in upper case as [case=False] does,
    any of its variants. *)
Theorem streets_not_found_no_variant (cyclists_column : bool) (df : list daily_row)
    (street_column : list (option string)) (street : option string) :
  (street ∈ TrendExtractor.streets_not_found df street_column
   ↔ street ∈ street_column
     ∧ TrendExtractor.variants_found
         (TrendExtractor.street_entry cyclists_column df street) = [])
  ∧ (TrendExtractor.variants_found
       (TrendExtractor.street_entry cyclists_column df street) = []
     ↔ ∀ r v, r ∈ df → v ∈ TrendExtractor.get_street_variants street →
         TrendExtractor.contains_nocase v (road_name r) = false).
Proof.
  assert (TrendExtractor.variants_found
            (TrendExtractor.street_entry cyclists_column df street) = []
          ↔ TrendExtractor.combined_data df (TrendExtractor.get_street_variants street) = [])
    as Hfound.
  { unfold TrendExtractor.street_entry. cbv zeta. cbn [TrendExtractor.variants_found].
    rewrite collect_variants_found, combined_data_nil, filter_nil_iff.
    split; intros H v Hv.
    - destruct (decide (TrendExtractor.variant_data df v = [])) as [?|Hne]; [done|].
      by destruct (H v Hv).
    - intros Hne. by apply Hne, H. }
  split.
  - rewrite elem_of_streets_not_found. by rewrite Hfound.
  - rewrite Hfound, combined_data_nil. split.
    + intros H r v Hr Hv. exact (proj1 (variant_data_nil df v) (H v Hv) r Hr).
    + intros H v Hv. apply variant_data_nil. intros r Hr. by apply H.
Qed.

(** The entry written for a street reported as having no data: all seven
    day totals and the total are 0. *)
Theorem streets_not_found_zero_entry (cyclists_column : bool) (df : list daily_row)
    (street_column : list (option string)) (street : option string) :
  street ∈ TrendExtractor.streets_not_found df street_column →
  ∃ entry,
    TrendExtractor.simple_day_data cyclists_column df street_column !! street = Some entry
    ∧ TrendExtractor.total_cyclists entry = 0
    ∧ ∀ day, day ∈ days_order → TrendExtractor.day_totals entry !! day = Some 0.
Proof.
  intros [Hin Hnil]%elem_of_streets_not_found.
  exists (TrendExtractor.street_entry cyclists_column df street).
  split; [by apply simple_day_data_lookup|].
  unfold TrendExtractor.street_entry. cbv zeta.
  cbn [TrendExtractor.total_cyclists TrendExtractor.day_totals]. rewrite Hnil.
  split.
  - rewrite (sum_values_filled id (λ day, TrendExtractor.day_total cyclists_column [] day));
      [| rewrite list_fmap_id; apply days_order_NoDup | intros; apply lookup_empty].
    rewrite (sum_over_ext _ (λ _, 0)); [|done].
    rewrite sum_over_zero. reflexivity.
  - intros day Hday.
    rewrite (lookup_filled (λ day, TrendExtractor.day_total cyclists_column [] day)).
    by rewrite decide_True by done.
Qed.

End streets_not_found.

Section not_found_examples.
Import DailyData.

Lemma streets_not_found_zero_entry_witness :
  ∃ entry,
    TrendExtractor.simple_day_data (U := Py.ascii_case) true
      [ {| road_name := Some "West Pier"; date := Some 4; daily_popularity := S754_zero false;
           daily_cyclists := 12; daily_rides := 3; daily_points := 40;
           daily_speed := S754_zero false |} ]
      [Some "West Pier"; Some "Nutley Lane"] !! Some "Nutley Lane" = Some entry
    ∧ TrendExtractor.total_cyclists entry = 0
    ∧ ∀ day, day ∈ days_order → TrendExtractor.day_totals entry !! day = Some 0.
Proof.
  apply (streets_not_found_zero_entry (U := Py.ascii_case) true).
  vm_compute. apply list_elem_of_here.
Defined.

End not_found_examples.
(* ------------------------------------------------------------------ *)
(** ** Peaks of the weekly trend ([Tab3.peak_indices])                 *)
(* ------------------------------------------------------------------ *)

Lemma SFcompare_swap (x y : spec_float) (c : comparison) :
  SFcompare x y = Some c → SFcompare y x = Some (CompOpp c).
Proof.
  destruct x as [sx|sx| |sx mx ex], y as [sy|sy| |sy my ey]; simpl;
    try done; intros [= <-]; try (by destruct sx); try (by destruct sy);
    try (by destruct sx, sy).
  destruct sx, sy; try done.
  - rewrite (Z.compare_antisym ex ey).
    destruct (ex ?= ey); simpl; try done.
    do 2 f_equal. symmetry. apply (Pos.compare_cont_antisym mx my Eq).
  - rewrite (Z.compare_antisym ex ey).
    destruct (ex ?= ey); simpl; try done.
    f_equal. symmetry. apply (Pos.compare_cont_antisym mx my Eq).
Qed.

(** [>] on floats is asymmetric, and false on NaN. *)
Lemma gt_asym (x y : spec_float) : Tab3.gt x y = true → Tab3.gt y x = false.
Proof.
  unfold Tab3.gt, SFltb. destruct (SFcompare y x) as [[]|] eqn:E; try done.
  intros _. by rewrite (SFcompare_swap _ _ _ E).
Qed.

Lemma gt_nan_l (y : spec_float) : Tab3.gt S754_nan y = false.
Proof. by destruct y. Qed.

Lemma gt_nan_r (x : spec_float) : Tab3.gt x S754_nan = false.
Proof. by destruct x. Qed.

Lemma foldl_append_filter {A} (P : A → bool) (xs acc : list A) :
  foldl (λ acc x, if P x then acc ++ [x] else acc) acc xs
  = acc ++ filter (λ x, P x) xs.
Proof.
  revert acc. induction xs as [|x xs IH]; intros acc; simpl; [by rewrite app_nil_r|].
  rewrite IH, filter_cons. destruct (P x); simpl; [|done].
  by rewrite <- app_assoc.
Qed.

(** The loop keeps the indices at which the value exceeds both
    neighbours. *)
Lemma peak_indices_filter (v : list spec_float) :
  Tab3.peak_indices v
  = filter (λ i, Tab3.gt (Tab3.value_at v i) (Tab3.value_at v (i - 1))
                 && Tab3.gt (Tab3.value_at v i) (Tab3.value_at v (i + 1)))
           (seq 1 (length v - 2)).
Proof.
  unfold Tab3.peak_indices.
  by rewrite (foldl_append_filter
                (λ i, Tab3.gt (Tab3.value_at v i) (Tab3.value_at v (i - 1))
                      && Tab3.gt (Tab3.value_at v i) (Tab3.value_at v (i + 1)))).
Qed.

Lemma elem_of_peak_indices (v : list spec_float) (i : nat) :
  i ∈ Tab3.peak_indices v
  ↔ (1 ≤ i ∧ i + 1 < length v)%nat
    ∧ Tab3.gt (Tab3.value_at v i) (Tab3.value_at v (i - 1)) = true
    ∧ Tab3.gt (Tab3.value_at v i) (Tab3.value_at v (i + 1)) = true.
Proof.
  rewrite peak_indices_filter, list_elem_of_filter, elem_of_seq.
  rewrite andb_True, !Is_true_true. split.
  - intros [[? ?] [? ?]]. repeat split; try done; lia.
  - intros [[? ?] [? ?]]. repeat split; try done; lia.
Qed.

(** Among consecutive indices of which no two neighbours both pass, at
    most every other one passes. *)
Lemma filter_separated_length (P : nat → Prop) `{∀ i, Decision (P i)} (m a : nat) :
  (∀ i, P i → ¬ P (S i)) →
  (2 * length (filter P (seq a m)) ≤ m + 1)%nat.
Proof.
  intros Hsep. revert a. induction (lt_wf m) as [m _ IH]. intros a.
  destruct m as [|m]; [simpl; lia|].
  cbn [seq]. rewrite filter_cons. destruct (decide (P a)) as [Ha|Ha].
  - destruct m as [|m]; [simpl; lia|].
    cbn [seq]. rewrite filter_cons_False by by apply Hsep.
    cbn [length]. specialize (IH m ltac:(lia) (S (S a))). lia.
  - specialize (IH m ltac:(lia) (S a)). lia.
Qed.

Lemma filter_StronglySorted {A} (R : A → A → Prop) (P : A → Prop)
    `{∀ x, Decision (P x)} (l : list A) :
  StronglySorted R l → StronglySorted R (filter P l).
Proof.
  induction 1 as [|x l Hl IH Hx]; [constructor|].
  rewrite filter_cons. case_decide; [|done].
  constructor; [done|]. rewrite Forall_forall in Hx. apply Forall_forall.
  intros y [_ Hy]%list_elem_of_filter. by apply Hx.
Qed.

Lemma seq_StronglySorted (a m : nat) : StronglySorted lt (seq a m).
Proof.
  revert a. induction m as [|m IH]; intros a; [constructor|].
  cbn [seq]. constructor; [apply IH|].
  apply Forall_forall. intros j Hj%elem_of_seq. lia.
Qed.

(** Every peak marked on the trend chart is an interior week whose
    smoothed score exceeds both neighbours; the week after a peak is
    never a peak; the peaks are listed in increasing order, and there are
    at most (n - 1) / 2 of them among n weeks. *)
Theorem peak_indices_separated (rolling_values : list spec_float) :
  (∀ i, i ∈ Tab3.peak_indices rolling_values →
     (1 ≤ i ∧ i + 1 < length rolling_values)%nat
     ∧ Tab3.gt (Tab3.value_at rolling_values i) (Tab3.value_at rolling_values (i - 1)) = true
     ∧ Tab3.gt (Tab3.value_at rolling_values i) (Tab3.value_at rolling_values (i + 1)) = true
     ∧ (S i ∉ Tab3.peak_indices rolling_values))
  ∧ StronglySorted lt (Tab3.peak_indices rolling_values)
  ∧ (2 * length (Tab3.peak_indices rolling_values) ≤ length rolling_values - 1)%nat.
Proof.
  split; [|split].
  - intros i (Hi & Hl & Hr)%elem_of_peak_indices. repeat split; try done; try lia.
    intros (_ & Hl' & _)%elem_of_peak_indices.
    replace (S i - 1)%nat with i in Hl' by lia.
    replace (i + 1)%nat with (S i) in Hr by lia.
    apply gt_asym in Hr. congruence.
  - rewrite peak_indices_filter. apply filter_StronglySorted, seq_StronglySorted.
  - rewrite peak_indices_filter.
    destruct (decide (length rolling_values < 2)%nat) as [Hn|Hn].
    { replace (length rolling_values - 2)%nat with 0%nat by lia. simpl. lia. }
    etrans; [apply filter_separated_length|lia].
    intros i [Hl Hr]%andb_True [Hl' Hr']%andb_True.
    apply Is_true_true in Hr, Hl'.
    replace (S i - 1)%nat with i in Hl' by lia.
    replace (i + 1)%nat with (S i) in Hr by lia.
    apply gt_asym in Hr. congruence.
Qed.

(** A week without a score (NaN) is no peak, and neither is the week
    before it or the week after it. *)
Theorem peak_indices_skip_nan (rolling_values : list spec_float) (j : nat) :
  (j < length rolling_values)%nat →
  Tab3.value_at rolling_values j = S754_nan →
  (j ∉ Tab3.peak_indices rolling_values)
  ∧ (S j ∉ Tab3.peak_indices rolling_values)
  ∧ ∀ i, S i = j → i ∉ Tab3.peak_indices rolling_values.
Proof.
  intros Hj Hnan. repeat split.
  - intros (_ & Hl & _)%elem_of_peak_indices. by rewrite Hnan, gt_nan_l in Hl.
  - intros (_ & Hl & _)%elem_of_peak_indices.
    replace (S j - 1)%nat with j in Hl by lia. by rewrite Hnan, gt_nan_r in Hl.
  - intros i <- (_ & _ & Hr)%elem_of_peak_indices.
    replace (i + 1)%nat with (S i) in Hr by lia. by rewrite Hnan, gt_nan_r in Hr.
Qed.

Lemma peak_indices_skip_nan_witness :
  let scores := [Py.float_of_int 1; Py.float_of_int 5; S754_nan;
                 Py.float_of_int 7; Py.float_of_int 2] in
  (2%nat ∉ Tab3.peak_indices scores)
  ∧ (3%nat ∉ Tab3.peak_indices scores)
  ∧ ∀ i, S i = 2%nat → i ∉ Tab3.peak_indices scores.
Proof.
  apply (peak_indices_skip_nan
           [Py.float_of_int 1; Py.float_of_int 5; S754_nan;
            Py.float_of_int 7; Py.float_of_int 2] 2).
  - simpl. lia.
  - reflexivity.
Defined.
(* ------------------------------------------------------------------ *)
(** ** Where the street extractor stops ([StreetExtractor.main])       *)
(* ------------------------------------------------------------------ *)

(** A loop whose body raises at some element, whatever the state, does
    not complete. *)
Lemma for_each_raises {A S} (xs : list A) (body : S → A → Py.result S) (x : A) (s : S) :
  x ∈ xs → (∀ s, ∃ e, body s x = Py.Raise e) →
  ∃ e, Py.for_each xs body s = Py.Raise e.
Proof.
  intros Hx Hbody. revert s. induction xs as [|y xs IH]; intros s.
  - by apply elem_of_nil in Hx.
  - simpl. apply elem_of_cons in Hx as [<-|Hx].
    + destruct (Hbody s) as [e ->]. by exists e.
    + destruct (body s y) as [s'|e]; simpl; [by apply IH | by exists e].
Qed.

Section main_stops.
Import StreetExtractor.
Context {L : GeoLib}.

Lemma main_raises (gdf_edges : list edge) (street_names : list (option string))
    (gdf_points : list gps_point) (cell : option string) :
  cell ∈ street_names →
  (∀ final_segments, ∃ e,
     process_street gdf_edges gdf_points final_segments cell = Py.Raise e) →
  ∃ e, main (Py.Ok gdf_edges) street_names gdf_points = Py.Raise e.
Proof.
  intros Hin Hp. unfold main.
  destruct (for_each_raises street_names
              (λ final_segments cell,
                 process_street gdf_edges gdf_points final_segments cell)
              cell [] Hin Hp) as [e ->].
  by exists e.
Qed.

(** A missing street name in the popularity file stops the script with an
    exception: once the OSM edges are prepared, no file is written,
    whatever the other streets are. *)
Theorem main_missing_street_name (gdf_edges : list edge)
    (street_names : list (option string)) (gdf_points : list gps_point) :
  None ∈ street_names →
  ∃ e, main (Py.Ok gdf_edges) street_names gdf_points = Py.Raise e.
Proof.
  intros Hin. apply (main_raises _ _ _ None Hin).
  intros final_segments. by exists Py.AttributeError.
Qed.

(** The searches made only for the log are not guarded: when no cyclist
    point carries the clean street name and one of its words longer than
    three characters is not a valid pattern, the script stops with an
    exception and writes no file, although [get_street_geometry] given
    that word returns None. *)
Theorem main_unmatched_name_bad_word (gdf_edges : list edge)
    (street_names : list (option string)) (gdf_points : list gps_point)
    (original_name word : string) (e0 : Py.exn) :
  Some original_name ∈ street_names →
  (∀ p, p ∈ gdf_points → road_name_clean p ≠ Some (Py.strip (str_lower original_name))) →
  word ∈ Py.split_ws (Py.strip (str_lower original_name)) →
  (3 < String.length word)%nat →
  re_compile word = Py.Raise e0 →
  (∃ e, main (Py.Ok gdf_edges) street_names gdf_points = Py.Raise e)
  ∧ get_street_geometry word gdf_edges = None.
Proof.
  intros Hin Hnone Hword Hlen Hbad. split.
  - apply (main_raises _ _ _ (Some original_name) Hin).
    intros final_segments. unfold process_street, log_partial_matches.
    assert (filter (λ p, road_name_clean p = Some (Py.strip (str_lower original_name)))
                   gdf_points = []) as ->.
    { apply elem_of_nil_inv. intros p [Hp Hpin]%list_elem_of_filter.
      by apply (Hnone p). }
    destruct (for_each_raises (Py.split_ws (Py.strip (str_lower original_name)))
                (λ (_ : unit) part,
                   if (3 <? String.length part)%nat
                   then _ ← rows_containing road_name_clean part gdf_points; Py.Ok tt
                   else Py.Ok tt)
                word tt Hword) as [e He].
    { intros _. exists e0. apply Nat.ltb_lt in Hlen. rewrite Hlen.
      unfold rows_containing, str_contains. by rewrite Hbad. }
    rewrite He. by exists e.
  - unfold get_street_geometry, get_street_geometry_body, str_contains.
    by rewrite Hbad.
Qed.

End main_stops.

Lemma main_missing_street_name_witness :
  ∃ e, StreetExtractor.main (L := StreetExtractor.Axis.robust)
         (Py.Ok StreetExtractor.Axis.robust_edges)
         [Some "Kill Lane / R830"; None] StreetExtractor.Axis.robust_cyclist
       = Py.Raise e.
Proof.
  apply (main_missing_street_name (L := StreetExtractor.Axis.robust)
           StreetExtractor.Axis.robust_edges [Some "Kill Lane / R830"; None]
           StreetExtractor.Axis.robust_cyclist).
  apply list_elem_of_further, list_elem_of_here.
Defined.

Lemma main_unmatched_name_bad_word_witness :
  (∃ e, StreetExtractor.main (L := StreetExtractor.Axis.robust)
          (Py.Ok StreetExtractor.Axis.robust_edges)
          [Some "Rock Road (North"] StreetExtractor.Axis.robust_cyclist
        = Py.Raise e)
  ∧ StreetExtractor.get_street_geometry (L := StreetExtractor.Axis.robust)
      "(north" StreetExtractor.Axis.robust_edges = None.
Proof.
  apply (main_unmatched_name_bad_word (L := StreetExtractor.Axis.robust)
           StreetExtractor.Axis.robust_edges [Some "Rock Road (North"]
           StreetExtractor.Axis.robust_cyclist "Rock Road (North" "(north"
           Py.ReError).
  - apply list_elem_of_here.
  - intros p ->%list_elem_of_singleton. vm_compute. discriminate.
  - vm_compute. apply list_elem_of_further, list_elem_of_further, list_elem_of_here.
  - vm_compute. lia.
  - reflexivity.
Defined.
(* ------------------------------------------------------------------ *)
(** ** The cleaned weekly trends ([WeeklyTrendExtractor.main])         *)
(* ------------------------------------------------------------------ *)

Section weekly.
Import St WeeklyTrendExtractor.

Lemma dict_set_fresh {V} (key : string) (v : V) (d : list (string * V)) :
  key ∉ d.*1 → Py.dict_set key v d = d ++ [(key, v)].
Proof.
  induction d as [|[k w] d IH]; intros Hk; simpl; [done|].
  rewrite fmap_cons, not_elem_of_cons in Hk. destruct Hk as [Hne Hk].
  rewrite bool_decide_false by (simpl in Hne; congruence).
  by rewrite IH.
Qed.

Lemma dict_get_elem_of {V} (key : string) (v : V) (d : list (string * V)) :
  NoDup d.*1 → (key, v) ∈ d → Py.dict_get key d = Some v.
Proof.
  induction d as [|[k w] d IH]; intros Hnd Hin; [by apply elem_of_nil in Hin|].
  rewrite fmap_cons in Hnd. apply NoDup_cons in Hnd as [Hk Hnd].
  simpl. apply elem_of_cons in Hin as [[= -> ->]|Hin].
  - by rewrite bool_decide_true.
  - rewrite bool_decide_false; [by apply IH|].
    intros ->. apply Hk. simpl. apply list_elem_of_fmap. by exists (key, v).
Qed.

(** Of a list, the loop keeps the three fields of every entry that is a
    dict, in order. *)
Lemma cleaned_weekly_entries (weekly : list json) :
  cleaned_weekly (JArr weekly) = Py.Ok (kept_fields <$> dict_entries weekly).
Proof.
  unfold cleaned_weekly. cbn [Json.iter mbind result_bind Py.bind].
  enough (∀ acc,
    Py.for_each weekly
      (λ cleaned_weekly entry,
         if negb (Json.is_dict entry) then Py.Ok cleaned_weekly
         else cleaned ← cleaned_entry entry; Py.Ok (cleaned_weekly ++ [cleaned])) acc
    = Py.Ok (acc ++ (kept_fields <$> dict_entries weekly))) as H by apply H.
  induction weekly as [|entry weekly IH]; intros acc; simpl.
  - by rewrite app_nil_r.
  - destruct entry; simpl; rewrite ?IH; try done.
    by rewrite <- app_assoc.
Qed.

(** The street loop on streets with distinct names whose data have a
    'weekly' list. *)
Lemma main_loop (streets clean : list (string * json)) :
  NoDup (clean.*1 ++ streets.*1) →
  Forall (λ m, is_Some (weekly_list m.2)) streets →
  Py.for_each streets
    (λ clean '(street_name, street_data),
       weekly_data ← Json.get street_data "weekly" (JArr []);
       cleaned ← cleaned_weekly weekly_data;
       Py.Ok (Py.dict_set street_name (JObj [("weekly", JArr cleaned)]) clean))
    clean
  = Py.Ok (clean ++
           ((λ m, (m.1, JObj [("weekly",
                               JArr (kept_fields <$> dict_entries
                                                       (default [] (weekly_list m.2))))]))
            <$> streets)).
Proof.
  revert clean. induction streets as [|[street data] streets IH]; intros clean Hnd Hwf.
  - simpl. by rewrite app_nil_r.
  - apply Forall_cons in Hwf as [[weekly Hw] Hwf].
    cbn [Py.for_each fmap list_fmap fst snd]. simpl in Hw.
    destruct data as [| | | | |fields]; try done.
    cbn [Json.get mbind result_bind Py.bind weekly_list] in *.
    destruct (default (JArr []) (Py.dict_get "weekly" fields)) as [| | | |ws|] eqn:E;
      try done.
    injection Hw as <-.
    rewrite cleaned_weekly_entries. cbn [mbind result_bind Py.bind].
    rewrite dict_set_fresh.
    + rewrite IH; [by rewrite <- app_assoc | | done].
      rewrite fmap_app, <- app_assoc. exact Hnd.
    + rewrite fmap_cons in Hnd. apply NoDup_app in Hnd as (_ & Hdis & _).
      intros Hin. apply (Hdis _ Hin). apply list_elem_of_here.
Qed.

(** On a document whose streets have a 'weekly' list (or no 'weekly'
    key), the script writes the same streets in the same order; a street
    gets one cleaned entry per dict of its list, in order, holding the
    date, the popularity score and the cyclist volume, None standing for a
    missing one; the entries that are not dicts are left out. *)
Theorem main_clean_document (members : list (string * json)) :
  NoDup members.*1 →
  Forall (λ m, is_Some (weekly_list m.2)) members →
  ∃ clean,
    main (JObj members) = Py.Ok (JObj clean)
    ∧ clean.*1 = members.*1
    ∧ ∀ street street_data weekly,
        (street, street_data) ∈ members → weekly_list street_data = Some weekly →
        Py.dict_get street clean
        = Some (JObj [("weekly", JArr (kept_fields <$> dict_entries weekly))]).
Proof.
  intros Hnd Hwf. unfold main. cbn [Json.items mbind result_bind Py.bind].
  rewrite (main_loop members []) by done. cbn [Py.bind app].
  eexists. split; [done|]. split.
  - rewrite <- list_fmap_compose. done.
  - intros street data weekly Hin Hw. apply dict_get_elem_of.
    + rewrite <- list_fmap_compose. exact Hnd.
    + apply list_elem_of_fmap. exists (street, data). split; [|done].
      simpl. by rewrite Hw.
Qed.

(** A street whose data is not a dict, or whose 'weekly' value is None, a
    number or a boolean, stops the script with an exception: nothing is
    written. *)
Theorem main_malformed_street (members : list (string * json))
    (street : string) (street_data : json) :
  (street, street_data) ∈ members →
  Json.is_dict street_data = false
  ∨ (∃ fields weekly_data,
       street_data = JObj fields ∧ Py.dict_get "weekly" fields = Some weekly_data
       ∧ match weekly_data with JNull | JBool _ | JNum _ => True | _ => False end) →
  ∃ e, main (JObj members) = Py.Raise e.
Proof.
  intros Hin Hbad. unfold main. cbn [Json.items mbind result_bind Py.bind].
  destruct (for_each_raises members
              (λ clean '(street_name, street_data),
                 weekly_data ← Json.get street_data "weekly" (JArr []);
                 cleaned ← cleaned_weekly weekly_data;
                 Py.Ok (Py.dict_set street_name (JObj [("weekly", JArr cleaned)]) clean))
              (street, street_data) [] Hin) as [e ->]; [|by exists e].
  intros clean. destruct Hbad as [Hd | (fields & wd & -> & Hw & Hwd)].
  - exists Py.AttributeError. by destruct street_data.
  - exists Py.TypeError. simpl. rewrite Hw. by destruct wd.
Qed.

End weekly.

Lemma main_clean_document_witness :
  ∃ clean,
    WeeklyTrendExtractor.main
      (St.JObj [ ("West Pier",
                  St.JObj [ ("weekly",
                             St.JArr [ St.JObj [ ("date", St.JStr "2025-01-05");
                                                 ("daily_popularity", St.JNum (3 # 2));
                                                 ("daily_speed", St.JNum (18 # 1)) ];
                                       St.JStr "gap" ]) ]);
                 ("Nutley Lane", St.JObj []) ])
    = Py.Ok (St.JObj clean)
    ∧ clean.*1 = ["West Pier"; "Nutley Lane"]
    ∧ ∀ street street_data weekly,
        (street, street_data)
          ∈ [ ("West Pier",
               St.JObj [ ("weekly",
                          St.JArr [ St.JObj [ ("date", St.JStr "2025-01-05");
                                              ("daily_popularity", St.JNum (3 # 2));
                                              ("daily_speed", St.JNum (18 # 1)) ];
                                    St.JStr "gap" ]) ]);
              ("Nutley Lane", St.JObj []) ] →
        WeeklyTrendExtractor.weekly_list street_data = Some weekly →
        Py.dict_get street clean
        = Some (St.JObj [("weekly",
                          St.JArr (WeeklyTrendExtractor.kept_fields
                                   <$> WeeklyTrendExtractor.dict_entries weekly))]).
Proof.
  apply (main_clean_document
           [ ("West Pier",
              St.JObj [ ("weekly",
                         St.JArr [ St.JObj [ ("date", St.JStr "2025-01-05");
                                             ("daily_popularity", St.JNum (3 # 2));
                                             ("daily_speed", St.JNum (18 # 1)) ];
                                   St.JStr "gap" ]) ]);
             ("Nutley Lane", St.JObj []) ]).
  - simpl. apply NoDup_cons. split; [|apply NoDup_singleton].
    by intros [=]%list_elem_of_singleton.
  - repeat constructor; by eexists.
Defined.

Lemma main_malformed_street_witness :
  ∃ e, WeeklyTrendExtractor.main
         (St.JObj [ ("West Pier", St.JObj [("weekly", St.JArr [])]);
                    ("Nutley Lane", St.JObj [("weekly", St.JNull)]) ])
       = Py.Raise e.
Proof.
  apply (main_malformed_street
           [ ("West Pier", St.JObj [("weekly", St.JArr [])]);
             ("Nutley Lane", St.JObj [("weekly", St.JNull)]) ]
           "Nutley Lane" (St.JObj [("weekly", St.JNull)])).
  - apply list_elem_of_further, list_elem_of_here.
  - right. by exists [("weekly", St.JNull)], St.JNull.
Defined.
(* ------------------------------------------------------------------ *)
(** ** The rows of the segments file ([Tab2.features_rows])            *)
(* ------------------------------------------------------------------ *)

Section segments.
Import St.

Lemma features_loop_rows (features : list json) (data : list Tab2.segment_row) :
  Forall (λ feature, is_Some (Tab2.feature_street_name feature)) features →
  Py.for_each features
    (λ data feature,
       properties ← Json.get feature "properties" (JObj []);
       geometry ← Json.get feature "geometry" (JObj []);
       street_name ← Json.get properties "street_name" (JStr EmptyString);
       street_name ← Tab2.strip_value street_name;
       Py.Ok (data ++ [ {| Tab2.segment_street_name := street_name;
                           Tab2.segment_geometry := geometry |} ]))
    data
  = Py.Ok (data ++
           ((λ feature,
               {| Tab2.segment_street_name :=
                    default EmptyString (Tab2.feature_street_name feature);
                  Tab2.segment_geometry := Tab2.feature_geometry feature |})
            <$> features)).
Proof.
  intros Hwf. revert data.
  induction Hwf as [|feature features [name Hname] Hwf IH]; intros data; simpl.
  - by rewrite app_nil_r.
  - destruct feature as [| | | | |members]; try done. simpl in *.
    destruct (default (JObj []) (Py.dict_get "properties" members))
      as [| | | | |properties]; try done. simpl.
    destruct (default (JStr EmptyString) (Py.dict_get "street_name" properties))
      as [| | |s| |]; try done. simpl.
    rewrite IH. by rewrite <- app_assoc.
Qed.

Lemma features_loop_raises (features : list json) (feature : json)
    (data : list Tab2.segment_row) :
  feature ∈ features → Tab2.feature_street_name feature = None →
  Py.for_each features
    (λ data feature,
       properties ← Json.get feature "properties" (JObj []);
       geometry ← Json.get feature "geometry" (JObj []);
       street_name ← Json.get properties "street_name" (JStr EmptyString);
       street_name ← Tab2.strip_value street_name;
       Py.Ok (data ++ [ {| Tab2.segment_street_name := street_name;
                           Tab2.segment_geometry := geometry |} ]))
    data
  = Py.Raise Py.AttributeError.
Proof.
  intros Hin Hbad. revert data.
  induction features as [|f features IH]; intros data; [by apply elem_of_nil in Hin|].
  simpl. apply elem_of_cons in Hin as [<-|Hin].
  - destruct feature as [| | | | |members]; try done. simpl in *.
    destruct (default (JObj []) (Py.dict_get "properties" members))
      as [| | | | |properties]; try done. simpl.
    by destruct (default (JStr EmptyString) (Py.dict_get "street_name" properties)).
  - destruct f as [| | | | |members]; try done. simpl.
    destruct (default (JObj []) (Py.dict_get "properties" members))
      as [| | | | |properties]; try done. simpl.
    destruct (default (JStr EmptyString) (Py.dict_get "street_name" properties))
      as [| | |s| |]; try done. simpl.
    by apply IH.
Qed.

(** Of a feature collection whose features are dicts with a dict (or no)
    'properties' and a string (or no) 'street_name', the loader keeps one
    row per feature, in order: the stripped street name, empty when there
    is none, and the geometry as it stands. *)
Theorem features_rows_well_formed (members : list (string * json)) (features : list json) :
  default (JArr []) (Py.dict_get "features" members) = JArr features →
  Forall (λ feature, is_Some (Tab2.feature_street_name feature)) features →
  Tab2.features_rows (JObj members)
  = Py.Ok ((λ feature,
              {| Tab2.segment_street_name :=
                   default EmptyString (Tab2.feature_street_name feature);
                 Tab2.segment_geometry := Tab2.feature_geometry feature |})
           <$> features).
Proof.
  intros Hf Hwf. unfold Tab2.features_rows.
  cbn [Json.get mbind result_bind Py.bind]. rewrite Hf.
  cbn [Json.iter Py.bind]. exact (features_loop_rows features [] Hwf).
Qed.

(** One feature that is not a dict, or whose 'properties' is not a dict
    (GeoJSON allows null), or whose 'street_name' is not a string, and the
    whole segments file is given up: the loader reports the exception
    twice and returns None. *)
Theorem load_abnormal_events_segments_bad_feature (w : world (list Tab2.segment_row))
    (data_dir : path) (members : list (string * json)) (features : list json)
    (feature : json) (log : list message) :
  (∀ doc, features_frame w doc = Tab2.features_rows doc) →
  Tab2.get_data_directory w = Py.Ok data_dir →
  path_exists w (join data_dir ["abnormal-events.geojson"]) = Py.Ok true →
  json_load w (join data_dir ["abnormal-events.geojson"]) = Py.Ok (JObj members) →
  default (JArr []) (Py.dict_get "features" members) = JArr features →
  feature ∈ features →
  Tab2.feature_street_name feature = None →
  Tab2.load_abnormal_events_segments w log
  = (Py.Ok None,
     log ++ [ {| msg_level := Error; msg_text := "Error loading GeoJSON data: ";
                 msg_exn := Some Py.AttributeError |};
              {| msg_level := Error; msg_text := "Traceback: ";
                 msg_exn := Some Py.AttributeError |} ]).
Proof.
  intros Hframe Hdir Hex Hload Hf Hin Hbad.
  unfold Tab2.load_abnormal_events_segments, Tab2.load_abnormal_events_segments_body,
    try_except.
  unfold mbind, io_bind, bind, call. rewrite Hdir, Hex. simpl.
  rewrite Hload, Hframe. unfold Tab2.features_rows.
  cbn [Json.get mbind result_bind Py.bind]. rewrite Hf.
  cbn [Json.iter Py.bind].
  pose proof (features_loop_raises features feature [] Hin Hbad) as Hr.
  unfold mbind, result_bind in Hr |- *. cbn [Py.bind]. rewrite Hr.
  unfold emit, mret, io_ret, ret. by rewrite <- app_assoc.
Qed.

End segments.

Lemma features_rows_well_formed_witness :
  Tab2.features_rows
    (St.JObj [ ("type", St.JStr "FeatureCollection");
               ("features",
                St.JArr [ St.JObj [ ("properties", St.JObj [("street_name", St.JStr " Kill Lane ")]);
                                    ("geometry", St.JObj [("type", St.JStr "Polygon")]) ];
                          St.JObj [ ("geometry", St.JNull) ] ]) ])
  = Py.Ok ((λ feature,
              {| Tab2.segment_street_name :=
                   default EmptyString (Tab2.feature_street_name feature);
                 Tab2.segment_geometry := Tab2.feature_geometry feature |})
           <$> [ St.JObj [ ("properties", St.JObj [("street_name", St.JStr " Kill Lane ")]);
                           ("geometry", St.JObj [("type", St.JStr "Polygon")]) ];
                 St.JObj [ ("geometry", St.JNull) ] ]).
Proof.
  apply (features_rows_well_formed
           [ ("type", St.JStr "FeatureCollection");
             ("features",
              St.JArr [ St.JObj [ ("properties", St.JObj [("street_name", St.JStr " Kill Lane ")]);
                                  ("geometry", St.JObj [("type", St.JStr "Polygon")]) ];
                        St.JObj [ ("geometry", St.JNull) ] ]) ]).
  - reflexivity.
  - repeat constructor; by eexists.
Defined.

Lemma load_abnormal_events_segments_bad_feature_witness :
  Tab2.load_abnormal_events_segments
    (Tab2.geojson_world
       (St.JObj [ ("features",
                   St.JArr [ St.JObj [ ("properties", St.JObj [("street_name", St.JStr "Kill Lane")]) ];
                             St.JObj [ ("properties", St.JNull) ] ]) ]))
    []
  = (Py.Ok None,
     [] ++ [ {| St.msg_level := St.Error; St.msg_text := "Error loading GeoJSON data: ";
                St.msg_exn := Some Py.AttributeError |};
             {| St.msg_level := St.Error; St.msg_text := "Traceback: ";
                St.msg_exn := Some Py.AttributeError |} ]).
Proof.
  apply (load_abnormal_events_segments_bad_feature
           (Tab2.geojson_world
              (St.JObj [ ("features",
                          St.JArr [ St.JObj [ ("properties",
                                               St.JObj [("street_name", St.JStr "Kill Lane")]) ];
                                    St.JObj [ ("properties", St.JNull) ] ]) ]))
           ["/app"; "data"; "processed"; "tab2_abnormaltrend"]
           [ ("features",
              St.JArr [ St.JObj [ ("properties", St.JObj [("street_name", St.JStr "Kill Lane")]) ];
                        St.JObj [ ("properties", St.JNull) ] ]) ]
           [ St.JObj [ ("properties", St.JObj [("street_name", St.JStr "Kill Lane")]) ];
             St.JObj [ ("properties", St.JNull) ] ]
           (St.JObj [ ("properties", St.JNull) ])).
  - done.
  - reflexivity.
  - reflexivity.
  - reflexivity.
  - reflexivity.
  - apply list_elem_of_further, list_elem_of_here.
  - reflexivity.
Defined.
(* ------------------------------------------------------------------ *)
(** ** The abnormal-events map ([Tab2.create_abnormal_events_map])     *)
(* ------------------------------------------------------------------ *)

(** A loop in the page monad keeps what every round keeps. *)
Lemma st_for_each_invariant {A S} (I : list A → S → Prop) (body : S → A → St.io S)
    (xs : list A) (s0 s : S) (log log' : list St.message) :
  I [] s0 →
  (∀ seen s x s' log log',
     I seen s → x ∈ xs → body s x log = (Py.Ok s', log') → I (seen ++ [x]) s') →
  St.for_each xs body s0 log = (Py.Ok s, log') →
  I xs s.
Proof.
  intros H0 Hstep.
  enough (∀ seen rest s1 log1,
            seen ++ rest = xs → I seen s1 →
            St.for_each rest body s1 log1 = (Py.Ok s, log') → I xs s) as H.
  { by apply (H [] xs s0 log). }
  intros seen rest. revert seen. induction rest as [|x rest IH]; intros seen s1 log1 E HI.
  - rewrite app_nil_r in E. subst seen. simpl. unfold St.ret. by intros [= <- _].
  - simpl. unfold St.bind. destruct (body s1 x log1) as [[s2|e] log2] eqn:Eb; [|done].
    apply (IH (seen ++ [x])).
    + by rewrite <- app_assoc.
    + apply (Hstep seen s1 x s2 log1 log2 HI); [|done].
      rewrite <- E. apply elem_of_app. right. apply list_elem_of_here.
Qed.

(** A loop whose body raises at some element, whatever the state and the
    messages so far, does not complete. *)
Lemma st_for_each_raises {A S} (xs : list A) (body : S → A → St.io S) (x : A)
    (s : S) (log : list St.message) :
  x ∈ xs → (∀ s log, ∃ e log', body s x log = (Py.Raise e, log')) →
  ∃ e log', St.for_each xs body s log = (Py.Raise e, log').
Proof.
  intros Hx Hbody. revert s log. induction xs as [|y xs IH]; intros s log.
  - by apply elem_of_nil in Hx.
  - simpl. unfold St.bind. apply elem_of_cons in Hx as [<-|Hx].
    + destruct (Hbody s log) as (e & log' & ->). by exists e, log'.
    + destruct (body s y log) as [[s'|e] log1]; [by apply IH | by exists e, log1].
Qed.

Section abnormal_events_map.
Context {frame : Type} (w : St.world frame).
Context (GEOPANDAS_AVAILABLE : bool) (read_file : St.path → Py.result frame).
Context (is_empty : frame → bool).
Context (add_geojson : frame → Py.result unit).
Context (add_polygon : Tab2.polygon → Py.result unit).

Lemma call_log {A} (r : Py.result A) (log : list St.message) :
  St.call r log = (r, log).
Proof. reflexivity. Qed.

(** The loop over the candidate paths stops at the first one that
    exists, and what it finds is that file as read. *)
Lemma first_read_loop (paths : list St.path) (gdf : frame) :
  Py.for_each paths
    (λ found p,
       match found with
       | Some _ => Py.Ok found
       | None =>
           ex ← St.path_exists w p;
           if ex : bool then gdf ← read_file p; Py.Ok (Some gdf) else Py.Ok None
       end) None = Py.Ok (Some gdf) →
  ∃ before p after,
    paths = before ++ p :: after
    ∧ Forall (λ q, St.path_exists w q = Py.Ok false) before
    ∧ St.path_exists w p = Py.Ok true
    ∧ read_file p = Py.Ok gdf.
Proof.
  assert (∀ paths g,
            Py.for_each paths
              (λ found p,
                 match found with
                 | Some _ => Py.Ok found
                 | None =>
                     ex ← St.path_exists w p;
                     if ex : bool then gdf ← read_file p; Py.Ok (Some gdf) else Py.Ok None
                 end) (Some g) = Py.Ok (Some g)) as Hkeep.
  { intros ps g. induction ps as [|q ps IH]; [done | exact IH]. }
  induction paths as [|p paths IH]; simpl; [done|].
  destruct (St.path_exists w p) as [[|]|] eqn:Ex; simpl; [| |done].
  - destruct (read_file p) as [g|] eqn:Er; simpl; [|done].
    rewrite Hkeep. intros [= <-]. by exists [], p, paths.
  - intros H. destruct (IH H) as (before & q & after & -> & Hb & Hq & Hr).
    exists (p :: before), q, after. split; [done|]. split; [by constructor | done].
Qed.

(** The cycleways loader never raises and never writes to the page; what
    it returns is the empty frame, or what [gpd.read_file] gave for the
    first of the five candidate paths that exists. *)
Theorem load_cycleways_data_silent (log : list St.message) :
  ∃ gdf,
    Tab2.load_cycleways_data w GEOPANDAS_AVAILABLE read_file log = (Py.Ok gdf, log)
    ∧ (gdf = St.empty_frame w
       ∨ ∃ cwd before p after,
           GEOPANDAS_AVAILABLE = true
           ∧ St.cwd w = Py.Ok cwd
           ∧ Tab2.cycleways_candidates (St.script_dir w) cwd = before ++ p :: after
           ∧ Forall (λ q, St.path_exists w q = Py.Ok false) before
           ∧ St.path_exists w p = Py.Ok true
           ∧ read_file p = Py.Ok gdf).
Proof.
  unfold Tab2.load_cycleways_data, Tab2.load_cycleways_data_body, St.try_except.
  destruct GEOPANDAS_AVAILABLE; cbn [negb]; [|by eexists; split; [|left]].
  unfold mbind, io_bind, St.bind, St.call.
  destruct (St.cwd w) as [cwd|e] eqn:Ec; [|by eexists; split; [|left]].
  cbv zeta. fold (Tab2.cycleways_candidates (St.script_dir w) cwd).
  match goal with |- context [Py.for_each ?ps ?body None] =>
    pose proof (first_read_loop ps) as Hloop; unfold mbind in Hloop;
    destruct (Py.for_each ps body None) as [[gdf|]|]
  end.
  - exists gdf. split; [done|]. right.
    destruct (Hloop gdf eq_refl) as (before & p & after & Hp & Hb & Hx & Hr).
    by exists cwd, before, p, after.
  - eexists. split; [done|]. by left.
  - eexists. split; [done|]. by left.
Qed.

Lemma load_cycleways_data_returns (log : list St.message) :
  ∃ gdf, Tab2.load_cycleways_data w GEOPANDAS_AVAILABLE read_file log = (Py.Ok gdf, log).
Proof.
  unfold Tab2.load_cycleways_data, Tab2.load_cycleways_data_body, St.try_except.
  destruct GEOPANDAS_AVAILABLE; cbn [negb]; [|by eexists].
  unfold mbind, io_bind, St.bind, St.call.
  destruct (St.cwd w) as [cwd|e]; [|by eexists].
  cbv zeta. destruct (Py.for_each _ _ None) as [found|]; by eexists.
Qed.

Lemma add_cycleways_silent (show_cycleways : bool) (log : list St.message) :
  Tab2.add_cycleways w GEOPANDAS_AVAILABLE read_file is_empty add_geojson
    show_cycleways log = (Py.Ok tt, log).
Proof.
  unfold Tab2.add_cycleways. destruct show_cycleways; [|done].
  destruct (load_cycleways_data_returns log) as (gdf & Hl).
  unfold mbind, io_bind, St.bind. rewrite Hl.
  destruct (is_empty gdf); simpl; [done|].
  unfold St.try_except, St.call. by destruct (add_geojson gdf) as [[]|].
Qed.

(** Asking for the cycleways never changes the outcome of the map: the
    same polygons, the same count, the same messages, the same
    exception. *)
Theorem create_abnormal_events_map_cycleways (abnormal_df : list Tab2.event_row)
    (segments_df : option (list Tab2.map_segment)) (log : list St.message) :
  Tab2.create_abnormal_events_map w GEOPANDAS_AVAILABLE read_file is_empty add_geojson
    add_polygon abnormal_df segments_df true log
  = Tab2.create_abnormal_events_map w GEOPANDAS_AVAILABLE read_file is_empty add_geojson
      add_polygon abnormal_df segments_df false log.
Proof.
  unfold Tab2.create_abnormal_events_map.
  destruct segments_df as [[|seg segments]|]; try done.
  unfold mbind, io_bind, St.bind, St.call.
  destruct (Tab2.calculate_bounds_from_geometries _); [|done].
  by rewrite !add_cycleways_silent.
Qed.

(** What one round of the segment loop adds. *)
Lemma add_segment_drawn (abnormal_df : list Tab2.event_row)
    (state state' : list Tab2.polygon * Z) (row : Tab2.map_segment)
    (log log' : list St.message) :
  Tab2.add_segment add_polygon abnormal_df state row log = (Py.Ok state', log') →
  state' = state
  ∨ ∃ poly main_row,
      state' = (state.1 ++ [poly], state.2 + 1)
      ∧ Tab2.gtype (Tab2.map_geometry row) = Some "Polygon"
      ∧ Tab2.tooltip poly = Tab2.map_street_name row
      ∧ head (filter (λ r, Tab2.event_street_name r = Some (Tab2.map_street_name row))
                     abnormal_df) = Some main_row
      ∧ (Tab2.color poly, Tab2.fill_color poly, Tab2.status_text poly)
        = Tab2.trend_style (Tab2.event_trend main_row)
      ∧ add_polygon poly = Py.Ok tt.
Proof.
  unfold Tab2.add_segment. cbv zeta.
  destruct (filter _ abnormal_df) as [|main_row others] eqn:Ef.
  { intros [= <- _]. by left. }
  unfold mbind, io_bind, St.bind, St.call.
  destruct (Tab2.capitalized_strength _) as [strength|]; [|done].
  destruct (Tab2.trend_style (Tab2.event_trend main_row)) as [[color fill] status] eqn:Es.
  unfold St.try_except, Tab2.draw_segment.
  case_bool_decide as Hp.
  - unfold mbind, io_bind, St.bind, St.call.
    destruct (Tab2.outer_ring _) as [coords|]; [|intros [= <- _]; by left].
    destruct (Tab2.swap_lon_lat coords) as [locations|]; [|intros [= <- _]; by left].
    destruct (add_polygon _) as [[]|] eqn:Ea; [|intros [= <- _]; by left].
    intros [= <- _]. right. eexists _, main_row.
    split; [done|]. split; [done|]. split; [done|]. split; [done|]. split; [|exact Ea].
    simpl. by rewrite Es.
  - intros [= <- _]. by left.
Qed.

(** When the map is built: [routes_added] is the number of polygons on
    it, at most one per segment; every polygon stands for a segment of
    type 'Polygon' whose street has a row in the events frame, is
    coloured after the trend of the first such row, and was accepted by
    folium. *)
Theorem create_abnormal_events_map_routes (abnormal_df : list Tab2.event_row)
    (segments : list Tab2.map_segment) (show_cycleways : bool)
    (drawn : list Tab2.polygon) (routes_added : Z) (log log' : list St.message) :
  Tab2.create_abnormal_events_map w GEOPANDAS_AVAILABLE read_file is_empty add_geojson
    add_polygon abnormal_df (Some segments) show_cycleways log
  = (Py.Ok (drawn, routes_added), log') →
  routes_added = Z.of_nat (length drawn)
  ∧ (length drawn ≤ length segments)%nat
  ∧ ∀ poly, poly ∈ drawn →
      ∃ row main_row,
        row ∈ segments
        ∧ Tab2.gtype (Tab2.map_geometry row) = Some "Polygon"
        ∧ Tab2.tooltip poly = Tab2.map_street_name row
        ∧ head (filter (λ r, Tab2.event_street_name r = Some (Tab2.map_street_name row))
                       abnormal_df) = Some main_row
        ∧ (Tab2.color poly, Tab2.fill_color poly, Tab2.status_text poly)
          = Tab2.trend_style (Tab2.event_trend main_row)
        ∧ add_polygon poly = Py.Ok tt.
Proof.
  unfold Tab2.create_abnormal_events_map.
  destruct segments as [|seg segments].
  { intros [= <- <- _]. split; [done|]. split; [done|]. by intros ? ?%elem_of_nil. }
  unfold mbind, io_bind, St.bind, St.call.
  destruct (Tab2.calculate_bounds_from_geometries _); [|done].
  rewrite add_cycleways_silent.
  generalize (seg :: segments). clear seg segments. intros segments Hrun.
  pose (I := λ (seen : list Tab2.map_segment) (state : list Tab2.polygon * Z),
     state.2 = Z.of_nat (length state.1)
     ∧ (length state.1 ≤ length seen)%nat
     ∧ ∀ poly, poly ∈ state.1 →
         ∃ row main_row,
           row ∈ segments
           ∧ Tab2.gtype (Tab2.map_geometry row) = Some "Polygon"
           ∧ Tab2.tooltip poly = Tab2.map_street_name row
           ∧ head (filter (λ r, Tab2.event_street_name r = Some (Tab2.map_street_name row))
                          abnormal_df) = Some main_row
           ∧ (Tab2.color poly, Tab2.fill_color poly, Tab2.status_text poly)
             = Tab2.trend_style (Tab2.event_trend main_row)
           ∧ add_polygon poly = Py.Ok tt).
  apply (st_for_each_invariant I _ _ _ _ _ _) in Hrun; [exact Hrun | |].
  - split; [done|]. split; [done|]. by intros ? ?%elem_of_nil.
  - subst I. cbv beta.
    intros seen state row state' log1 log2 (Hn & Hlen & Hpoly) Hrow Hstep.
    apply add_segment_drawn in Hstep as [-> | (poly & main_row & -> & Hrest)].
    + split; [done|]. split; [rewrite length_app; simpl; lia | done].
    + simpl. split; [rewrite length_app; simpl; lia|].
      split; [rewrite !length_app; simpl; lia|].
      intros p [Hp | ->%list_elem_of_singleton]%elem_of_app; [by apply Hpoly|].
      exists row, main_row. by split.
Qed.

(** A segment whose street has a row in the events frame, the first such
    row having an empty 'Trend Strength' cell, stops the whole map with an
    exception, whatever the type of its geometry. *)
Theorem create_abnormal_events_map_empty_strength (abnormal_df : list Tab2.event_row)
    (segments : list Tab2.map_segment) (show_cycleways : bool)
    (row : Tab2.map_segment) (main_row : Tab2.event_row) (log : list St.message) :
  row ∈ segments →
  head (filter (λ r, Tab2.event_street_name r = Some (Tab2.map_street_name row))
               abnormal_df) = Some main_row →
  Tab2.event_trend_strength main_row = Tab2.NaN →
  ∃ e log',
    Tab2.create_abnormal_events_map w GEOPANDAS_AVAILABLE read_file is_empty add_geojson
      add_polygon abnormal_df (Some segments) show_cycleways log
    = (Py.Raise e, log').
Proof.
  intros Hrow Hhead Hnan. unfold Tab2.create_abnormal_events_map.
  destruct segments as [|seg segments]; [by apply elem_of_nil in Hrow|].
  unfold mbind, io_bind, St.bind, St.call.
  destruct (Tab2.calculate_bounds_from_geometries _) as [bounds|e]; [|by exists e, log].
  rewrite add_cycleways_silent.
  apply (st_for_each_raises _ _ row); [done|].
  intros state log1. unfold Tab2.add_segment. cbv zeta.
  destruct (filter _ abnormal_df) as [|r others]; [done|].
  injection Hhead as ->. rewrite Hnan.
  by exists Py.AttributeError, log1.
Qed.

End abnormal_events_map.

Lemma create_abnormal_events_map_routes_witness :
  let drawn :=
    [ {| Tab2.locations := [(532 # 10, -61 # 10); (533 # 10, -62 # 10); (533 # 10, -61 # 10)];
         Tab2.color := "#ef4444"; Tab2.fill_color := "#fee2e2";
         Tab2.status_text := "Increased Risk"; Tab2.trend_strength := "Strong";
         Tab2.tooltip := "Kill Lane" |} ] in
  let segments := [Tab2.kill_lane_segment; Tab2.rock_road_segment] in
  1 = Z.of_nat (length drawn)
  ∧ (length drawn ≤ length segments)%nat
  ∧ ∀ poly, poly ∈ drawn →
      ∃ row main_row,
        row ∈ segments
        ∧ Tab2.gtype (Tab2.map_geometry row) = Some "Polygon"
        ∧ Tab2.tooltip poly = Tab2.map_street_name row
        ∧ head (filter (λ r, Tab2.event_street_name r = Some (Tab2.map_street_name row))
                       Tab2.sample_events) = Some main_row
        ∧ (Tab2.color poly, Tab2.fill_color poly, Tab2.status_text poly)
          = Tab2.trend_style (Tab2.event_trend main_row)
        ∧ (λ _ : Tab2.polygon, Py.Ok tt) poly = Py.Ok tt.
Proof.
  exact (create_abnormal_events_map_routes St.unreadable_files false
           (λ _, Py.Raise Py.OSError) (λ _, true) (λ _, Py.Ok tt) (λ _, Py.Ok tt)
           Tab2.sample_events [Tab2.kill_lane_segment; Tab2.rock_road_segment] true
           _ 1 [] [] eq_refl).
Defined.

Lemma create_abnormal_events_map_empty_strength_witness :
  ∃ e log',
    Tab2.create_abnormal_events_map St.unreadable_files false
      (λ _, Py.Raise Py.OSError) (λ _, true) (λ _, Py.Ok tt) (λ _, Py.Ok tt)
      Tab2.sample_events (Some [Tab2.kill_lane_segment; Tab2.nutley_lane_segment]) false []
    = (Py.Raise e, log').
Proof.
  apply (create_abnormal_events_map_empty_strength St.unreadable_files false
           (λ _, Py.Raise Py.OSError) (λ _, true) (λ _, Py.Ok tt) (λ _, Py.Ok tt)
           Tab2.sample_events [Tab2.kill_lane_segment; Tab2.nutley_lane_segment] false
           Tab2.nutley_lane_segment
           {| Tab2.event_street_name := Some "Nutley Lane";
              Tab2.event_trend := Some "Decrease";
              Tab2.event_trend_strength := Tab2.NaN;
              Tab2.event_ai_summary := Tab2.Absent |} []).
  - apply list_elem_of_further, list_elem_of_here.
  - reflexivity.
  - reflexivity.
Defined.
(* ------------------------------------------------------------------ *)
(** ** The data directory of tab 2 ([Tab2.get_data_directory])         *)
(* ------------------------------------------------------------------ *)

Section data_directory.
Context {frame : Type} (w : St.world frame).

(** The loop over the candidates stops at the first one that exists. *)
Lemma first_existing_loop (paths : list St.path) (found : option St.path) :
  Py.for_each paths
    (λ found p,
       match found with
       | Some _ => Py.Ok found
       | None => ex ← St.path_exists w p; Py.Ok (if ex : bool then Some p else None)
       end) None = Py.Ok found →
  match found with
  | Some p =>
      ∃ before after,
        paths = before ++ p :: after
        ∧ St.path_exists w p = Py.Ok true
        ∧ Forall (λ q, St.path_exists w q = Py.Ok false) before
  | None => Forall (λ q, St.path_exists w q = Py.Ok false) paths
  end.
Proof.
  assert (∀ paths p,
            Py.for_each paths
              (λ found p,
                 match found with
                 | Some _ => Py.Ok found
                 | None => ex ← St.path_exists w p; Py.Ok (if ex : bool then Some p else None)
                 end) (Some p) = Py.Ok (Some p)) as Hkeep.
  { intros ps p. induction ps as [|q ps IH]; [done | exact IH]. }
  revert found. induction paths as [|p paths IH]; intros found; simpl.
  - by intros [= <-].
  - destruct (St.path_exists w p) as [[|]|] eqn:Ex; simpl; [| |done].
    + rewrite Hkeep. intros [= <-]. by exists [], paths.
    + intros H. specialize (IH _ H). destruct found as [q|].
      * destruct IH as (before & after & -> & Hq & Hb).
        exists (p :: before), after. split; [done|]. split; [done|]. by constructor.
      * by constructor.
Qed.

(** When it returns, the data directory is the first candidate that
    exists, no earlier one existing; or, when none of the five exists, the
    first candidate all the same. *)
Theorem get_data_directory_first_existing (data_dir : St.path) :
  Tab2.get_data_directory w = Py.Ok data_dir →
  ∃ cwd,
    St.cwd w = Py.Ok cwd
    ∧ ((∃ before after,
          Tab2.data_directory_candidates (St.script_dir w) cwd = before ++ data_dir :: after
          ∧ St.path_exists w data_dir = Py.Ok true
          ∧ Forall (λ q, St.path_exists w q = Py.Ok false) before)
       ∨ (data_dir = St.join (St.parent (St.script_dir w)) Tab2.tab2_dir
          ∧ Forall (λ q, St.path_exists w q = Py.Ok false)
                   (Tab2.data_directory_candidates (St.script_dir w) cwd))).
Proof.
  unfold Tab2.get_data_directory. cbv zeta.
  destruct (St.cwd w) as [cwd|] eqn:Ec; [|done].
  cbn [mbind result_bind Py.bind].
  fold (Tab2.data_directory_candidates (St.script_dir w) cwd).
  destruct (Py.for_each _ _ None) as [found|] eqn:Ef; [|done].
  apply first_existing_loop in Ef. cbn [Py.bind].
  intros [= <-]. exists cwd. split; [done|].
  destruct found as [p|]; [left | right]; done.
Qed.

End data_directory.

Lemma get_data_directory_first_existing_witness :
  ∃ cwd,
    St.cwd St.unreadable_files = Py.Ok cwd
    ∧ ((∃ before after,
          Tab2.data_directory_candidates (St.script_dir St.unreadable_files) cwd
          = before ++ ["/app"; "data"; "processed"; "tab2_abnormaltrend"] :: after
          ∧ St.path_exists St.unreadable_files
              ["/app"; "data"; "processed"; "tab2_abnormaltrend"] = Py.Ok true
          ∧ Forall (λ q, St.path_exists St.unreadable_files q = Py.Ok false) before)
       ∨ (["/app"; "data"; "processed"; "tab2_abnormaltrend"]
          = St.join (St.parent (St.script_dir St.unreadable_files)) Tab2.tab2_dir
          ∧ Forall (λ q, St.path_exists St.unreadable_files q = Py.Ok false)
                   (Tab2.data_directory_candidates
                      (St.script_dir St.unreadable_files) cwd))).
Proof.
  apply (get_data_directory_first_existing St.unreadable_files
           ["/app"; "data"; "processed"; "tab2_abnormaltrend"]).
  reflexivity.
Defined.
(* ------------------------------------------------------------------ *)
(** ** The road segments and the route map of tab 3                    *)
(* ------------------------------------------------------------------ *)

(** A loop keeps what every round keeps. *)
Lemma py_for_each_invariant {A S} (I : list A → S → Prop) (body : S → A → Py.result S)
    (xs : list A) (s0 s : S) :
  I [] s0 →
  (∀ seen s x s', I seen s → x ∈ xs → body s x = Py.Ok s' → I (seen ++ [x]) s') →
  Py.for_each xs body s0 = Py.Ok s →
  I xs s.
Proof.
  intros H0 Hstep.
  enough (∀ seen rest s1,
            seen ++ rest = xs → I seen s1 →
            Py.for_each rest body s1 = Py.Ok s → I xs s) as H.
  { by apply (H [] xs s0). }
  intros seen rest. revert seen. induction rest as [|x rest IH]; intros seen s1 E HI.
  - rewrite app_nil_r in E. subst seen. simpl. by intros [= <-].
  - simpl. destruct (body s1 x) as [s2|e] eqn:Eb; [|done]. simpl.
    apply (IH (seen ++ [x])).
    + by rewrite <- app_assoc.
    + apply (Hstep seen s1 x s2 HI); [|done].
      rewrite <- E. apply elem_of_app. right. apply list_elem_of_here.
Qed.

Lemma existsb_filter {A} (f : A → bool) (l : list A) :
  existsb f l = bool_decide (filter (λ x, f x) l ≠ []).
Proof.
  induction l as [|x l IH]; [done|].
  simpl. rewrite filter_cons. destruct (f x) eqn:E; simpl; [done | exact IH].
Qed.

Section route_map.
Context {frame : Type} (w : St.world frame).
Context (from_features : St.json → Py.result (list Tab3.geo_row)).
Context (set_crs : list Tab3.geo_row → Py.result unit).
Context (add_geojson : St.json → Py.result unit).
Context (add_layer : Tab3.layer → Py.result unit).

(** *** [load_road_segments] *)

Lemma try_except_returns {A} (body : St.io A) (handler : Py.exn → St.io A)
    (log : list St.message) :
  (∀ e log1, ∃ v log2, handler e log1 = (Py.Ok v, log2)) →
  ∃ v log', St.try_except body handler log = (Py.Ok v, log').
Proof.
  intros Hh. unfold St.try_except. destruct (body log) as [[v|e] log1]; [by eexists _, _|].
  apply Hh.
Qed.

(** The segments loader never raises.  A file that parses to a dict
    without a 'features' key is not reported as an error: after the one
    info message of the fallback, the result is an empty DataFrame. *)
Theorem load_road_segments_no_features (log : list St.message) :
  (∃ v log', Tab3.load_road_segments w from_features set_crs log = (Py.Ok v, log'))
  ∧ ∀ members,
      let file_path := St.join (Tab3.get_data_path w) ["trimmed_active_segments.geojson"] in
      St.path_exists w file_path = Py.Ok true →
      St.json_load w file_path = Py.Ok (St.JObj members) →
      Py.dict_get "features" members = None →
      Tab3.load_road_segments w from_features set_crs log
      = (Py.Ok (Tab3.DataFrame []),
         log ++ [ {| St.msg_level := St.Info;
                     St.msg_text := "Using fallback GeoJSON loader (GeoPandas issue: ";
                     St.msg_exn := Some Py.KeyError |} ]).
Proof.
  split.
  - apply try_except_returns. intros e log1. by eexists _, _.
  - intros members file_path Hex Hload Hnone.
    unfold Tab3.load_road_segments, Tab3.load_road_segments_body. cbv zeta.
    fold file_path. unfold St.try_except at 1.
    unfold mbind at 1, io_bind at 1, St.bind at 1, St.call at 1. rewrite Hex. cbn [negb].
    unfold St.try_except, Tab3.load_geodataframe, Tab3.load_fallback.
    unfold mbind, io_bind, St.bind, St.call, St.emit. rewrite Hload.
    cbn [Json.subscript]. rewrite Hnone.
    unfold Tab3.fallback_features. cbn [Json.get]. rewrite Hnone. reflexivity.
Qed.

(** *** [create_route_map] *)

Lemma tab3_cycleways_silent (log : list St.message) :
  ∃ data, Tab3.load_cycleways_data w log = (Py.Ok data, log).
Proof.
  unfold Tab3.load_cycleways_data, Tab3.load_cycleways_data_body, St.try_except, St.call.
  cbv zeta. destruct (Py.for_each _ _ None) as [data|]; by eexists.
Qed.

Lemma tab3_add_cycleways_silent (show_cycleways : bool) (log : list St.message) :
  Tab3.add_cycleways w add_geojson show_cycleways log = (Py.Ok tt, log).
Proof.
  unfold Tab3.add_cycleways. destruct show_cycleways; [|done].
  destruct (tab3_cycleways_silent log) as (data & Hl).
  unfold mbind, io_bind, St.bind. rewrite Hl.
  destruct data as [data|]; [|done].
  destruct (Json.truthy data); [|done].
  unfold St.try_except, St.call. by destruct (add_geojson data) as [[]|].
Qed.

Lemma extends_refl mk drawn : Tab3.extends add_layer mk drawn drawn.
Proof. exists []. by rewrite app_nil_r. Qed.

Lemma extends_trans mk a b c :
  Tab3.extends add_layer mk a b → Tab3.extends add_layer mk b c →
  Tab3.extends add_layer mk a c.
Proof.
  intros (e1 & -> & H1) (e2 & -> & H2). exists (e1 ++ e2).
  split; [by rewrite app_assoc | by apply Forall_app].
Qed.

Lemma put_extends mk s drawn drawn' :
  Tab3.put add_layer mk s drawn = Py.Ok drawn' → Tab3.extends add_layer mk drawn drawn'.
Proof.
  unfold Tab3.put. destruct (add_layer (mk s)) as [[]|] eqn:E; [|done].
  intros [= <-]. exists [mk s]. split; [done|]. constructor; [|constructor]. by exists s.
Qed.

Lemma for_each_extends {A} mk (body : list Tab3.layer → A → Py.result (list Tab3.layer))
    (xs : list A) (drawn drawn' : list Tab3.layer) :
  (∀ d x d', body d x = Py.Ok d' → Tab3.extends add_layer mk d d') →
  Py.for_each xs body drawn = Py.Ok drawn' → Tab3.extends add_layer mk drawn drawn'.
Proof.
  intros Hbody. revert drawn. induction xs as [|x xs IH]; intros drawn; simpl.
  - intros [= <-]. apply extends_refl.
  - destruct (body drawn x) as [d|] eqn:E; [|done]. simpl. intros H.
    eapply extends_trans; [by eapply Hbody | by apply IH].
Qed.

Lemma draw_geo_segment_extends mk drawn segment drawn' :
  Tab3.draw_geo_segment add_layer mk drawn segment = Py.Ok drawn' →
  Tab3.extends add_layer mk drawn drawn'.
Proof.
  unfold Tab3.draw_geo_segment.
  destruct (Tab3.geo_geometry segment) as [[geoms|x y|coords|t]|]; try done.
  - apply for_each_extends. intros d line d'. apply put_extends.
  - apply put_extends.
  - apply put_extends.
  - intros [= <-]. apply extends_refl.
Qed.

Lemma draw_fallback_segment_extends mk drawn segment drawn' :
  Tab3.draw_fallback_segment add_layer mk drawn segment = Py.Ok drawn' →
  Tab3.extends add_layer mk drawn drawn'.
Proof.
  unfold Tab3.draw_fallback_segment. cbv zeta.
  destruct (_ && _).
  { destruct (Json.iter _) as [lines|]; [|done]. simpl.
    apply for_each_extends. intros d line d'.
    destruct (Json.truthy line); [|intros [= <-]; apply extends_refl].
    destruct (Tab3.swap_points line) as [coords|]; [|done]. apply put_extends. }
  destruct (_ && _).
  { destruct (Json.len _) as [n|]; [|done]. simpl.
    destruct (2 <=? n); [|intros [= <-]; apply extends_refl].
    destruct (Json.index _ 1) as [lat|]; [|done]. simpl.
    destruct (Json.index _ 0) as [lon|]; [|done]. apply put_extends. }
  destruct (_ && _).
  { destruct (Tab3.swap_points _) as [coords|]; [|done]. apply put_extends. }
  intros [= <-]. apply extends_refl.
Qed.

(** One round of the loop over the routes. *)
Lemma add_route_spec (road_segments_df : Tab3.road_segments) (state state' : list Tab3.layer * Z)
    (row_data : Tab3.route_row) :
  Tab3.add_route add_layer road_segments_df state row_data = Py.Ok state' →
  if Tab3.has_segment road_segments_df row_data
  then state'.2 = state.2 + 1
       ∧ Tab3.extends add_layer (λ s, {| Tab3.layer_shape_of := s;
                          Tab3.layer_color :=
                            Tab3.get_color_for_route (Tab3.route_colour row_data);
                          Tab3.layer_tooltip := Tab3.route_street_name row_data;
                          Tab3.layer_status := Tab3.status_text (Tab3.route_colour row_data) |})
                 state.1 state'.1
  else state' = state.
Proof.
  unfold Tab3.add_route, Tab3.draw_matching, Tab3.has_segment. cbv zeta.
  destruct road_segments_df as [rows|rows]; rewrite existsb_filter.
  - destruct (filter _ rows) as [|s matching] eqn:Ef.
    + rewrite bool_decide_false by (by intros ?). by intros [= <-].
    + rewrite bool_decide_true by done.
      destruct (Py.for_each _ _ _) as [drawn|] eqn:El; [|done].
      intros [= <-]. split; [done|]. simpl.
      eapply for_each_extends; [|exact El].
      intros d x d'. apply draw_geo_segment_extends.
  - destruct (filter _ rows) as [|s matching] eqn:Ef.
    + rewrite bool_decide_false by (by intros ?). by intros [= <-].
    + rewrite bool_decide_true by done.
      destruct (Py.for_each _ _ _) as [drawn|] eqn:El; [|done].
      intros [= <-]. split; [done|]. simpl.
      eapply for_each_extends; [|exact El].
      intros d x d'. apply draw_fallback_segment_extends.
Qed.

(** When the route map is built, [routes_added] is the number of routes
    of the frame that have a segment of the same street name, whatever
    was drawn for them; every layer on the map belongs to such a route,
    carries its street name, the colour of its 'Colour' cell and the
    status of its popup, and was accepted by folium. *)
Theorem create_route_map_routes (df : list Tab3.route_row)
    (road_segments_df : Tab3.road_segments) (show_cycleways : bool)
    (drawn : list Tab3.layer) (routes_added : Z) (log log' : list St.message) :
  df ≠ [] → Tab3.segments_empty road_segments_df = false →
  Tab3.create_route_map w add_geojson add_layer df road_segments_df show_cycleways log
  = (Py.Ok (drawn, routes_added), log') →
  log' = log
  ∧ routes_added
    = Z.of_nat (length (filter (λ r, Tab3.has_segment road_segments_df r) df))
  ∧ ∀ l, l ∈ drawn →
      ∃ row_data,
        row_data ∈ df
        ∧ Tab3.has_segment road_segments_df row_data = true
        ∧ Tab3.layer_tooltip l = Tab3.route_street_name row_data
        ∧ Tab3.layer_color l = Tab3.get_color_for_route (Tab3.route_colour row_data)
        ∧ Tab3.layer_status l = Tab3.status_text (Tab3.route_colour row_data)
        ∧ add_layer l = Py.Ok tt.
Proof.
  intros Hdf Hseg. unfold Tab3.create_route_map.
  rewrite bool_decide_false by done. rewrite Hseg. cbn [orb].
  unfold mbind, io_bind, St.bind. rewrite tab3_add_cycleways_silent.
  unfold St.call. intros [= Hrun <-]. split; [done|].
  pose (I := λ (seen : list Tab3.route_row) (state : list Tab3.layer * Z),
     state.2 = Z.of_nat (length (filter (λ r, Tab3.has_segment road_segments_df r) seen))
     ∧ ∀ l, l ∈ state.1 →
         ∃ row_data,
           row_data ∈ df
           ∧ Tab3.has_segment road_segments_df row_data = true
           ∧ Tab3.layer_tooltip l = Tab3.route_street_name row_data
           ∧ Tab3.layer_color l = Tab3.get_color_for_route (Tab3.route_colour row_data)
           ∧ Tab3.layer_status l = Tab3.status_text (Tab3.route_colour row_data)
           ∧ add_layer l = Py.Ok tt).
  apply (py_for_each_invariant I) in Hrun; [exact Hrun | |].
  - split; [done|]. by intros ? ?%elem_of_nil.
  - subst I. cbv beta. intros seen state row state' [Hn Hl] Hrow Hstep.
    apply add_route_spec in Hstep. rewrite filter_app, length_app, filter_cons, filter_nil.
    destruct (Tab3.has_segment road_segments_df row) eqn:Eh.
    + destruct Hstep as [Hn' (extra & Hd & Hextra)].
      case_decide as Hc; [|by destruct Hc]. split; [simpl; lia|].
      rewrite Hd. intros l [Hin | Hin]%elem_of_app; [by apply Hl|].
      rewrite Forall_forall in Hextra. destruct (Hextra l Hin) as (s & -> & Ha).
      by exists row.
    + subst state'. case_decide as Hc; [done|]. split; [simpl; lia | done].
Qed.

(** Asking for the cycleways never changes the outcome of the route
    map, whatever the cycleways file holds and whatever folium does with
    it. *)
Theorem create_route_map_cycleways (df : list Tab3.route_row)
    (road_segments_df : Tab3.road_segments) (log : list St.message) :
  Tab3.create_route_map w add_geojson add_layer df road_segments_df true log
  = Tab3.create_route_map w add_geojson add_layer df road_segments_df false log.
Proof.
  unfold Tab3.create_route_map.
  destruct (bool_decide (df = []) || Tab3.segments_empty road_segments_df); [done|].
  unfold mbind, io_bind, St.bind. by rewrite !tab3_add_cycleways_silent.
Qed.

(** A route whose matching segment in a GeoDataFrame has no geometry
    stops the map with an exception. *)
Theorem create_route_map_null_geometry (df : list Tab3.route_row)
    (rows : list Tab3.geo_row) (show_cycleways : bool)
    (row_data : Tab3.route_row) (name : string) (log : list St.message) :
  row_data ∈ df → Tab3.route_street_name row_data = Some name →
  (∀ s, s ∈ rows → Tab3.geo_street_name s = Some name → Tab3.geo_geometry s = None) →
  (∃ s, s ∈ rows ∧ Tab3.geo_street_name s = Some name) →
  ∃ e,
    Tab3.create_route_map w add_geojson add_layer df (Tab3.GeoDataFrame rows)
      show_cycleways log
    = (Py.Raise e, log).
Proof.
  intros Hrow Hname Hnull (s0 & Hs0 & Hn0).
  assert (df ≠ []) as Hdf by (intros ->; by apply elem_of_nil in Hrow).
  assert (rows ≠ []) as Hrows by (intros ->; by apply elem_of_nil in Hs0).
  unfold Tab3.create_route_map, Tab3.segments_empty.
  rewrite (bool_decide_false (df = [])) by done.
  rewrite (bool_decide_false (rows = [])) by done. cbn [orb].
  unfold mbind, io_bind, St.bind. rewrite tab3_add_cycleways_silent. unfold St.call.
  destruct (for_each_raises df (Tab3.add_route add_layer (Tab3.GeoDataFrame rows))
              row_data ([], 0) Hrow) as [e ->]; [|by exists e].
  intros state. exists Py.AttributeError.
  unfold Tab3.add_route, Tab3.draw_matching. cbv zeta. rewrite Hname.
  destruct (filter _ rows) as [|s matching] eqn:Ef.
  { exfalso. assert (s0 ∈ filter (λ s, Tab3.cell_eq (Tab3.geo_street_name s) (Some name)) rows)
      as Hin; [|by rewrite Ef in Hin; apply elem_of_nil in Hin].
    apply list_elem_of_filter. split; [|done]. rewrite Hn0. simpl.
    by rewrite bool_decide_true. }
  assert (s ∈ filter (λ s, Tab3.cell_eq (Tab3.geo_street_name s) (Some name)) rows) as Hin.
  { rewrite Ef. apply list_elem_of_here. }
  apply list_elem_of_filter in Hin as [Heq Hin].
  assert (Tab3.geo_street_name s = Some name) as Hs.
  { destruct (Tab3.geo_street_name s) as [n|]; [|done]. simpl in Heq.
    apply bool_decide_unpack in Heq. by subst. }
  simpl. unfold Tab3.draw_geo_segment at 1. by rewrite (Hnull s Hin Hs).
Qed.

End route_map.

(** The three outcomes of [get_color]. *)
Lemma get_color_outcomes (change_text : option string) :
  (Tab3.get_color change_text = "Green"
   ∧ ∃ text, change_text = Some text ∧ Tab3.increase_keyword text)
  ∨ (Tab3.get_color change_text = "Red"
     ∧ ∃ text, change_text = Some text ∧ ¬ Tab3.increase_keyword text
               ∧ Tab3.decline_keyword text)
  ∨ (Tab3.get_color change_text = "Gray"
     ∧ (change_text = None
        ∨ ∃ text, change_text = Some text ∧ ¬ Tab3.increase_keyword text
                  ∧ ¬ Tab3.decline_keyword text)).
Proof.
  destruct change_text as [text|]; [|right; right; split; [done | by left]].
  unfold Tab3.get_color. cbv zeta.
  pose proof (increase_keyword_test text) as Hi.
  pose proof (decline_keyword_test text) as Hd.
  destruct (Py.contains "increasing" (Py.lower text) || Py.contains "improved" (Py.lower text)).
  { left. split; [done|]. exists text. split; [done|]. by apply Hi. }
  assert (¬ Tab3.increase_keyword text) as Hni by (by intros ?%Hi).
  destruct (Py.contains "decreasing" (Py.lower text) || Py.contains "dropped" (Py.lower text)
            || Py.contains "decline" (Py.lower text)).
  { right. left. split; [done|]. exists text. split; [done|]. split; [done|]. by apply Hd. }
  assert (¬ Tab3.decline_keyword text) as Hnd by (by intros ?%Hd).
  right. right. split; [done|]. right. by exists text.
Qed.

(** The colour and the status of a route, from its 'Popularity Change'
    text: the popup says 'Highly Popular' exactly for a text with an
    increase keyword, and 'Popularity Dropped' for every other route; the
    route is gray exactly when the text is missing or holds no keyword, so
    a gray route too is said to have dropped. *)
Theorem route_status_of_change (change_text : option string) :
  (Tab3.status_text (Tab3.get_color change_text) = "Highly Popular"
   ↔ ∃ text, change_text = Some text ∧ Tab3.increase_keyword text)
  ∧ (Tab3.status_text (Tab3.get_color change_text) = "Popularity Dropped"
     ↔ ¬ ∃ text, change_text = Some text ∧ Tab3.increase_keyword text)
  ∧ (Tab3.get_color_for_route (Tab3.get_color change_text) = "#9ca3af"
     ↔ change_text = None
       ∨ ∃ text, change_text = Some text ∧ ¬ Tab3.increase_keyword text
                 ∧ ¬ Tab3.decline_keyword text).
Proof.
  destruct (get_color_outcomes change_text)
    as [[-> (text & -> & Hi)] | [[-> (text & -> & Hni & Hd)] | [-> Hgray]]].
  - split; [|split]; split; try done.
    + intros _. by exists text.
    + intros H. exfalso. apply H. by exists text.
    + intros [[=] | (t & [= <-] & Hn & _)]. done.
  - split; [|split]; split; try done.
    + by intros (t & [= <-] & ?).
    + intros _ (t & [= <-] & ?). done.
    + intros [[=] | (t & [= <-] & _ & Hn)]. done.
  - assert (¬ ∃ text, change_text = Some text ∧ Tab3.increase_keyword text) as Hn.
    { intros (t & -> & Ht). destruct Hgray as [[=] | (t' & [= <-] & Hni & _)]. done. }
    split; [|split]; split; try done.
Qed.

Lemma create_route_map_routes_witness :
  let drawn :=
    [ {| Tab3.layer_shape_of :=
           Tab3.PolyLine [(St.JNum (533 # 10), St.JNum (-62 # 10));
                          (St.JNum (533 # 10), St.JNum (-61 # 10))];
         Tab3.layer_color := "#22c55e";
         Tab3.layer_tooltip := Some "Nutley Lane";
         Tab3.layer_status := "Highly Popular" |} ] in
  [] = ([] : list St.message)
  ∧ 1 = Z.of_nat (length (filter (λ r, Tab3.has_segment Tab3.sample_segments r)
                                 Tab3.sample_routes))
  ∧ ∀ l, l ∈ drawn →
      ∃ row_data,
        row_data ∈ Tab3.sample_routes
        ∧ Tab3.has_segment Tab3.sample_segments row_data = true
        ∧ Tab3.layer_tooltip l = Tab3.route_street_name row_data
        ∧ Tab3.layer_color l = Tab3.get_color_for_route (Tab3.route_colour row_data)
        ∧ Tab3.layer_status l = Tab3.status_text (Tab3.route_colour row_data)
        ∧ (λ _ : Tab3.layer, Py.Ok tt) l = Py.Ok tt.
Proof.
  apply (create_route_map_routes St.unreadable_files (λ _, Py.Ok tt) (λ _, Py.Ok tt)
           Tab3.sample_routes Tab3.sample_segments true _ 1 [] []).
  - done.
  - reflexivity.
  - reflexivity.
Defined.

Lemma create_route_map_null_geometry_witness :
  ∃ e,
    Tab3.create_route_map St.unreadable_files (λ _, Py.Ok tt) (λ _, Py.Ok tt)
      [ {| Tab3.route_street_name := Some "Kill Lane"; Tab3.route_colour := "Red" |} ]
      (Tab3.GeoDataFrame
         [ {| Tab3.geo_street_name := Some "Kill Lane"; Tab3.geo_geometry := None |} ])
      false []
    = (Py.Raise e, []).
Proof.
  apply (create_route_map_null_geometry St.unreadable_files (λ _, Py.Ok tt) (λ _, Py.Ok tt)
           [ {| Tab3.route_street_name := Some "Kill Lane"; Tab3.route_colour := "Red" |} ]
           [ {| Tab3.geo_street_name := Some "Kill Lane"; Tab3.geo_geometry := None |} ]
           false
           {| Tab3.route_street_name := Some "Kill Lane"; Tab3.route_colour := "Red" |}
           "Kill Lane" []).
  - apply list_elem_of_here.
  - reflexivity.
  - by intros s ->%list_elem_of_singleton _.
  - eexists. split; [apply list_elem_of_here | reflexivity].
Defined.
(* ------------------------------------------------------------------ *)
(** ** The detail card of tab 2 and the map beside it                  *)
(* ------------------------------------------------------------------ *)

(** The status the map popup gives a street and the one its detail card
    gives it agree exactly for the trends 'Increase' and 'Decrease': for
    any other trend, or none, the popup says 'No Change' and the card
    'Increased Risk'. *)
Theorem map_and_card_status (trend : option string) :
  ((Tab2.trend_style trend).2 = Tab2.safety_status trend
   ↔ trend = Some "Increase" ∨ trend = Some "Decrease")
  ∧ (trend ≠ Some "Increase" → trend ≠ Some "Decrease" →
     (Tab2.trend_style trend).2 = "No Change"
     ∧ Tab2.safety_status trend = "Increased Risk").
Proof.
  unfold Tab2.trend_style, Tab2.safety_status.
  destruct (decide (trend = Some "Increase")) as [->|Hi].
  { split; [split; [by left | done] | done]. }
  rewrite (bool_decide_false (trend = Some "Increase")) by done.
  destruct (decide (trend = Some "Decrease")) as [->|Hd].
  { split; [split; [by right | done] | done]. }
  rewrite !(bool_decide_false (trend = Some "Decrease")) by done.
  split; [|done]. split; [done | by intros [?|?]].
Qed.

(** The detail card fails exactly when the 'Trend Strength' cell or the
    'AI Summary' cell of the row is empty, and then with an
    AttributeError. *)
Theorem create_abnormal_detail_card_raises (street_name : string) (row : Tab2.event_row) :
  (Tab2.event_trend_strength row = Tab2.NaN ∨ Tab2.event_ai_summary row = Tab2.NaN
   → Tab2.create_abnormal_detail_card street_name row = Py.Raise Py.AttributeError)
  ∧ (Tab2.event_trend_strength row ≠ Tab2.NaN → Tab2.event_ai_summary row ≠ Tab2.NaN →
     ∃ card, Tab2.create_abnormal_detail_card street_name row = Py.Ok card
             ∧ Tab2.card_safety_status card = Tab2.safety_status (Tab2.event_trend row)
             ∧ (Tab2.card_safety_color card = "#10b981"
                ↔ Tab2.event_trend row = Some "Decrease")).
Proof.
  unfold Tab2.create_abnormal_detail_card. cbv zeta. split.
  - intros [Hs | Ha].
    + by rewrite Hs.
    + rewrite Ha. by destruct (Tab2.event_trend_strength row).
  - intros Hs Ha.
    destruct (Tab2.event_trend_strength row) as [| |s]; [|done|];
      (destruct (Tab2.event_ai_summary row) as [| |a]; [|done|]);
      simpl; (eexists; split; [reflexivity|]; split; [reflexivity|]);
      simpl; unfold Tab2.safety_status;
      (destruct (decide (Tab2.event_trend row = Some "Decrease")) as [->|Hd];
       [done | rewrite (bool_decide_false (Tab2.event_trend row = Some "Decrease")) by done;
               done]).
Qed.

Lemma visit_vertex_raises (a : Tab2.bounds_acc) (p : Tab2.position) :
  length p ≠ 2%nat → Tab2.visit_vertex a p = Py.Raise Py.ValueError.
Proof. unfold Tab2.visit_vertex. by destruct p as [|x [|y [|z p]]]. Qed.

Lemma visit_vertex_value_error (a : Tab2.bounds_acc) (p : Tab2.position) (e : Py.exn) :
  Tab2.visit_vertex a p = Py.Raise e → e = Py.ValueError.
Proof. unfold Tab2.visit_vertex. destruct p as [|x [|y [|z p]]]; simpl; congruence. Qed.

(** A vertex that is not a pair stops the loop with a ValueError. *)
Lemma calculate_bounds_bad_vertex (geometries : list Tab2.geometry) (p : Tab2.position) :
  p ∈ Tab2.polygon_vertices geometries → length p ≠ 2%nat →
  Tab2.calculate_bounds_from_geometries geometries = Py.Raise Py.ValueError.
Proof.
  intros Hin Hp. unfold Tab2.calculate_bounds_from_geometries.
  rewrite for_each_geometries.
  assert (∀ vs a, p ∈ vs →
            Py.for_each vs Tab2.visit_vertex a = Py.Raise Py.ValueError) as H.
  { induction vs as [|v vs IH]; intros a Hv; [by apply elem_of_nil in Hv|].
    simpl. destruct (Tab2.visit_vertex a v) as [a'|e] eqn:E.
    - simpl. apply IH. apply elem_of_cons in Hv as [->|Hv]; [|done].
      by rewrite visit_vertex_raises in E.
    - apply visit_vertex_value_error in E. by subst e. }
  by rewrite H.
Qed.

Section bad_vertex.
Context {frame : Type} (w : St.world frame).
Context (GEOPANDAS_AVAILABLE : bool) (read_file : St.path → Py.result frame).
Context (is_empty : frame → bool).
Context (add_geojson : frame → Py.result unit).
Context (add_polygon : Tab2.polygon → Py.result unit).

(** A ring vertex that is not a pair of numbers (one with an altitude,
    say) in any Polygon of the segments, be it of a street without
    events, stops the map with a ValueError before anything is drawn and
    without a warning: the bounds are computed outside the guarded
    block. *)
Theorem create_abnormal_events_map_bad_vertex (abnormal_df : list Tab2.event_row)
    (segments : list Tab2.map_segment) (show_cycleways : bool)
    (p : Tab2.position) (log : list St.message) :
  p ∈ Tab2.polygon_vertices (Tab2.map_geometry <$> segments) →
  length p ≠ 2%nat →
  Tab2.create_abnormal_events_map w GEOPANDAS_AVAILABLE read_file is_empty add_geojson
    add_polygon abnormal_df (Some segments) show_cycleways log
  = (Py.Raise Py.ValueError, log).
Proof.
  intros Hin Hp. unfold Tab2.create_abnormal_events_map.
  destruct segments as [|seg segments]; [by apply elem_of_nil in Hin|].
  unfold mbind, io_bind, St.bind, St.call.
  by rewrite (calculate_bounds_bad_vertex _ p Hin Hp).
Qed.

End bad_vertex.

Lemma create_abnormal_events_map_bad_vertex_witness :
  Tab2.create_abnormal_events_map St.unreadable_files false
    (λ _, Py.Raise Py.OSError) (λ _, true) (λ _, Py.Ok tt) (λ _, Py.Ok tt)
    Tab2.sample_events
    (Some [ Tab2.kill_lane_segment;
            {| Tab2.map_street_name := "Rock Road";
               Tab2.map_geometry :=
                 {| Tab2.gtype := Some "Polygon";
                    Tab2.coordinates := Some [[[-61 # 10; 532 # 10; 12 # 1]]] |} |} ])
    false []
  = (Py.Raise Py.ValueError, []).
Proof.
  apply (create_abnormal_events_map_bad_vertex St.unreadable_files false
           (λ _, Py.Raise Py.OSError) (λ _, true) (λ _, Py.Ok tt) (λ _, Py.Ok tt)
           Tab2.sample_events
           [ Tab2.kill_lane_segment;
             {| Tab2.map_street_name := "Rock Road";
                Tab2.map_geometry :=
                  {| Tab2.gtype := Some "Polygon";
                     Tab2.coordinates := Some [[[-61 # 10; 532 # 10; 12 # 1]]] |} |} ]
           false [-61 # 10; 532 # 10; 12 # 1] []).
  - vm_compute. do 3 apply list_elem_of_further. apply list_elem_of_here.
  - simpl. lia.
Defined.

Lemma map_and_card_status_witness :
  (Tab2.trend_style (Some "Stable")).2 = "No Change"
  ∧ Tab2.safety_status (Some "Stable") = "Increased Risk".
Proof.
  apply (proj2 (map_and_card_status (Some "Stable"))); discriminate.
Defined.

Lemma create_abnormal_detail_card_raises_witness :
  Tab2.create_abnormal_detail_card "Nutley Lane"
    {| Tab2.event_street_name := Some "Nutley Lane"; Tab2.event_trend := Some "Decrease";
       Tab2.event_trend_strength := Tab2.Text "moderate";
       Tab2.event_ai_summary := Tab2.NaN |}
  = Py.Raise Py.AttributeError.
Proof.
  apply (proj1 (create_abnormal_detail_card_raises "Nutley Lane"
           {| Tab2.event_street_name := Some "Nutley Lane"; Tab2.event_trend := Some "Decrease";
              Tab2.event_trend_strength := Tab2.Text "moderate";
              Tab2.event_ai_summary := Tab2.NaN |})).
  by right.
Defined.
